(** * Video / reel metadata downloader: a shallow embedding and its properties

    The development follows the four Python scripts of the repository:
    [main.py] (video download dispatcher), [media_meta_data.py] (metadata
    normalizers, dispatcher and the CSV row loop), [temp.py] (the stand-alone
    Instagram scraper) and [youtube_metadata_fetcher.py].

    Conventions of the model.
    - A Python [str] is a [string]; its characters are the code points
      0..255.  On that range [str.isspace], [str.lower], the classes [\d] and
      [\s] of [re] are the functions written below.
    - A function that may raise returns an [outcome]; a function that calls a
      collaborator (HTTP client, HTML parser, YouTube client, environment,
      file system) runs in the monad [M], which threads a [world]: the files
      and the log of the collaborator calls made so far.  What a collaborator
      answers is given by an [Env], a parameter of every theorem.
    - The library [urllib.parse] and the conversion [int] are modelled as
      CPython 3.11 has them.
    - [time.sleep] is left out.  The [print]s are taken to return and are
      left out, except those of three [except] blocks: the one of a row, the
      one around the script of [media_meta_data.py] and the one of the main
      block of [main.py].  These blocks are what keeps an [Exception] from
      ending the loop or the script; their texts begin with U+274C and hold
      the exception, printing them can fail, and an exception raised in an
      [except] block leaves it.  They are [print] of [Env], which may raise.
    - [DataFrame.to_csv] may fail ([to_csv_fault] of [Env]), and
      [DataFrame.astype(str)] is the one of the pandas installed
      ([pandas_keeps_missing] of [Env]): the repository pins no version.
    - The script of [temp.py], [youtube_metadata_fetcher.py] and the
      downloaders of [main.py] come after these, as programs [prog S] over a
      state of their own: the CSV files and the requests made, or the list
      of the actions attempted on the network and the file system. *)

From Stdlib Require Import Strings.String Strings.Ascii NArith ZArith Lia Bool List.
From Stdlib Require Import DecimalString.
From stdpp Require Import base option list gmap strings.

Local Open Scope string_scope.
Local Open Scope bool_scope.

(** Appending to a text that starts with a known character is computed. *)
#[local] Arguments String.append !s1 s2 : simpl nomatch.

(** ** Characters *)

Definition code (c : ascii) : nat := nat_of_ascii c.

Definition between (lo hi : nat) (c : ascii) : bool :=
  Nat.leb lo (code c) && Nat.leb (code c) hi.

(** [str.isspace] and the class [\s], on code points below 256. *)
Definition is_space (c : ascii) : bool :=
  between 9 13 c || between 28 32 c || Nat.eqb (code c) 133 || Nat.eqb (code c) 160.

(** The class [\d]. *)
Definition is_digit (c : ascii) : bool := between 48 57 c.

Definition is_upper (c : ascii) : bool :=
  between 65 90 c || between 192 214 c || between 216 222 c.

Definition is_ascii_alpha (c : ascii) : bool := between 65 90 c || between 97 122 c.

Definition lower_char (c : ascii) : ascii :=
  if is_upper c then ascii_of_nat (code c + 32) else c.

Definition chr_eqb (a b : ascii) : bool := Ascii.eqb a b.

(** The line feed, the only character the anchor [$] looks at. *)
Definition LF : ascii := ascii_of_nat 10.

(** ** Strings: the [str] methods the scripts use *)

Fixpoint str_map (f : ascii -> ascii) (s : string) : string :=
  match s with
  | EmptyString => EmptyString
  | String c t => String (f c) (str_map f t)
  end.

Fixpoint str_filter (p : ascii -> bool) (s : string) : string :=
  match s with
  | EmptyString => EmptyString
  | String c t => if p c then String c (str_filter p t) else str_filter p t
  end.

Fixpoint str_forallb (p : ascii -> bool) (s : string) : bool :=
  match s with
  | EmptyString => true
  | String c t => p c && str_forallb p t
  end.

Fixpoint str_existsb (p : ascii -> bool) (s : string) : bool :=
  match s with
  | EmptyString => false
  | String c t => p c || str_existsb p t
  end.

Definition is_empty (s : string) : bool :=
  match s with EmptyString => true | _ => false end.

(** [c in s] *)
Definition has_char (c : ascii) (s : string) : bool := str_existsb (chr_eqb c) s.

(** [s.lower()] *)
Definition lower (s : string) : string := str_map lower_char s.

(** [s.lstrip(chars)], [s.rstrip(chars)] with the set of characters as a predicate. *)
Fixpoint lstrip_by (p : ascii -> bool) (s : string) : string :=
  match s with
  | EmptyString => EmptyString
  | String c t => if p c then lstrip_by p t else s
  end.

Fixpoint rstrip_by (p : ascii -> bool) (s : string) : string :=
  match s with
  | EmptyString => EmptyString
  | String c t =>
      let t' := rstrip_by p t in
      if is_empty t' && p c then EmptyString else String c t'
  end.

(** [s.strip()] *)
Definition strip (s : string) : string := rstrip_by is_space (lstrip_by is_space s).

(** [s.startswith(p)] *)
Fixpoint starts_with (p s : string) : bool :=
  match p, s with
  | EmptyString, _ => true
  | String a p', String b s' => chr_eqb a b && starts_with p' s'
  | String _ _, EmptyString => false
  end.

(** [s[n:]] *)
Fixpoint drop_str (n : nat) (s : string) : string :=
  match n, s with
  | O, _ => s
  | S n', String _ t => drop_str n' t
  | S _, EmptyString => EmptyString
  end.

(** [s.replace(old, new)] for a non-empty [old]: the occurrences are found
    from the left and do not overlap.  [skip] counts the characters of an
    occurrence that are still to be passed over. *)
Fixpoint replace_from (old new : string) (skip : nat) (s : string) : string :=
  match s with
  | EmptyString => EmptyString
  | String c t =>
      match skip with
      | S k => replace_from old new k t
      | O =>
          if starts_with old s
          then new ++ replace_from old new (String.length old - 1) t
          else String c (replace_from old new 0 t)
      end
  end.

Definition str_replace (old new s : string) : string := replace_from old new 0 s.

(** The part of [s] before the first character satisfying [p], and the rest
    (which starts with that character, or is empty). *)
Fixpoint break_at (p : ascii -> bool) (s : string) : string * string :=
  match s with
  | EmptyString => (EmptyString, EmptyString)
  | String c t =>
      if p c then (EmptyString, s)
      else let '(a, b) := break_at p t in (String c a, b)
  end.

(** [int(s)] on a string of decimal digits. *)
Definition digit_value (c : ascii) : N := N.of_nat (code c - 48).

Fixpoint int_digits (acc : N) (s : string) : N :=
  match s with
  | EmptyString => acc
  | String c t => int_digits (10 * acc + digit_value c)%N t
  end.

Definition int_of_str (s : string) : N := int_digits 0%N s.

(** [str(n)] and the format [{n:02d}] for a natural number. *)
Definition str_of_int (n : N) : string := NilZero.string_of_uint (N.to_uint n).

Definition fmt_02d (n : N) : string :=
  let s := str_of_int n in
  if Nat.ltb (String.length s) 2 then "0" ++ s else s.

(** ** Regular expressions: the fragment of [re] the scripts use

    Repetition is only ever applied to a character class in the scripts'
    patterns, so [Star], [Plus] and [Rep] take a class.  The matcher is a
    backtracking one, as [re] is: it lists the ways a pattern matches at the
    start of the text in the order [re] tries them (alternatives left to
    right, repetitions and options greedy), so the head of the list is the
    match [re] reports. *)

Inductive regex : Type :=
| Lit (s : string)
| Cat (r1 r2 : regex)
| Alt (r1 r2 : regex)
| Opt (r : regex)
| Star (p : ascii -> bool)
| Plus (p : ascii -> bool)
| Rep (n : nat) (p : ascii -> bool)
| Grp (i : nat) (r : regex)
| Bol
| Eol.

(** The groups that took part in a match, the latest binding first. *)
Definition captures : Type := list (nat * string).

Fixpoint group (i : nat) (g : captures) : option string :=
  match g with
  | [] => None
  | (j, s) :: g' => if Nat.eqb i j then Some s else group i g'
  end.

(** One way to match: the text matched, the text left, the groups. *)
Definition found : Type := string * string * captures.

Fixpoint take_lit (p s : string) : option string :=
  match p, s with
  | EmptyString, _ => Some s
  | String a p', String b s' => if chr_eqb a b then take_lit p' s' else None
  | String _ _, EmptyString => None
  end.

Definition push_char (c : ascii) (x : string * string) : string * string :=
  (String c (fst x), snd x).

(** The splits of [s] whose first part lies in the class, longest first. *)
Fixpoint star_class (p : ascii -> bool) (s : string) : list (string * string) :=
  match s with
  | EmptyString => [(EmptyString, EmptyString)]
  | String c t =>
      if p c then List.map (push_char c) (star_class p t) ++ [(EmptyString, s)]
      else [(EmptyString, s)]
  end.

Definition plus_class (p : ascii -> bool) (s : string) : list (string * string) :=
  match s with
  | EmptyString => []
  | String c t => if p c then List.map (push_char c) (star_class p t) else []
  end.

Fixpoint rep_class (n : nat) (p : ascii -> bool) (s : string) : list (string * string) :=
  match n with
  | O => [(EmptyString, s)]
  | S k =>
      match s with
      | EmptyString => []
      | String c t => if p c then List.map (push_char c) (rep_class k p t) else []
      end
  end.

Definition with_groups (g : captures) (x : string * string) : found := (fst x, snd x, g).

(** [$] without [re.MULTILINE]: at the end of the text, or just before a
    line feed that ends it. *)
Definition at_eol (s : string) : bool :=
  match s with
  | EmptyString => true
  | String c EmptyString => chr_eqb c LF
  | _ => false
  end.

(** [bos] tells whether the position is the beginning of the text. *)
Fixpoint rx (r : regex) (bos : bool) (s : string) (g : captures) : list found :=
  match r with
  | Lit p => match take_lit p s with Some t => [(p, t, g)] | None => [] end
  | Cat r1 r2 =>
      List.flat_map
        (fun x1 : found =>
           let '(m1, s1, g1) := x1 in
           List.map (fun x2 : found => let '(m2, s2, g2) := x2 in (m1 ++ m2, s2, g2))
                    (rx r2 (bos && is_empty m1) s1 g1))
        (rx r1 bos s g)
  | Alt r1 r2 => rx r1 bos s g ++ rx r2 bos s g
  | Opt r1 => rx r1 bos s g ++ [(EmptyString, s, g)]
  | Star p => List.map (with_groups g) (star_class p s)
  | Plus p => List.map (with_groups g) (plus_class p s)
  | Rep n p => List.map (with_groups g) (rep_class n p s)
  | Grp i r1 =>
      List.map (fun x : found => let '(m, t, g') := x in (m, t, (i, m) :: g')) (rx r1 bos s g)
  | Bol => if bos then [(EmptyString, s, g)] else []
  | Eol => if at_eol s then [(EmptyString, s, g)] else []
  end.

Definition ends_text (x : found) : bool := is_empty (snd (fst x)).

(** [pattern.fullmatch(s)]: the first way to match that uses all of [s]. *)
Definition fullmatch (r : regex) (s : string) : option captures :=
  match List.filter ends_text (rx r true s []) with
  | x :: _ => Some (snd x)
  | [] => None
  end.

(** [re.search(pattern, s)]: the first match at the leftmost position that
    has one. *)
Fixpoint search_from (r : regex) (bos : bool) (s : string) : option captures :=
  match rx r bos s [] with
  | x :: _ => Some (snd x)
  | [] =>
      match s with
      | EmptyString => None
      | String _ t => search_from r false t
      end
  end.

Definition search (r : regex) (s : string) : option captures := search_from r true s.

(** ** Exceptions and outcomes *)

(** The exception classes the scripts tell apart.  [RequestException] stands
    for [requests.exceptions.RequestException] and its subclasses
    (connection errors, timeouts, [HTTPError]); [EnvironmentError] is
    [OSError]; [KeyboardInterrupt] stands for the [BaseException]s that are
    no [Exception]. *)
Inductive exn : Type :=
| ValueError
| TypeError
| KeyError
| AttributeError
| EnvironmentError
| RequestException
| OtherException
| KeyboardInterrupt.

(** [isinstance(e, Exception)], what [except Exception] catches. *)
Definition is_Exception (e : exn) : bool :=
  match e with KeyboardInterrupt => false | _ => true end.

(** [isinstance(e, requests.exceptions.RequestException)] *)
Definition is_RequestException (e : exn) : bool :=
  match e with RequestException => true | _ => false end.

Inductive outcome (A : Type) : Type :=
| Ret (a : A)
| Raise (e : exn).
Arguments Ret {A} a.
Arguments Raise {A} e.

(** ** Python values and the collaborators' data *)

Inductive pyval : Type :=
| PNone
| PStr (s : string)
| PInt (z : Z)
| PNaN.

(** A [dict] with string keys, in insertion order. *)
Definition pydict : Type := list (string * pyval).

Fixpoint dict_get (k : string) (d : pydict) : pyval :=
  match d with
  | [] => PNone
  | (k', v) :: d' => if String.eqb k k' then v else dict_get k d'
  end.

(** Truth value of an optional string: [None] and [""] are false. *)
Definition nonempty (o : option string) : bool :=
  match o with Some s => negb (is_empty s) | None => false end.

(** [o or ""] *)
Definition or_empty (o : option string) : string :=
  match o with Some s => if is_empty s then EmptyString else s | None => EmptyString end.

Definition of_opt (o : option string) : pyval :=
  match o with Some s => PStr s | None => PNone end.

(** A response of [requests.get]: status, body text, and what [.json()] gives. *)
Record http_response : Type := {
  status_code : nat;
  text : string;
  json : outcome pydict
}.

(** A parsed HTML document, as far as the scripts look at it:
    [soup.find("meta", {"property": prop})] gives no tag ([None]) or a tag,
    whose [content] attribute may be absent. *)
Definition soup : Type := string -> option (option string).

(** The YouTube Data API's answers, with the members the scripts read; an
    absent member is [None]. *)
Record yt_snippet : Type := {
  sn_title : option string;
  sn_description : option string;
  sn_channelId : option string;
  sn_publishedAt : option string;
  sn_thumbnail_default_url : option string;
  sn_defaultAudioLanguage : option string
}.

Record yt_video : Type := {
  v_snippet : yt_snippet;
  v_duration : option string
}.

(** A channel item: its [statistics] member may be missing, and within it
    [subscriberCount]. *)
Record yt_channel : Type := {
  ch_statistics : option (option string)
}.

(** What the downloaders of [main.py] return: the metadata and the path of
    the video file. *)
Definition download_result : Type := pydict * string.

(** The calls to collaborators that reach outside the process.  A request
    is recorded with its URL and query parameters; the headers and the
    timeout of the Instagram request are constants and are left out. *)
Inductive call : Type :=
| RequestsGet (url : string) (params : list (string * string))
| VideosList (id : option string)
| ChannelsList (id : option string)
| DownloadTiktok (url key : string)
| DownloadYoutube (url : string)
| DownloadInstagram (url : string) (logged_in : bool)
| InstaloaderLogin (user password : string).

(** What an [except] block prints: [❌ Record {n}: Error: {e}] in the row
    loop, [❌ Error processing CSV: {e}] at the end of [media_meta_data.py],
    [❌ Error: {e}] at the end of [main.py]. *)
Inductive message : Type :=
| RecordError (record : nat) (e : exn)
| ProcessingError (e : exn)
| MainError (e : exn).

(** ** The table (a data frame, a CSV file) and the world *)

Record table : Type := {
  columns : list string;
  rows : list (list pyval)
}.

(** The environment: what each collaborator answers, given the calls made
    before.  [check_bracketed_netloc] is [urllib]'s validation of an
    authority that holds both brackets (an IPv6 or IPvFuture literal).
    [nfkc_delimiter n] tells whether [unicodedata.normalize('NFKC', n)]
    differs from [n] and holds one of the characters [/ ? # @ :], as it does
    for a netloc with U+2100; on the code points below 256 CPython answers
    no, and no theorem depends on the answer.
    [int_max_str_digits] is the interpreter's limit on the digits of a text
    converted to an integer ([sys.get_int_max_str_digits()], 4300 unless set
    otherwise; 0 stands for no limit).  [response.get("items")] of the two
    YouTube calls is a list, empty when the member is missing.
    [pandas_keeps_missing] tells the version of pandas: [astype(str)] turns
    a missing value into the text [nan] up to pandas 2 and leaves it missing
    from pandas 3 on.  [to_csv_fault] tells whether [df.to_csv(path)] fails
    (a locked file, a full disk, a character that cannot be encoded): with
    which exception, and what it leaves in the file when it has touched it.
    [print] is the printing of an [except] block. *)
Record Env : Type := {
  check_bracketed_netloc : string -> bool;
  nfkc_delimiter : string -> bool;
  int_max_str_digits : nat;
  os_getenv : string -> option string;
  requests_get : list call -> string -> list (string * string) -> outcome http_response;
  BeautifulSoup : string -> outcome soup;
  videos_list : list call -> option string -> outcome (list yt_video);
  channels_list : list call -> option string -> outcome (list yt_channel);
  download_tiktok : list call -> string -> string -> outcome (option download_result);
  download_youtube : list call -> string -> outcome (option download_result);
  download_instagram : list call -> string -> bool -> outcome (option download_result);
  instaloader_login : list call -> string -> string -> outcome unit;
  pandas_keeps_missing : bool;
  to_csv_fault : list call -> string -> table -> option (exn * option table);
  print : list call -> message -> outcome unit
}.

Record world : Type := {
  files : gmap string table;
  calls : list call
}.

(** ** The monad of the effectful code *)

Definition M (A : Type) : Type := world -> outcome A * world.

Definition ret {A} (a : A) : M A := fun w => (Ret a, w).

Definition raise {A} (e : exn) : M A := fun w => (Raise e, w).

Definition bind {A B} (m : M A) (k : A -> M B) : M B :=
  fun w =>
    match m w with
    | (Ret a, w') => k a w'
    | (Raise e, w') => (Raise e, w')
    end.

Notation "'let*' x ':=' m 'in' k" := (bind m (fun x => k))
  (at level 10, x name, m at level 100, k at level 200).

(** [lift o]: an outcome computed without effect. *)
Definition lift {A} (o : outcome A) : M A := fun w => (o, w).

(** [try: body / except <classes caught>: handler] *)
Definition try_except {A} (body : M A) (caught : exn -> bool) (handler : exn -> M A) : M A :=
  fun w =>
    match body w with
    | (Ret a, w') => (Ret a, w')
    | (Raise e, w') => if caught e then handler e w' else (Raise e, w')
    end.

(** A call to a collaborator: it is logged, and answered from the log so far. *)
Definition invoke {A} (c : call) (answer : list call -> outcome A) : M A :=
  fun w => (answer (calls w), {| files := files w; calls := calls w ++ [c] |}).

Definition write_file (path : string) (t : table) : M unit :=
  fun w => (Ret tt, {| files := <[path := t]> (files w); calls := calls w |}).

Definition matched {A} (o : option A) : bool :=
  match o with Some _ => true | None => false end.

(** [int(s)] for a text of decimal digits: CPython raises [ValueError] when
    the text has more digits than the limit; a limit is never below 640. *)
Definition too_long (E : Env) (s : string) : bool :=
  negb (Nat.eqb (int_max_str_digits E) 0) &&
  Nat.ltb (Nat.max 640 (int_max_str_digits E)) (String.length s).

Definition py_int (E : Env) (s : string) : outcome N :=
  if too_long E s then Raise ValueError else Ret (int_of_str s).

(** ** [urllib.parse]: the [netloc] of [urlparse(url)], as in CPython 3.11

    [urlsplit] strips leading C0 controls and spaces, removes tab, carriage
    return and line feed, splits off a scheme, and takes the text between a
    leading [//] and the next [/], [?] or [#] as the netloc.  It raises
    [ValueError] when the netloc holds one bracket without the other, or both
    and the bracketed host is refused, and at the end when [_checknetloc]
    refuses the netloc. *)
Module urllib.
Section WithEnv.
Context (E : Env).

Definition is_c0_control_or_space (c : ascii) : bool := Nat.leb (code c) 32.

Definition is_unsafe_byte (c : ascii) : bool :=
  Nat.eqb (code c) 9 || Nat.eqb (code c) 13 || Nat.eqb (code c) 10.

Definition is_scheme_char (c : ascii) : bool :=
  between 97 122 c || between 65 90 c || between 48 57 c || has_char c "+-.".

Definition is_netloc_delim (c : ascii) : bool := has_char c "/?#".

(** The URL after its scheme and colon, when it starts with one. *)
Definition after_scheme (url : string) : string :=
  let '(pre, rest) := break_at (chr_eqb ":") url in
  match pre, rest with
  | String c0 _, String _ after =>
      if is_ascii_alpha c0 && str_forallb is_scheme_char pre then after else url
  | _, _ => url
  end.

(** [c.isascii()] *)
Definition is_ascii (c : ascii) : bool := Nat.ltb (code c) 128.

(** [_checknetloc(netloc)]: nothing to check in an empty or ASCII netloc;
    otherwise the netloc without its [@ : # ?] must not get one of
    [/ ? # @ :] by NFKC normalization. *)
Definition checknetloc (netloc : string) : outcome unit :=
  if is_empty netloc || str_forallb is_ascii netloc then Ret tt
  else
    let n := str_filter (fun c => negb (has_char c "@:#?")) netloc in
    if nfkc_delimiter E n then Raise ValueError else Ret tt.

(** The end of [urlsplit]: [_checknetloc(netloc)], then the result. *)
Definition checked (netloc : string) : outcome string :=
  match checknetloc netloc with
  | Ret _ => Ret netloc
  | Raise e => Raise e
  end.

Definition urlparse_netloc (url : string) : outcome string :=
  let url := lstrip_by is_c0_control_or_space url in
  let url := str_filter (fun c => negb (is_unsafe_byte c)) url in
  let url := after_scheme url in
  if starts_with "//" url then
    let netloc := fst (break_at is_netloc_delim (drop_str 2 url)) in
    let lb := has_char "[" netloc in
    let rb := has_char "]" netloc in
    if (lb && negb rb) || (rb && negb lb) then Raise ValueError
    else if lb && rb then
      if check_bracketed_netloc E netloc then checked netloc else Raise ValueError
    else checked netloc
  else checked EmptyString.

End WithEnv.
End urllib.

(** ** main.py *)
Module main.
Section WithEnv.
Context (E : Env).

(** The class of [sanitize_filename]: less-than, greater-than, colon, slash,
    backslash, bar, question mark, star, and the double quote (code point 34). *)
Definition is_reserved (c : ascii) : bool :=
  has_char c "<>:/\|?*" || Nat.eqb (code c) 34.

(** [re.sub(pattern, '_', s)] with that class as pattern. *)
Definition sanitize_filename (s : string) : string :=
  str_map (fun c => if is_reserved c then "_"%char else c) s.

Definition youtube_host : regex := Cat (Grp 1 (Alt (Lit "youtube.com") (Lit "youtu.be"))) Eol.
Definition tiktok_host : regex := Cat (Grp 1 (Lit "tiktok.com")) Eol.
Definition instagram_host : regex := Cat (Grp 1 (Lit "instagram.com")) Eol.

Definition detect_platform (url : string) : outcome string :=
  let url := strip url in
  if is_empty url then Ret "unknown"
  else
    match urllib.urlparse_netloc E url with
    | Raise e => Raise e
    | Ret netloc =>
        let domain := lower netloc in
        if matched (search youtube_host domain) then Ret "youtube"
        else if matched (search tiktok_host domain) then Ret "tiktok"
        else if matched (search instagram_host domain) then Ret "instagram"
        else Ret "unknown"
    end.

(** The three downloaders are collaborators here: each is a logged call. *)
Definition download_video (url : string) : M (option download_result) :=
  let* platform := lift (detect_platform url) in
  if String.eqb platform "unknown" then ret None
  else if String.eqb platform "tiktok" then
    let rapidapi_key := os_getenv E "RAPIDAPI_KEY" in
    if negb (nonempty rapidapi_key) then raise EnvironmentError
    else
      let key := or_empty rapidapi_key in
      invoke (DownloadTiktok url key) (fun h => download_tiktok E h url key)
  else if String.eqb platform "youtube" then
    invoke (DownloadYoutube url) (fun h => download_youtube E h url)
  else if String.eqb platform "instagram" then
    let USERNAME := os_getenv E "INSTA_USERNAME" in
    let PASSWORD := os_getenv E "INSTA_PASSWORD" in
    if nonempty USERNAME && nonempty PASSWORD then
      let u := or_empty USERNAME in
      let p := or_empty PASSWORD in
      let* _ := invoke (InstaloaderLogin u p) (fun h => instaloader_login E h u p) in
      invoke (DownloadInstagram url true) (fun h => download_instagram E h url true)
    else
      invoke (DownloadInstagram url false) (fun h => download_instagram E h url false)
  else ret None.

End WithEnv.
End main.

(** ** youtube_metadata_fetcher.py *)
Module youtube_metadata_fetcher.

Definition is_id_char (c : ascii) : bool :=
  between 65 90 c || between 97 122 c || between 48 57 c || chr_eqb c "_" || chr_eqb c "-".

Definition patterns : list regex :=
  [ Cat (Alt (Lit "v=") (Alt (Lit "/v/") (Alt (Lit "youtu.be/") (Lit "shorts/"))))
        (Grp 1 (Rep 11 is_id_char)) ].

Fixpoint first_match (ps : list regex) (url : string) : option string :=
  match ps with
  | [] => None
  | p :: ps' =>
      match search p url with
      | Some m => group 1 m
      | None => first_match ps' url
      end
  end.

Definition extract_video_id (url : string) : option string := first_match patterns url.

End youtube_metadata_fetcher.

(** ** What the Instagram scrapers share with the library [requests] *)

(** [r.raise_for_status()]: [HTTPError] for a status from 400 to 599. *)
Definition raise_for_status (r : http_response) : outcome unit :=
  if Nat.leb 400 (status_code r) && Nat.ltb (status_code r) 600
  then Raise RequestException else Ret tt.

(** The local function [og] of both scrapers:
    [tag["content"].strip() if tag and tag.get("content") else None]. *)
Definition og (sp : soup) (prop : string) : option string :=
  match sp prop with
  | Some (Some c) => if is_empty c then None else Some (strip c)
  | Some None => None
  | None => None
  end.

(** ** temp.py *)
Module temp.
Section WithEnv.
Context (E : Env).

(** The body of the [try].  The title is read and trimmed of its
    "• Instagram" suffix in the script, and then not used; only the read is
    kept here. *)
Definition fetch_instagram_meta_try (url : string) : M pydict :=
  let* r := invoke (RequestsGet url []) (fun h => requests_get E h url []) in
  let* _ := lift (raise_for_status r) in
  let* sp := lift (BeautifulSoup E (text r)) in
  let title := og sp "og:title" in
  let desc := og sp "og:description" in
  let image := og sp "og:image" in
  ret [ ("url", PStr url);
        ("description", PStr (or_empty desc));
        ("thumbnail", PStr (or_empty image)) ].

Definition fetch_instagram_meta (url : string) : M pydict :=
  try_except (fetch_instagram_meta_try url) is_Exception
    (fun _ => ret [ ("url", PStr url); ("description", PStr ""); ("thumbnail", PStr "") ]).

End WithEnv.
End temp.

(** ** media_meta_data.py *)
Module media_meta_data.
Section WithEnv.
Context (E : Env).

(** *** Instagram *)

Definition fetch_instagram_meta_try (url : string) : M pydict :=
  let* r := invoke (RequestsGet url []) (fun h => requests_get E h url []) in
  let* _ := lift (raise_for_status r) in
  let* sp := lift (BeautifulSoup E (text r)) in
  let desc := og sp "og:description" in
  let image := og sp "og:image" in
  ret [ ("url", PStr (or_empty (Some url)));
        ("description", PStr (str_replace "nan" "" (or_empty desc)));
        ("thumbnail", PStr (str_replace "nan" "" (or_empty image))) ].

Definition fetch_instagram_meta (url : string) : M pydict :=
  try_except (fetch_instagram_meta_try url) is_Exception
    (fun _ => ret [ ("url", PStr url); ("description", PStr ""); ("thumbnail", PStr "") ]).

(** *** YouTube duration *)

Definition pattern : regex :=
  Cat (Lit "PT")
    (Cat (Opt (Cat (Grp 1 (Plus is_digit)) (Lit "H")))
       (Cat (Opt (Cat (Grp 2 (Plus is_digit)) (Lit "M")))
            (Opt (Cat (Grp 3 (Plus is_digit)) (Lit "S"))))).

(** [int(match.group(i)) if match.group(i) else 0] *)
Definition group_int (i : nat) (m : captures) : outcome N :=
  if nonempty (group i m) then py_int E (or_empty (group i m)) else Ret 0%N.

Definition parse_youtube_duration_short (duration : string) : outcome (option string) :=
  match fullmatch pattern duration with
  | None => Ret None
  | Some m =>
      match group_int 1 m with
      | Raise e => Raise e
      | Ret hours =>
          match group_int 2 m with
          | Raise e => Raise e
          | Ret minutes =>
              match group_int 3 m with
              | Raise e => Raise e
              | Ret seconds =>
                  Ret (Some (if N.eqb hours 0
                             then str_of_int minutes ++ ":" ++ fmt_02d seconds
                             else str_of_int hours ++ ":" ++ fmt_02d minutes ++ ":"
                                  ++ fmt_02d seconds))
              end
          end
      end
  end.

(** *** TikTok *)

Definition oembed_endpoint : string := "https://www.tiktok.com/oembed".

Fixpoint dict_has (k : string) (d : pydict) : bool :=
  match d with
  | [] => false
  | (k', _) :: d' => String.eqb k k' || dict_has k d'
  end.

(** [BeautifulSoup(data.get("html", ""), "html.parser")]; a value that is no
    text is refused by the parser. *)
Definition parse_embed_html (data : pydict) : outcome soup :=
  if dict_has "html" data then
    match dict_get "html" data with
    | PStr html => BeautifulSoup E html
    | _ => Raise TypeError
    end
  else BeautifulSoup E "".

Definition fetch_tiktok_reel_metadata (reel_url : string) : M (option pydict) :=
  let params := [("url", reel_url)] in
  try_except
    (let* response := invoke (RequestsGet oembed_endpoint params)
                             (fun h => requests_get E h oembed_endpoint params) in
     let* _ := lift (raise_for_status response) in
     let* data := lift (json response) in
     let* _ := lift (parse_embed_html data) in
     ret (Some [ ("Title / Headline", dict_get "title" data);
                 ("Creator / Channel", dict_get "author_url" data);
                 ("Thumbnail Url", dict_get "thumbnail_url" data) ]))
    is_RequestException
    (fun _ => ret None).

(** *** YouTube API *)

Definition extract_video_id (url : string) : option string :=
  youtube_metadata_fetcher.first_match
    [ Cat (Alt (Lit "v=") (Alt (Lit "/v/") (Alt (Lit "youtu.be/") (Lit "shorts/"))))
          (Grp 1 (Rep 11 youtube_metadata_fetcher.is_id_char)) ] url.

Definition get_channel_statistics (channel_id : option string) : M (option string) :=
  let* items := invoke (ChannelsList channel_id) (fun h => channels_list E h channel_id) in
  match items with
  | [] => ret None
  | ch :: _ =>
      match ch_statistics ch with
      | None => raise KeyError
      | Some subscriberCount => ret subscriberCount
      end
  end.

(** [str(x)] inside an f-string, for an optional text. *)
Definition fmt_opt (o : option string) : string :=
  match o with Some s => s | None => "None" end.

(** [content.get("duration")] is handed to [fullmatch], which refuses [None]. *)
Definition duration_of (d : option string) : outcome pyval :=
  match d with
  | None => Raise TypeError
  | Some s =>
      match parse_youtube_duration_short s with
      | Ret o => Ret (of_opt o)
      | Raise e => Raise e
      end
  end.

Definition fetch_video_data (video_id : option string) : M (option pydict) :=
  let* items := invoke (VideosList video_id) (fun h => videos_list E h video_id) in
  match items with
  | [] => ret None
  | item :: _ =>
      let snippet := v_snippet item in
      let* subsribers := get_channel_statistics (sn_channelId snippet) in
      let* duration := lift (duration_of (v_duration item)) in
      ret (Some
        [ ("Title / Headline", of_opt (sn_title snippet));
          ("Description / Summary", of_opt (sn_description snippet));
          ("Creator / Channel",
             PStr ("https://www.youtube.com/channel/" ++ fmt_opt (sn_channelId snippet)));
          ("Publish Date",
             if nonempty (sn_publishedAt snippet)
             then PStr (fst (break_at (chr_eqb "T") (or_empty (sn_publishedAt snippet))))
             else PNone);
          ("Thumbnail Url", of_opt (sn_thumbnail_default_url snippet));
          ("Language", of_opt (sn_defaultAudioLanguage snippet));
          ("Duration", duration);
          ("Followers / Subscribers", of_opt subsribers) ])
  end.

(** *** Platform detection and dispatch *)

Definition detect_platform (url : string) : outcome string :=
  let url := strip url in
  if is_empty url then Ret "unknown"
  else
    match urllib.urlparse_netloc E url with
    | Raise e => Raise e
    | Ret netloc =>
        let domain := lower netloc in
        if matched (search (Cat (Grp 1 (Alt (Lit "youtube.com") (Lit "youtu.be"))) Eol) domain)
        then Ret "youtube"
        else if matched (search (Cat (Grp 1 (Lit "tiktok.com")) Eol) domain) then Ret "tiktok"
        else if matched (search (Cat (Grp 1 (Lit "instagram.com")) Eol) domain)
        then Ret "instagram"
        else Ret "unknown"
    end.

(** The value returned is a [dict] or [None]: an [option pydict]. *)
Definition download_metadata (row_num : nat) (url : string) : M (option pydict) :=
  let* platform := lift (detect_platform url) in
  if String.eqb platform "unknown" then ret None
  else if String.eqb platform "youtube" then fetch_video_data (extract_video_id url)
  else if String.eqb platform "tiktok" then fetch_tiktok_reel_metadata url
  else if String.eqb platform "instagram" then
    let* r := fetch_instagram_meta url in ret (Some r)
  else ret None.

(** *** The main loop

    A data frame is a [table]: the column labels and the rows, each row the
    cells in the columns' order; the row labels are the positions, as
    [read_csv] gives them.  A file holds a table ([to_csv] and [read_csv]
    are not taken down to the CSV text). *)

Definition INPUT_CSV : string := "WHATSAPP_AI_Video_Library_2025-10-12.csv".
Definition OUTPUT_CSV : string := "YouTube_Metadata_Output.csv".
Definition TEMP_CSV : string := "temp.csv".

(** [pd.read_csv(path)] *)
Definition read_csv (path : string) : M table :=
  fun w =>
    match files w !! path with
    | Some t => (Ret t, w)
    | None => (Raise EnvironmentError, w)
    end.

(** [df.to_csv(path, index=False)]: the file holds the frame, unless the
    writing fails; then it holds what the failure left, or is as it was. *)
Definition to_csv (path : string) (d : table) : M unit :=
  fun w =>
    match to_csv_fault E (calls w) path d with
    | None => write_file path d w
    | Some (e, Some partial) => (Raise e, snd (write_file path partial w))
    | Some (e, None) => (Raise e, w)
    end.

(** [os.replace(src, dst)] *)
Definition os_replace (src dst : string) : M unit :=
  fun w =>
    match files w !! src with
    | Some t => (Ret tt, {| files := delete src (<[dst := t]> (files w)); calls := calls w |})
    | None => (Raise EnvironmentError, w)
    end.

(** [str(v)] *)
Definition py_str (v : pyval) : string :=
  match v with
  | PNone => "None"
  | PStr s => s
  | PInt z => NilZero.string_of_int (Z.to_int z)
  | PNaN => "nan"
  end.

Definition map_cells (f : pyval -> pyval) (d : table) : table :=
  {| columns := columns d; rows := List.map (List.map f) (rows d) |}.

(** A missing value of a frame. *)
Definition is_missing (v : pyval) : bool :=
  match v with PNaN | PNone => true | _ => false end.

(** [df.astype(str)]: every value becomes its [str]; from pandas 3 on a
    missing value stays missing. *)
Definition astype_str (d : table) : table :=
  map_cells (fun v => if pandas_keeps_missing E && is_missing v then PNaN
                      else PStr (py_str v)) d.

(** [df.replace(r'^\s*nan\s*$', '', regex=True)]: a cell the pattern is found
    in is matched from its first to its last character, and becomes empty. *)
Definition nan_cell : regex :=
  Cat Bol (Cat (Star is_space) (Cat (Lit "nan") (Cat (Star is_space) Eol))).

Definition replace_nan (d : table) : table :=
  map_cells
    (fun v => match v with
              | PStr s => if matched (search nan_cell s) then PStr "" else v
              | _ => v
              end) d.

Fixpoint index_of (k : string) (cols : list string) : option nat :=
  match cols with
  | [] => None
  | c :: cols' => if String.eqb k c then Some 0 else option_map S (index_of k cols')
  end.

(** [row.get(key, default)] for a row of [iterrows] *)
Definition row_get (cols : list string) (row : list pyval) (k : string) (default : pyval) : pyval :=
  match index_of k cols with
  | Some j => match row !! j with Some v => v | None => default end
  | None => default
  end.

(** [df[key] = None] for a new column *)
Definition add_column (key : string) (d : table) : table :=
  {| columns := (columns d ++ [key])%list;
     rows := List.map (fun r => (r ++ [PNone])%list) (rows d) |}.

(** [df.at[idx, key] = value], for a row and a column the frame has *)
Definition set_at (idx : nat) (key : string) (value : pyval) (d : table) : table :=
  match index_of key (columns d) with
  | Some j => {| columns := columns d; rows := alter (fun r => <[j := value]> r) idx (rows d) |}
  | None => d
  end.

(** One turn of [for key, value in results.items()] *)
Definition store (idx : nat) (d : table) (kv : string * pyval) : table :=
  let '(key, value) := kv in
  let d := if matched (index_of key (columns d)) then d else add_column key d in
  let value :=
    match value with
    | PNaN => PStr ""
    | PStr s => if String.eqb (lower s) "nan" then PStr "" else value
    | _ => value
    end in
  set_at idx key value d.

Record counters : Type := {
  df : table;
  success_count : nat;
  skipped_error_count : nat
}.

Definition skipped (st : counters) : counters :=
  {| df := df st; success_count := success_count st;
     skipped_error_count := S (skipped_error_count st) |}.

(** [print(...)] in an [except] block. *)
Definition say (m : message) : M unit := fun w => (print E (calls w) m, w).

(** The [except Exception] of a row: the error is printed, then the row is
    counted as skipped.  [st] is the state the exception found. *)
Definition row_error (idx : nat) (st : counters) (e : exn) : M counters :=
  let* _ := say (RecordError (idx + 1) e) in
  ret (skipped st).

(** The state when the items of a result are stored and the success is
    counted, which the script does before it writes the temporary file. *)
Definition stored_row (idx : nat) (results : pydict) (st : counters) : counters :=
  {| df := List.fold_left (store idx) results (df st);
     success_count := S (success_count st);
     skipped_error_count := skipped_error_count st |}.

(** The body of the [for] loop for the row [idx] of the frame as it was when
    the loop started ([cols], [row]).  The frame and the counters are
    changed in place, so the [except] block finds them as they are when the
    exception is raised: as at the start of the row when the fetching
    raises, and with the result stored and counted when [to_csv] raises. *)
Definition process_row (cols : list string) (idx : nat) (row : list pyval) (st : counters)
  : M counters :=
  let url := strip (py_str (row_get cols row "URL / Media" (PStr ""))) in
  if is_empty url || String.eqb url "nan" then ret (skipped st)
  else
    fun w =>
      match download_metadata (idx + 1) url w with
      | (Ret (Some (kv :: kvs)), w1) =>
          let st1 := stored_row idx (kv :: kvs) st in
          match to_csv TEMP_CSV (df st1) w1 with
          | (Ret _, w2) => (Ret st1, w2)
          | (Raise e, w2) => if is_Exception e then row_error idx st1 e w2 else (Raise e, w2)
          end
      | (Ret _, w1) => (Ret (skipped st), w1)
      | (Raise e, w1) => if is_Exception e then row_error idx st e w1 else (Raise e, w1)
      end.

Fixpoint process_rows (cols : list string) (idx : nat) (rs : list (list pyval)) (st : counters)
  : M counters :=
  match rs with
  | [] => ret st
  | row :: rest =>
      let* st' := process_row cols idx row st in
      process_rows cols (S idx) rest st'
  end.

(** From [read_csv] to the creation of the temporary file. *)
Definition load : M table :=
  let* raw := read_csv INPUT_CSV in
  let d := replace_nan (astype_str raw) in
  let* _ := to_csv TEMP_CSV d in
  ret d.

Definition start (d : table) : counters :=
  {| df := d; success_count := 0; skipped_error_count := 0 |}.

(** The script up to the end of the [n]-th turn of the loop: what has run if
    the process is stopped there. *)
Definition run_rows (n : nat) : M counters :=
  let* d := load in
  process_rows (columns d) 0 (take n (rows d)) (start d).

(** The whole script. *)
Definition script : M unit :=
  try_except
    (let* d := load in
     let* st := process_rows (columns d) 0 (rows d) (start d) in
     os_replace TEMP_CSV INPUT_CSV)
    is_Exception
    (fun e => say (ProcessingError e)).

End WithEnv.
End media_meta_data.

(** ** Notions the properties are stated with *)

(** [s] ends with [suf]. *)
Definition ends_with (suf s : string) : Prop := exists p, s = p ++ suf.

(** The text after the last [c] of [s], all of [s] when it holds none
    ([s.rpartition(c)[2]]). *)
Fixpoint after_last (c : ascii) (s : string) : string :=
  match s with
  | EmptyString => EmptyString
  | String a t =>
      if has_char c t then after_last c t
      else if chr_eqb a c then t else s
  end.

(** The host component of a netloc, as RFC 3986 and [urlparse(url).hostname]
    have it: the user information up to the last [@] and the port from the
    colon on are no part of it, nor are the brackets of an IP literal. *)
Definition hostname (netloc : string) : string :=
  let hostinfo := after_last "@" netloc in
  let '(before, bracketed) := break_at (chr_eqb "[") hostinfo in
  match bracketed with
  | String _ inside => lower (fst (break_at (chr_eqb "]") inside))
  | EmptyString => lower (fst (break_at (chr_eqb ":") hostinfo))
  end.

(** The texts a pattern stands for. *)
Fixpoint lang (r : regex) (m : string) : Prop :=
  match r with
  | Lit p => m = p
  | Cat r1 r2 => exists a b, m = a ++ b /\ lang r1 a /\ lang r2 b
  | Alt r1 r2 => lang r1 m \/ lang r2 m
  | Opt r1 => m = EmptyString \/ lang r1 m
  | Star p => str_forallb p m = true
  | Plus p => m <> EmptyString /\ str_forallb p m = true
  | Rep n p => String.length m = n /\ str_forallb p m = true
  | Grp _ r1 => lang r1 m
  | Bol => m = EmptyString
  | Eol => m = EmptyString
  end.

(** The duration grammar [PT#H#M#S]: after [PT], an optional number of hours
    followed by [H], then minutes and [M], then seconds and [S]. *)
Definition number (d : string) : Prop := d <> EmptyString /\ str_forallb is_digit d = true.

Definition component (unit_ : string) (s : string) : Prop :=
  s = EmptyString \/ exists d, number d /\ s = d ++ unit_.

Definition iso_duration (s : string) : Prop :=
  exists h m sec,
    component "H" h /\ component "M" m /\ component "S" sec /\ s = "PT" ++ h ++ m ++ sec.

Definition platform_tags : list string := ["youtube"; "tiktok"; "instagram"; "unknown"].

(** The world after a logged call. *)
Definition logged (c : call) (w : world) : world :=
  {| files := files w; calls := calls w ++ [c] |}.

(** The record the Instagram scrapers fall back to. *)
Definition empty_record (url : string) : pydict :=
  [ ("url", PStr url); ("description", PStr ""); ("thumbnail", PStr "") ].

(** ** Environments to run the scripts in *)

(** A web site that answers every GET with the given status and a page whose
    Open Graph description and image are as given; the YouTube API knows no
    video; no variable is set in the process environment; each downloader
    delivers a file. *)
Definition site (status : nat) (description image : option string) : Env := {|
  check_bracketed_netloc := fun _ => true;
  nfkc_delimiter := fun _ => false;
  int_max_str_digits := 4300;
  os_getenv := fun _ => None;
  requests_get := fun _ _ _ => Ret {| status_code := status; text := "<html>"; json := Ret [] |};
  BeautifulSoup := fun _ =>
    Ret (fun prop =>
           if String.eqb prop "og:description" then Some description
           else if String.eqb prop "og:image" then Some image
           else None);
  videos_list := fun _ _ => Ret [];
  channels_list := fun _ _ => Ret [];
  download_tiktok := fun _ _ _ => Ret (Some ([], "video.mp4"));
  download_youtube := fun _ _ => Ret (Some ([], "video.mp4"));
  download_instagram := fun _ _ _ => Ret (Some ([], "video.mp4"));
  instaloader_login := fun _ _ _ => Ret tt;
  pandas_keeps_missing := false;
  to_csv_fault := fun _ _ _ => None;
  print := fun _ _ => Ret tt
|}.

(** The same with the network down. *)
Definition offline : Env := {|
  check_bracketed_netloc := fun _ => true;
  nfkc_delimiter := fun _ => false;
  int_max_str_digits := 4300;
  os_getenv := fun _ => None;
  requests_get := fun _ _ _ => Raise RequestException;
  BeautifulSoup := fun _ => Ret (fun _ => None);
  videos_list := fun _ _ => Raise OtherException;
  channels_list := fun _ _ => Raise OtherException;
  download_tiktok := fun _ _ _ => Raise RequestException;
  download_youtube := fun _ _ => Raise OtherException;
  download_instagram := fun _ _ _ => Raise RequestException;
  instaloader_login := fun _ _ _ => Raise RequestException;
  pandas_keeps_missing := false;
  to_csv_fault := fun _ _ _ => None;
  print := fun _ _ => Ret tt
|}.

Definition fresh : world := {| files := ∅; calls := [] |}.


(** A pattern without the anchor [^] matches the same way wherever it is tried. *)
Fixpoint no_bol (r : regex) : bool :=
  match r with
  | Bol => false
  | Cat r1 r2 | Alt r1 r2 => no_bol r1 && no_bol r2
  | Opt r1 | Grp _ r1 => no_bol r1
  | _ => true
  end.

(** No line feed in the text. *)
Definition no_LF (s : string) : bool := str_forallb (fun c => negb (chr_eqb c LF)) s.

(** Every character of [s'] is one of [s]: what holds of all characters of
    [s] holds of all of [s']. *)
Definition part_of (s' s : string) : Prop :=
  forall q, str_forallb q s = true -> str_forallb q s' = true.

(** A computation that leaves the file [path] as it is, whatever it returns
    or raises. *)
Definition keeps {A} (path : string) (m : M A) : Prop :=
  forall w, files (snd (m w)) !! path = files w !! path.

(** [old in s] *)
Fixpoint occurs (old s : string) : bool :=
  starts_with old s ||
  match s with
  | EmptyString => false
  | String _ t => occurs old t
  end.

(** How a fetched value shows in the record of [media_meta_data.py] when it
    is absent, is the placeholder, or does not hold the placeholder's
    letters. *)
Definition coerced (fetched : option string) (out : string) : Prop :=
  (fetched = None -> out = "") /\
  (fetched = Some "nan" -> out = "") /\
  (forall s, fetched = Some s -> occurs "nan" s = false -> out = s).

(** A world whose input file holds one row, a YouTube URL. *)
Definition one_row : table :=
  {| columns := ["Platform"; "URL / Media"];
     rows := [[PStr "youtube"; PStr "https://youtu.be/dQw4w9WgXcQ"]] |}.

Definition one_row_world : world :=
  {| files := {[ media_meta_data.INPUT_CSV := one_row ]}; calls := [] |}.

(** [langc r m g g']: the pattern stands for the text [m], and matching it
    turns the groups [g] into [g']. *)
Fixpoint langc (r : regex) (m : string) (g g' : captures) : Prop :=
  match r with
  | Lit p => m = p /\ g' = g
  | Cat r1 r2 => exists a b g1, m = a ++ b /\ langc r1 a g g1 /\ langc r2 b g1 g'
  | Alt r1 r2 => langc r1 m g g' \/ langc r2 m g g'
  | Opt r1 => (m = EmptyString /\ g' = g) \/ langc r1 m g g'
  | Star p => str_forallb p m = true /\ g' = g
  | Plus p => (m <> EmptyString /\ str_forallb p m = true) /\ g' = g
  | Rep n p => (String.length m = n /\ str_forallb p m = true) /\ g' = g
  | Grp i r1 => exists g1, langc r1 m g g1 /\ g' = (i, m) :: g1
  | Bol => m = EmptyString /\ g' = g
  | Eol => m = EmptyString /\ g' = g
  end.

(** A pattern without [^] and [$]. *)
Fixpoint anchor_free (r : regex) : bool :=
  match r with
  | Bol | Eol => false
  | Cat r1 r2 | Alt r1 r2 => anchor_free r1 && anchor_free r2
  | Opt r1 | Grp _ r1 => anchor_free r1
  | _ => true
  end.

(** A duration written from its three optional numbers. *)
Definition comp (o : option string) (u : string) : string :=
  match o with Some d => d ++ u | None => EmptyString end.

Definition duration_text (h m s : option string) : string :=
  "PT" ++ comp h "H" ++ comp m "M" ++ comp s "S".

Definition opt_number (o : option string) : Prop :=
  match o with Some d => number d | None => True end.

(** The number a component stands for, zero when it is absent. *)
Definition opt_int (o : option string) : N :=
  match o with Some d => int_of_str d | None => 0%N end.

(** The markers an identifier follows in a YouTube URL. *)
Definition id_markers : list string := ["v="; "/v/"; "youtu.be/"; "shorts/"].

(** The groups a duration's components leave: group [i] is bound when the
    component is there. *)
Definition bind_group (i : nat) (o : option string) (g : captures) : captures :=
  match o with Some d => (i, d) :: g | None => g end.

Definition duration_groups (h m s : option string) : captures :=
  bind_group 3 s (bind_group 2 m (bind_group 1 h [])).

(** The text [parse_youtube_duration_short] prints for the three numbers. *)
Definition clock (hours minutes seconds : N) : string :=
  if N.eqb hours 0
  then str_of_int minutes ++ ":" ++ fmt_02d seconds
  else str_of_int hours ++ ":" ++ fmt_02d minutes ++ ":" ++ fmt_02d seconds.

(** A text that starts with a character is not the empty one. *)
Definition String_discr {c : ascii} {s : string} (H : String c s = EmptyString) : False :=
  match H in _ = t return match t with EmptyString => False | String _ _ => True end with
  | eq_refl => I
  end.

(** The cell of a frame at a row and a column label. *)
Definition cell (d : table) (idx : nat) (key : string) : option pyval :=
  match media_meta_data.index_of key (columns d), rows d !! idx with
  | Some j, Some row => row !! j
  | _, _ => None
  end.

(** Every row has a cell for every column. *)
Definition well_formed (d : table) : Prop :=
  Forall (fun r : list pyval => length r = length (columns d)) (rows d).

(** The placeholders of a missing value: the float [nan] and the text
    ["nan"] in any case of letters. *)
Definition is_placeholder (v : pyval) : bool :=
  match v with
  | PNaN => true
  | PStr s => String.eqb (lower s) "nan"
  | _ => false
  end.

(** A component, when present, is within the interpreter's limit of digits. *)
Definition within_limit (E : Env) (o : option string) : bool :=
  match o with Some d => negb (too_long E d) | None => true end.

(** ** Notions for the further properties *)

(** A row without a URL: the cell is missing, blank, or the text ["nan"]. *)
Definition blank_row (cols : list string) (row : list pyval) : Prop :=
  let url := strip (media_meta_data.py_str
                      (media_meta_data.row_get cols row "URL / Media" (PStr ""))) in
  url = "" \/ url = "nan".

(** The state after [n] more rows were skipped. *)
Definition skipped_by (n : nat) (st : media_meta_data.counters) : media_meta_data.counters :=
  {| media_meta_data.df := media_meta_data.df st;
     media_meta_data.success_count := media_meta_data.success_count st;
     media_meta_data.skipped_error_count := n + media_meta_data.skipped_error_count st |}.

(** The keys of the records the three normalizers of [media_meta_data.py]
    return. *)
Definition normalizer_keys : list string :=
  [ "Title / Headline"; "Description / Summary"; "Creator / Channel"; "Publish Date";
    "Thumbnail Url"; "Language"; "Duration"; "Followers / Subscribers";
    "url"; "description"; "thumbnail" ].

(** The network answers, but the YouTube client is interrupted from the
    keyboard. *)
Definition interrupted : Env := {|
  check_bracketed_netloc := fun _ => true;
  nfkc_delimiter := fun _ => false;
  int_max_str_digits := 4300;
  os_getenv := fun _ => None;
  requests_get := fun _ _ _ => Ret {| status_code := 200; text := "<html>"; json := Ret [] |};
  BeautifulSoup := fun _ => Ret (fun _ => None);
  videos_list := fun _ _ => Raise KeyboardInterrupt;
  channels_list := fun _ _ => Ret [];
  download_tiktok := fun _ _ _ => Ret None;
  download_youtube := fun _ _ => Ret None;
  download_instagram := fun _ _ _ => Ret None;
  instaloader_login := fun _ _ _ => Ret tt;
  pandas_keeps_missing := false;
  to_csv_fault := fun _ _ _ => None;
  print := fun _ _ => Ret tt
|}.

(** The keys of the record of each normalizer. *)
Definition youtube_keys : list string :=
  [ "Title / Headline"; "Description / Summary"; "Creator / Channel"; "Publish Date";
    "Thumbnail Url"; "Language"; "Duration"; "Followers / Subscribers" ].

Definition tiktok_keys : list string :=
  [ "Title / Headline"; "Creator / Channel"; "Thumbnail Url" ].

Definition instagram_keys : list string := [ "url"; "description"; "thumbnail" ].

(** The state after a row was written with the frame [d]. *)
Definition succeeded (d : table) (st : media_meta_data.counters) : media_meta_data.counters :=
  {| media_meta_data.df := d;
     media_meta_data.success_count := S (media_meta_data.success_count st);
     media_meta_data.skipped_error_count := media_meta_data.skipped_error_count st |}.

(** The world after the temporary file was rewritten with [d]. *)
Definition temp_written (d : table) (w : world) : world :=
  {| files := <[media_meta_data.TEMP_CSV := d]> (files w); calls := calls w |}.

(** The end of a row in its [except] block: the error is printed, and when
    the printing returns the row is one more in [skipped_error_count]. *)
Definition after_print (E : Env) (h : list call) (m : message)
    (st : media_meta_data.counters) : outcome media_meta_data.counters :=
  match print E h m with
  | Ret _ => Ret (media_meta_data.skipped st)
  | Raise e => Raise e
  end.

(** The world after a writing of the temporary file that failed: the file
    holds what was written before the failure, if anything was. *)
Definition temp_left (partial : option table) (w : world) : world :=
  match partial with
  | Some d => temp_written d w
  | None => w
  end.

(** The YouTube API knows the video but not its duration. *)
Definition no_duration : Env := {|
  check_bracketed_netloc := fun _ => true;
  nfkc_delimiter := fun _ => false;
  int_max_str_digits := 4300;
  os_getenv := fun _ => None;
  requests_get := fun _ _ _ => Raise RequestException;
  BeautifulSoup := fun _ => Ret (fun _ => None);
  videos_list := fun _ _ =>
    Ret [ {| v_snippet := {| sn_title := Some "A talk"; sn_description := None;
                             sn_channelId := Some "UC123"; sn_publishedAt := None;
                             sn_thumbnail_default_url := None;
                             sn_defaultAudioLanguage := None |};
             v_duration := None |} ];
  channels_list := fun _ _ => Ret [ {| ch_statistics := Some (Some "1200") |} ];
  download_tiktok := fun _ _ _ => Ret None;
  download_youtube := fun _ _ => Ret None;
  download_instagram := fun _ _ _ => Ret None;
  instaloader_login := fun _ _ _ => Ret tt;
  pandas_keeps_missing := false;
  to_csv_fault := fun _ _ _ => None;
  print := fun _ _ => Ret tt
|}.

Definition instagram_row : list pyval :=
  [PStr "instagram"; PStr "https://www.instagram.com/p/gone/"].

(** What [df.at[idx, key] = value] receives for [value] in the loop over the
    items of a result. *)
Definition stored (v : pyval) : pyval := if is_placeholder v then PStr "" else v.

(** The API knows the video and its channel. *)
Definition complete : Env := {|
  check_bracketed_netloc := fun _ => true;
  nfkc_delimiter := fun _ => false;
  int_max_str_digits := 4300;
  os_getenv := fun _ => None;
  requests_get := fun _ _ _ => Raise RequestException;
  BeautifulSoup := fun _ => Ret (fun _ => None);
  videos_list := fun _ _ =>
    Ret [ {| v_snippet := {| sn_title := Some "A talk"; sn_description := Some "nan";
                             sn_channelId := None;
                             sn_publishedAt := Some "2024-05-01T10:00:00Z";
                             sn_thumbnail_default_url := None;
                             sn_defaultAudioLanguage := Some "en" |};
             v_duration := Some "PT1H2M3S" |} ];
  channels_list := fun _ _ => Ret [];
  download_tiktok := fun _ _ _ => Ret None;
  download_youtube := fun _ _ => Ret None;
  download_instagram := fun _ _ _ => Ret None;
  instaloader_login := fun _ _ _ => Ret tt;
  pandas_keeps_missing := false;
  to_csv_fault := fun _ _ _ => None;
  print := fun _ _ => Ret tt
|}.

(** A text that is [nan] between white space: what [^\s*nan\s*$] stands for. *)
Definition blank_nan (s : string) : Prop :=
  exists a b, s = a ++ "nan" ++ b /\
    str_forallb is_space a = true /\ str_forallb is_space b = true.

(** An input file with missing values. *)
Definition gaps : table :=
  {| columns := ["Platform"; "URL / Media"];
     rows := [[PNaN; PStr " nan "]; [PStr "banana"; PInt 3]] |}.

Definition gaps_world : world :=
  {| files := {[ media_meta_data.INPUT_CSV := gaps ]}; calls := [] |}.

(** * The scripts around the [csv] module

    ** Programs over a state

    The scripts of [temp.py] and [youtube_metadata_fetcher.py] read and
    write CSV files through the [csv] module.  They are programs over a
    state of their own; [prog S A] is the state and exception monad over
    [S]. *)

Definition prog (S A : Type) : Type := S -> outcome A * S.

Definition value {S A} (a : A) : prog S A := fun s => (Ret a, s).

Definition throw {S A} (e : exn) : prog S A := fun s => (Raise e, s).

Definition andthen {S A B} (m : prog S A) (k : A -> prog S B) : prog S B :=
  fun s =>
    match m s with
    | (Ret a, s') => k a s'
    | (Raise e, s') => (Raise e, s')
    end.

Notation "'let+' x ':=' m 'in' k" := (andthen m (fun x => k))
  (at level 10, x name, m at level 100, k at level 200).

(** An outcome computed without effect. *)
Definition effectless {S A} (o : outcome A) : prog S A := fun s => (o, s).

(** [try: body / except <classes caught>: handler] *)
Definition attempt {S A} (body : prog S A) (caught : exn -> bool) (handler : exn -> prog S A)
  : prog S A :=
  fun s =>
    match body s with
    | (Ret a, s') => (Ret a, s')
    | (Raise e, s') => if caught e then handler e s' else (Raise e, s')
    end.

(** [for x in xs: body(x)] *)
Fixpoint for_each {S A} (body : A -> prog S unit) (xs : list A) : prog S unit :=
  match xs with
  | [] => value tt
  | x :: rest => let+ _ := body x in for_each body rest
  end.

(** ** The [csv] module

    A CSV file is held as the records that [csv.reader] yields from it and
    that [csv.writer] writes to it, each a list of fields (a blank line is
    the record without fields); the text of the file, its quoting and its
    encoding are the library's. *)
Module csv.

Definition record : Type := list string.
Definition file : Type := list record.

Definition is_blank (r : record) : bool :=
  match r with [] => true | _ => false end.

(** [csv.DictReader(f)]: the field names are the first record, and the rows
    are the records after it that are not blank. *)
Definition DictReader (f : file) : list string * list record :=
  match f with
  | [] => ([], [])
  | fieldnames :: rest => (fieldnames, List.filter (fun r => negb (is_blank r)) rest)
  end.

(** The last place of a name among the field names. *)
Fixpoint last_index (key : string) (fieldnames : list string) : option nat :=
  match fieldnames with
  | [] => None
  | name :: rest =>
      match last_index key rest with
      | Some i => Some (S i)
      | None => if String.eqb key name then Some 0 else None
      end
  end.

(** [row[key]] for a row of a [DictReader].  The row is
    [dict(zip(fieldnames, record))], and the names beyond the record's
    length are set to [None] afterwards: the last place of the name decides,
    and a name that is no field name raises [KeyError]. *)
Definition getitem (fieldnames : list string) (r : list string) (key : string)
  : outcome (option string) :=
  match last_index key fieldnames with
  | Some i => Ret (r !! i)
  | None => Raise KeyError
  end.

(** What the writer puts into a field: [None] is written as the empty
    text, anything else as its [str]. *)
Definition field_text (v : pyval) : string :=
  match v with
  | PNone => ""
  | PStr s => s
  | PInt z => NilZero.string_of_int (Z.to_int z)
  | PNaN => "nan"
  end.

(** [d[key]] *)
Fixpoint subscript (d : pydict) (key : string) : outcome pyval :=
  match d with
  | [] => Raise KeyError
  | (k, v) :: d' => if String.eqb key k then Ret v else subscript d' key
  end.

(** [d.get(key)] as an option, for a dictionary with values of any kind. *)
Fixpoint assoc {V} (key : string) (d : list (string * V)) : option V :=
  match d with
  | [] => None
  | (k, v) :: d' => if String.eqb key k then Some v else assoc key d'
  end.

(** The record [DictWriter(f, fieldnames).writerow(rowdict)] writes, the
    writer turning a value into [text] of it: a key that is no field name is
    refused with [ValueError]; a field name the dictionary lacks gives an
    empty field. *)
Definition DictWriter_row {V} (text : V -> string) (fieldnames : list string)
    (rowdict : list (string * V)) : outcome record :=
  if List.forallb (fun kv : string * V => List.existsb (String.eqb (fst kv)) fieldnames)
       rowdict
  then Ret (List.map (fun name => match assoc name rowdict with
                                  | Some v => text v
                                  | None => ""
                                  end) fieldnames)
  else Raise ValueError.

End csv.

(** The state of a script: the CSV files by their path, and the calls made
    to the collaborators outside the process. *)
Record disk (Ev : Type) : Type := {
  csvs : gmap string csv.file;
  events : list Ev
}.
Arguments csvs {Ev} d.
Arguments events {Ev} d.

(** [open(path, "r")], read to the end *)
Definition read_records {Ev} (path : string) : prog (disk Ev) csv.file :=
  fun s =>
    match csvs s !! path with
    | Some f => (Ret f, s)
    | None => (Raise EnvironmentError, s)
    end.

(** [open(path, "a")], with the records written before it is closed; the
    file is created when there is none. *)
Definition append_records {Ev} (path : string) (rs : list csv.record) : prog (disk Ev) unit :=
  fun s =>
    (Ret tt,
     {| csvs := <[path := (default [] (csvs s !! path) ++ rs)%list]> (csvs s);
        events := events s |}).

(** [open(path, "w")], with the records written before it is closed *)
Definition write_records {Ev} (path : string) (rs : list csv.record) : prog (disk Ev) unit :=
  fun s => (Ret tt, {| csvs := <[path := rs]> (csvs s); events := events s |}).

(** A computation that only talks to the network, run by a script: it sees
    the calls made so far and adds its own. *)
Definition online {A} (m : M A) : prog (disk call) A :=
  fun s =>
    let '(o, w) := m {| files := ∅; calls := events s |} in
    (o, {| csvs := csvs s; events := calls w |}).

(** ** temp.py, the script *)
Module temp_script.
Section WithEnv.
Context (E : Env).

Definition INPUT_CSV : string := "WHATSAPP_AI_Video_Library_2025-10-12.csv".
Definition OUTPUT_CSV : string := "Instagram_Metadata.csv".

(** [row[key].strip()]: a row too short for the column holds [None] there,
    which has no [strip]. *)
Definition stripped (fieldnames : list string) (row : csv.record) (key : string)
  : outcome string :=
  match csv.getitem fieldnames row key with
  | Ret (Some s) => Ret (strip s)
  | Ret None => Raise AttributeError
  | Raise e => Raise e
  end.

(** Step 1: the URLs of the rows whose platform is Instagram. *)
Fixpoint collect (fieldnames : list string) (rows : list csv.record)
    (instagram_links : list string) : outcome (list string) :=
  match rows with
  | [] => Ret instagram_links
  | row :: rest =>
      match stripped fieldnames row "Platform" with
      | Raise e => Raise e
      | Ret platform =>
          if String.eqb (lower platform) "instagram" then
            match stripped fieldnames row "URL / Media" with
            | Raise e => Raise e
            | Ret url => collect fieldnames rest (instagram_links ++ [url])
            end
          else collect fieldnames rest instagram_links
      end
  end.

Definition read_links : prog (disk call) (list string) :=
  let+ f := read_records INPUT_CSV in
  let '(fieldnames, rows) := csv.DictReader f in
  effectless (collect fieldnames rows []).

(** Step 2: the output file is opened for appending, and gets a header when
    it did not exist. *)
Definition prepare_output : prog (disk call) unit :=
  fun s =>
    let file_exists := matched (csvs s !! OUTPUT_CSV) in
    append_records OUTPUT_CSV
      (if file_exists then [] else [["url"; "title"; "description"; "thumbnail"]]) s.

(** [(title or "No title")[:60]]: only a text or [None] can be sliced. *)
Definition title_preview (title : pyval) : outcome string :=
  match title with
  | PNone => Ret "No title"
  | PStr s => Ret (if is_empty s then "No title" else String.substring 0 60 s)
  | PInt z => if Z.eqb z 0 then Ret "No title" else Raise TypeError
  | PNaN => Raise TypeError
  end.

(** Step 3, the body of the loop. *)
Definition scrape (link : string) : prog (disk call) unit :=
  let+ data := online (temp.fetch_instagram_meta E link) in
  let+ row := effectless (csv.DictWriter_row csv.field_text
                            ["url"; "description"; "thumbnail"] data) in
  let+ _ := append_records OUTPUT_CSV [row] in
  let+ title := effectless (csv.subscript data "title") in
  let+ _ := effectless (title_preview title) in
  value tt.

Definition script : prog (disk call) unit :=
  let+ instagram_links := read_links in
  let+ _ := prepare_output in
  for_each scrape instagram_links.

End WithEnv.
End temp_script.

(** The header [temp.py] gives a new output file. *)
Definition temp_header : csv.record := ["url"; "title"; "description"; "thumbnail"].

(** The output file of [temp.py] once it is prepared. *)
Definition prepared (s : disk call) : csv.file :=
  default [temp_header] (csvs s !! temp_script.OUTPUT_CSV).

(** An input with two Instagram rows and one of YouTube. *)
Definition three_links : disk call :=
  {| csvs := {[ temp_script.INPUT_CSV :=
                  [ ["Platform"; "URL / Media"];
                    ["Instagram "; " https://www.instagram.com/p/one/"];
                    ["youtube"; "https://youtu.be/dQw4w9WgXcQ"];
                    ["instagram"; "https://www.instagram.com/p/two/"] ] ]};
     events := [] |}.

(** The rows [temp.py] takes, and the link it takes from a row. *)
Definition is_instagram_row (fieldnames : list string) (row : csv.record) : bool :=
  match csv.getitem fieldnames row "Platform" with
  | Ret (Some platform) => String.eqb (lower (strip platform)) "instagram"
  | _ => false
  end.

Definition link_of (fieldnames : list string) (row : csv.record) : string :=
  match csv.getitem fieldnames row "URL / Media" with
  | Ret (Some url) => strip url
  | _ => ""
  end.

Definition not_blank (r : csv.record) : bool := negb (csv.is_blank r).

(** ** youtube_metadata_fetcher.py: the API functions and [main] *)
Module fetcher.

(** The values of the members the script passes on as they are: a text, a
    number or a truth value; a missing member and [null] are [None]. *)
Inductive json : Type :=
| JStr (s : string)
| JInt (z : Z)
| JBool (b : bool).

(** [str(v)], as the CSV writer takes it; [None] gives the empty field. *)
Definition field_text (v : option json) : string :=
  match v with
  | None => ""
  | Some (JStr s) => s
  | Some (JInt z) => NilZero.string_of_int (Z.to_int z)
  | Some (JBool true) => "True"
  | Some (JBool false) => "False"
  end.

(** An item of [videoCategories().list]: [item["id"]] and
    [item["snippet"]["title"]], [None] when the member is missing. *)
Record category : Type := {
  id : option string;
  title : option json
}.

(** An item of [videos().list].  Each part is read with [.get], a missing
    part being an empty dictionary: [snippet item name] is
    [item.get("snippet", {}).get(name)], and so on; [thumbnails item size]
    is [snippet.get("thumbnails", {}).get(size, {}).get("url")]. *)
Record video : Type := {
  snippet : string -> option json;
  tags : option (list string);
  thumbnails : string -> option json;
  statistics : string -> option json;
  contentDetails : string -> option json;
  status : string -> option json;
  topicCategories : option (list string);
  recordingDetails : string -> option json
}.

Inductive request : Type :=
| VideoCategories
| Videos (video_id : string).

(** The API client: what each request answers, given the requests before. *)
Record YouTube : Type := {
  videoCategories_list : list request -> outcome (list category);
  videos_list : list request -> string -> outcome (list video)
}.

Definition INPUT_CSV : string := "WHATSAPP_AI_Video_Library_2025-10-12.csv".
Definition OUTPUT_CSV : string := "YouTube_Metadata_Output.csv".

Definition execute {A} (r : request) (answer : list request -> outcome A)
  : prog (disk request) A :=
  fun s => (answer (events s), {| csvs := csvs s; events := (events s ++ [r])%list |}).

Section WithClient.
Context (youtube : YouTube).

(** The loop of [get_all_categories]. *)
Fixpoint fill (items : list category) (category_map : gmap string json)
  : outcome (gmap string json) :=
  match items with
  | [] => Ret category_map
  | item :: rest =>
      match id item, title item with
      | Some category_id, Some category_name =>
          fill rest (<[category_id := category_name]> category_map)
      | _, _ => Raise KeyError
      end
  end.

Definition get_all_categories : prog (disk request) (gmap string json) :=
  let+ items := execute VideoCategories (videoCategories_list youtube) in
  effectless (fill items ∅).

(** [category_map.get(category_id, "Unknown")]; the keys of the map are texts. *)
Definition category_name_of (category_map : gmap string json) (category_id : option json)
  : json :=
  match category_id with
  | Some (JStr k) => default (JStr "Unknown") (category_map !! k)
  | _ => JStr "Unknown"
  end.

(** [", ".join(l) if l else ""] *)
Definition joined (l : option (list string)) : string :=
  match l with
  | Some (x :: rest) => String.concat ", " (x :: rest)
  | _ => ""
  end.

Definition wiki : string := "https://en.wikipedia.org/wiki/".

Definition record : Type := list (string * option json).

(** The dictionary [fetch_video_data] makes of an item of the answer. *)
Definition record_of (video_id : string) (item : video) (category_map : gmap string json)
  : record :=
  let category_id := snippet item "categoryId" in
  let category_name := category_name_of category_map category_id in
  [ ("video_id", Some (JStr video_id));
    ("url", Some (JStr ("https://youtu.be/" ++ video_id)));
    ("title", snippet item "title");
    ("description", snippet item "description");
    ("channel_id", snippet item "channelId");
    ("channel_title", snippet item "channelTitle");
    ("published_at", snippet item "publishedAt");
    ("tags", Some (JStr (joined (tags item))));
    ("category_id", category_id);
    ("thumbnails_default", thumbnails item "default");
    ("thumbnails_medium", thumbnails item "medium");
    ("thumbnails_high", thumbnails item "high");
    ("category_name", Some category_name);
    ("topic_names",
       Some (JStr (joined (option_map (List.map (str_replace wiki ""))
                                      (topicCategories item)))));
    ("default_language", snippet item "defaultLanguage");
    ("default_audio_language", snippet item "defaultAudioLanguage");
    ("duration", contentDetails item "duration");
    ("dimension", contentDetails item "dimension");
    ("definition", contentDetails item "definition");
    ("caption", contentDetails item "caption");
    ("licensed_content", contentDetails item "licensedContent");
    ("projection", contentDetails item "projection");
    ("upload_status", status item "uploadStatus");
    ("privacy_status", status item "privacyStatus");
    ("license", status item "license");
    ("embeddable", status item "embeddable");
    ("public_stats_viewable", status item "publicStatsViewable");
    ("made_for_kids", status item "madeForKids");
    ("views", statistics item "viewCount");
    ("likes", statistics item "likeCount");
    ("favorites", statistics item "favoriteCount");
    ("comments", statistics item "commentCount");
    ("topic_categories", Some (JStr (joined (topicCategories item))));
    ("location_description", recordingDetails item "locationDescription");
    ("recording_date", recordingDetails item "recordingDate") ].

Definition fetch_video_data (video_id : string) (category_map : gmap string json)
  : prog (disk request) (option record) :=
  let+ items := execute (Videos video_id) (fun h => videos_list youtube h video_id) in
  match items with
  | [] => value None
  | item :: _ => value (Some (record_of video_id item category_map))
  end.

(** The body of the loop over the rows of the input: [row["Platform"]] of a
    row too short is [None], which has no [lower]; [row["URL / Media"]] of a
    row too short is [None], which [re.search] refuses. *)
Definition visit (category_map : gmap string json) (fieldnames : list string)
    (row : csv.record) (results : list record) : prog (disk request) (list record) :=
  let+ platform := effectless (csv.getitem fieldnames row "Platform") in
  match platform with
  | None => throw AttributeError
  | Some platform =>
      if String.eqb (lower platform) "youtube" then
        let+ url := effectless (csv.getitem fieldnames row "URL / Media") in
        match url with
        | None => throw TypeError
        | Some url =>
            match youtube_metadata_fetcher.extract_video_id url with
            | Some video_id =>
                if is_empty video_id then value results
                else
                  let+ data := fetch_video_data video_id category_map in
                  match data with
                  | Some (kv :: kvs) => value (results ++ [kv :: kvs])%list
                  | _ => value results
                  end
            | None => value results
            end
        end
      else value results
  end.

Fixpoint visit_all (category_map : gmap string json) (fieldnames : list string)
    (rows : list csv.record) (results : list record) : prog (disk request) (list record) :=
  match rows with
  | [] => value results
  | row :: rest =>
      let+ results := visit category_map fieldnames row results in
      visit_all category_map fieldnames rest results
  end.

(** [writer.writerows(results)]: the records are written one after the other. *)
Definition writerow (fieldnames : list string) (r : record) : prog (disk request) unit :=
  let+ fields := effectless (csv.DictWriter_row field_text fieldnames r) in
  append_records OUTPUT_CSV [fields].

Definition main : prog (disk request) unit :=
  let+ category_map := get_all_categories in
  let+ f := read_records INPUT_CSV in
  let '(fieldnames, rows) := csv.DictReader f in
  let+ results := visit_all category_map fieldnames rows [] in
  match results with
  | first :: _ =>
      let fieldnames := List.map fst first in
      let+ _ := write_records OUTPUT_CSV [fieldnames] in
      for_each (writerow fieldnames) results
  | [] => value tt
  end.

End WithClient.
End fetcher.

(** The state after a request was made. *)
Definition asked (r : fetcher.request) (s : disk fetcher.request) : disk fetcher.request :=
  {| csvs := csvs s; events := (events s ++ [r])%list |}.

(** A category item with both members, and one that is not titled [k]. *)
Definition has_both (item : fetcher.category) : Prop :=
  fetcher.id item <> None /\ fetcher.title item <> None.

Definition other_than (k : string) (item : fetcher.category) : Prop :=
  fetcher.id item <> Some k.

(** A client that knows three categories, two of them with the same id, and
    no video. *)
Definition three_categories : fetcher.YouTube := {|
  fetcher.videoCategories_list := fun _ =>
    Ret [ {| fetcher.id := Some "1"; fetcher.title := Some (fetcher.JStr "Film") |};
          {| fetcher.id := Some "2"; fetcher.title := Some (fetcher.JStr "Autos") |};
          {| fetcher.id := Some "1"; fetcher.title := Some (fetcher.JStr "Movies") |} ];
  fetcher.videos_list := fun _ _ => Ret []
|}.

Definition no_requests : disk fetcher.request := {| csvs := ∅; events := [] |}.

(** The keys of a record of [fetch_video_data], in their order: the header
    of the output file. *)
Definition fetcher_keys : list string :=
  [ "video_id"; "url"; "title"; "description"; "channel_id"; "channel_title";
    "published_at"; "tags"; "category_id"; "thumbnails_default"; "thumbnails_medium";
    "thumbnails_high"; "category_name"; "topic_names"; "default_language";
    "default_audio_language"; "duration"; "dimension"; "definition"; "caption";
    "licensed_content"; "projection"; "upload_status"; "privacy_status"; "license";
    "embeddable"; "public_stats_viewable"; "made_for_kids"; "views"; "likes";
    "favorites"; "comments"; "topic_categories"; "location_description";
    "recording_date" ].

(** An identifier as [extract_video_id] returns them. *)
Definition is_video_id (v : string) : Prop :=
  String.length v = 11 /\ str_forallb youtube_metadata_fetcher.is_id_char v = true.

(** A record with the keys of the header, for a video identifier and its
    canonical URL. *)
Definition canonical (r : fetcher.record) : Prop :=
  List.map fst r = fetcher_keys /\
  exists v, is_video_id v /\
    csv.assoc "video_id" r = Some (Some (fetcher.JStr v)) /\
    csv.assoc "url" r = Some (Some (fetcher.JStr ("https://youtu.be/" ++ v))).

(** A line of the output: thirty-five fields, the first an identifier and
    the second the URL from which [extract_video_id] gives it back. *)
Definition canonical_line (row : csv.record) : Prop :=
  length row = 35 /\
  exists v, row !! 0 = Some v /\ row !! 1 = Some ("https://youtu.be/" ++ v) /\
    youtube_metadata_fetcher.extract_video_id ("https://youtu.be/" ++ v) = Some v.

(** The video a row of the input asks for: the identifier found in the URL
    of a row whose platform is YouTube, whatever the case of its letters. *)
Definition wanted (fieldnames : list string) (row : csv.record) : option string :=
  match csv.getitem fieldnames row "Platform", csv.getitem fieldnames row "URL / Media" with
  | Ret (Some platform), Ret (Some url) =>
      if String.eqb (lower platform) "youtube"
      then youtube_metadata_fetcher.extract_video_id url
      else None
  | _, _ => None
  end.

(** The records of the videos the API knows among [ids], asked for one after
    the other once the requests [h] were made: for each, the record of the
    first item of the answer; a video the API answers nothing for has none. *)
Fixpoint answered (youtube : fetcher.YouTube) (category_map : gmap string fetcher.json)
    (h : list fetcher.request) (ids : list string) : list fetcher.record :=
  match ids with
  | [] => []
  | video_id :: rest =>
      match fetcher.videos_list youtube h video_id with
      | Ret (item :: _) => [fetcher.record_of video_id item category_map]
      | _ => []
      end ++ answered youtube category_map (h ++ [fetcher.Videos video_id]) rest
  end.

(** The line of the output for a record: its values in their order, as texts. *)
Definition line_of (r : fetcher.record) : csv.record :=
  List.map (fun kv => fetcher.field_text (snd kv)) r.

(** A client that knows one video, and an input that names it twice. *)
Definition bare_video : fetcher.video := {|
  fetcher.snippet := fun name =>
    if String.eqb name "title" then Some (fetcher.JStr "A talk") else None;
  fetcher.tags := Some ["ai"; "talk"];
  fetcher.thumbnails := fun _ => None;
  fetcher.statistics := fun _ => None;
  fetcher.contentDetails := fun _ => None;
  fetcher.status := fun name =>
    if String.eqb name "embeddable" then Some (fetcher.JBool true) else None;
  fetcher.topicCategories := Some ["https://en.wikipedia.org/wiki/Technology"];
  fetcher.recordingDetails := fun _ => None
|}.

Definition one_video : fetcher.YouTube := {|
  fetcher.videoCategories_list := fun _ => Ret [];
  fetcher.videos_list := fun _ video_id =>
    if String.eqb video_id "dQw4w9WgXcQ" then Ret [bare_video] else Ret []
|}.

Definition library : disk fetcher.request :=
  {| csvs := {[ fetcher.INPUT_CSV :=
                  [ ["Platform"; "URL / Media"];
                    ["YouTube"; "https://www.youtube.com/watch?v=dQw4w9WgXcQ"];
                    ["tiktok"; "https://www.tiktok.com/@a/video/1"];
                    ["youtube"; "https://youtu.be/aaaaaaaaaaa"] ] ]};
     events := [] |}.

(** ** main.py: the three downloaders

    A downloader talks to the network, to the libraries [yt_dlp] and
    [instaloader] and to the file system.  Each of these calls is an
    [action]; it is recorded when it is attempted, and the [System] tells
    what it answers, given the actions before it.  A downloader is a program
    over the list of the actions attempted so far. *)
Module downloaders.

(** Truth value of a Python value. *)
Definition truthy (v : pyval) : bool :=
  match v with
  | PNone => false
  | PStr s => negb (is_empty s)
  | PInt z => negb (Z.eqb z 0)
  | PNaN => true
  end.

(** The JSON object the TikTok API answers with: its members, and the
    object under ["author"] when there is one. *)
Record media : Type := {
  members : pydict;
  author : option pydict
}.

(** A response of [requests.get]: [iter_content] yields [chunks] and then
    ends, or breaks with an exception when [broken] holds one. *)
Record response : Type := {
  status_code : nat;
  json : outcome media;
  chunks : list string;
  broken : option exn
}.

(** An [instaloader.Post]: reading a property may fetch and may fail. *)
Record post : Type := {
  owner_username : outcome string;
  video_url : outcome pyval;
  caption : outcome pyval;
  likes : outcome pyval;
  comments : outcome pyval
}.

(** What [json.dump] is given. *)
Inductive document : Type :=
| Media (d : media)
| Metadata (d : pydict).

Inductive action : Type :=
| Get (url : string) (headers params : list (string * string)) (stream : bool)
| ExtractInfo (url : string)
| YdlDownload (outtmpl url : string)
| FromShortcode (logged_in : bool) (shortcode : string)
| Makedirs (path : string)
| PathExists (path : string)
| Open (path : string)
| Write (path chunk : string)
| Dump (path : string) (doc : document).

(** The system: [path_join] is [os.path.join]; every other member tells
    what the last action of a list of actions answers, after the ones
    before it. *)
Record System : Type := {
  path_join : list string -> string;
  requests_get : list action -> outcome response;
  ydl_extract_info : list action -> outcome pydict;
  ydl_download : list action -> outcome unit;
  post_from_shortcode : list action -> outcome post;
  os_makedirs : list action -> outcome unit;
  os_path_exists : list action -> bool;
  open_for_writing : list action -> outcome unit;
  file_write : list action -> outcome unit;
  json_dump : list action -> outcome unit
}.

Definition perform {A} (a : action) (answer : list action -> outcome A) : prog (list action) A :=
  fun done => (answer (done ++ [a])%list, (done ++ [a])%list).

Section WithSystem.
Context (os : System).

(** [r.raise_for_status()] *)
Definition raise_for_status (r : response) : outcome unit :=
  if Nat.leb 400 (status_code r) && Nat.ltb (status_code r) 600
  then Raise RequestException else Ret tt.

(** [for chunk in r.iter_content(...): f.write(chunk)], skipping the empty
    chunks when [skip_empty]. *)
Fixpoint write_chunks (skip_empty : bool) (path : string) (cs : list string)
  : prog (list action) unit :=
  match cs with
  | [] => value tt
  | chunk :: rest =>
      let+ _ := (if skip_empty && is_empty chunk then value tt
                 else perform (Write path chunk) (file_write os)) in
      write_chunks skip_empty path rest
  end.

Definition save_stream (skip_empty : bool) (path : string) (r : response)
  : prog (list action) unit :=
  let+ _ := perform (Open path) (open_for_writing os) in
  let+ _ := write_chunks skip_empty path (chunks r) in
  match broken r with
  | Some e => throw e
  | None => value tt
  end.

(** [with open(path, "w") as f: json.dump(doc, f, ...)] *)
Definition save_json (path : string) (doc : document) : prog (list action) unit :=
  let+ _ := perform (Open path) (open_for_writing os) in
  perform (Dump path doc) (json_dump os).

Definition api_host : string := "tiktok-video-downloader-api.p.rapidapi.com".

(** [data.get("author", {}).get("username", "unknown_user")] *)
Definition username_of (data : media) : pyval :=
  match author data with
  | Some a => match csv.assoc "username" a with Some v => v | None => PStr "unknown_user" end
  | None => PStr "unknown_user"
  end.

(** [data.get("id") or "unknown_id"] *)
Definition video_id_of (data : media) : pyval :=
  let v := dict_get "id" (members data) in
  if truthy v then v else PStr "unknown_id".

(** [f"{username}_{video_id}"] *)
Definition tiktok_name (data : media) : string :=
  media_meta_data.py_str (username_of data) ++ "_" ++ media_meta_data.py_str (video_id_of data).

(** The [RuntimeError] for an answer without [downloadUrl] is an
    [OtherException]. *)
Definition download_tiktok (url rapidapi_key base_dir : string)
  : prog (list action) (media * string) :=
  let api_endpoint := "https://" ++ api_host ++ "/media" in
  let headers := [("x-rapidapi-key", rapidapi_key); ("x-rapidapi-host", api_host)] in
  let params := [("videoUrl", url)] in
  let+ resp := perform (Get api_endpoint headers params false) (requests_get os) in
  let+ _ := effectless (raise_for_status resp) in
  let+ data := effectless (json resp) in
  let video_url := dict_get "downloadUrl" (members data) in
  if negb (truthy video_url) then throw OtherException
  else
    let folder_name := main.sanitize_filename (tiktok_name data) in
    let video_dir := path_join os [base_dir; "tiktok"; folder_name] in
    let+ _ := perform (Makedirs video_dir) (os_makedirs os) in
    let video_path := path_join os [video_dir; tiktok_name data ++ ".mp4"] in
    let metadata_path := path_join os [video_dir; tiktok_name data ++ "_metadata.json"] in
    let+ there := perform (PathExists video_path) (fun h => Ret (os_path_exists os h)) in
    if there : bool then value (data, video_path)
    else
      let+ video_resp := perform (Get (media_meta_data.py_str video_url) [] [] true)
                           (requests_get os) in
      let+ _ := effectless (raise_for_status video_resp) in
      let+ _ := save_stream true video_path video_resp in
      let+ _ := save_json metadata_path (Media data) in
      value (data, video_path).

Definition exclude_fields : list string :=
  ["formats"; "automatic_captions"; "heatmap"; "http_headers"; "vbr"; "abr"; "vcodec"; "acodec"].

(** [sanitize_filename(info['title'])]: the title must be there, and a text. *)
Definition title_of (info : pydict) : outcome string :=
  match csv.subscript info "title" with
  | Ret (PStr s) => Ret (main.sanitize_filename s)
  | Ret _ => Raise TypeError
  | Raise e => Raise e
  end.

Definition download_youtube (url base_dir : string) : prog (list action) (pydict * string) :=
  let+ info := perform (ExtractInfo url) (ydl_extract_info os) in
  let metadata :=
    List.filter (fun kv : string * pyval =>
                   negb (List.existsb (String.eqb (fst kv)) exclude_fields)) info in
  let+ video_title := effectless (title_of info) in
  let folder_path := path_join os [base_dir; "youtube"; video_title] in
  let+ _ := perform (Makedirs folder_path) (os_makedirs os) in
  let video_path := path_join os [folder_path; video_title ++ ".mp4"] in
  let+ there := perform (PathExists video_path) (fun h => Ret (os_path_exists os h)) in
  if there : bool then value (metadata, video_path)
  else
    let metadata_path := path_join os [folder_path; "metadata.json"] in
    let+ _ := save_json metadata_path (Metadata metadata) in
    let outtmpl := path_join os [folder_path; "%(title)s.%(ext)s"] in
    let+ _ := perform (YdlDownload outtmpl url) (ydl_download os) in
    value (metadata, video_path).

(** [url.strip("/").split("/")[-1]] *)
Definition shortcode_of (url : string) : string :=
  after_last "/" (rstrip_by (chr_eqb "/") (lstrip_by (chr_eqb "/") url)).

Definition download_instagram (url : string) (L : bool) (base_dir : string)
  : prog (list action) (option (pydict * string)) :=
  let shortcode := shortcode_of url in
  let+ post := perform (FromShortcode L shortcode) (post_from_shortcode os) in
  let+ owner := effectless (owner_username post) in
  let folder_name := main.sanitize_filename (owner ++ "_" ++ shortcode) in
  let folder_path := path_join os [base_dir; "instagram"; folder_name] in
  let+ _ := perform (Makedirs folder_path) (os_makedirs os) in
  let+ owner := effectless (owner_username post) in
  let video_filename := main.sanitize_filename (owner ++ "_" ++ shortcode ++ ".mp4") in
  let video_path := path_join os [folder_path; video_filename] in
  let+ there := perform (PathExists video_path) (fun h => Ret (os_path_exists os h)) in
  if there : bool then value None
  else
    let+ video_url := effectless (video_url post) in
    let+ r := perform (Get (media_meta_data.py_str video_url) [] [] true) (requests_get os) in
    let+ _ := effectless (raise_for_status r) in
    let+ _ := save_stream false video_path r in
    let+ username := effectless (owner_username post) in
    let+ caption := effectless (caption post) in
    let+ likes := effectless (likes post) in
    let+ comments := effectless (comments post) in
    let metadata :=
      [ ("username", PStr username); ("caption", caption); ("likes", likes);
        ("comments", comments); ("url", PStr url) ] in
    let metadata_path := path_join os [folder_path; "metadata.json"] in
    let+ _ := save_json metadata_path (Metadata metadata) in
    value (Some (metadata, video_path)).

End WithSystem.
End downloaders.

(** A text of slashes only, and a text without any. *)
Definition slashes (s : string) : bool := str_forallb (chr_eqb "/") s.

Definition slash_free (s : string) : bool := negb (has_char "/" s).

(** The writes of [save_stream]: one for each chunk, the empty ones left out
    when [skip_empty]. *)
Definition writes (skip_empty : bool) (path : string) (cs : list string)
  : list downloaders.action :=
  List.map (downloaders.Write path)
    (List.filter (fun c => negb (skip_empty && is_empty c)) cs).

(** The paths [download_tiktok] works with. *)
Definition tiktok_dir (os : downloaders.System) (base_dir : string) (data : downloaders.media)
  : string :=
  downloaders.path_join os
    [base_dir; "tiktok"; main.sanitize_filename (downloaders.tiktok_name data)].

Definition tiktok_video (os : downloaders.System) (base_dir : string)
    (data : downloaders.media) : string :=
  downloaders.path_join os
    [tiktok_dir os base_dir data; downloaders.tiktok_name data ++ ".mp4"].

Definition tiktok_metadata (os : downloaders.System) (base_dir : string)
    (data : downloaders.media) : string :=
  downloaders.path_join os
    [tiktok_dir os base_dir data; downloaders.tiktok_name data ++ "_metadata.json"].

Definition download_url (data : downloaders.media) : pyval :=
  dict_get "downloadUrl" (downloaders.members data).

Definition tiktok_request (url rapidapi_key : string) : downloaders.action :=
  downloaders.Get ("https://" ++ downloaders.api_host ++ "/media")
    [("x-rapidapi-key", rapidapi_key); ("x-rapidapi-host", downloaders.api_host)]
    [("videoUrl", url)] false.

(** All that [download_tiktok] does when nothing fails and the video is not
    there yet, for the answer [data] of the API and the [chunks] of the
    video. *)
Definition tiktok_plan (os : downloaders.System) (url rapidapi_key base_dir : string)
    (data : downloaders.media) (chunks : list string) : list downloaders.action :=
  ([ tiktok_request url rapidapi_key;
     downloaders.Makedirs (tiktok_dir os base_dir data);
     downloaders.PathExists (tiktok_video os base_dir data);
     downloaders.Get (media_meta_data.py_str (download_url data)) [] [] true;
     downloaders.Open (tiktok_video os base_dir data) ]
   ++ writes true (tiktok_video os base_dir data) chunks
   ++ [ downloaders.Open (tiktok_metadata os base_dir data);
        downloaders.Dump (tiktok_metadata os base_dir data) (downloaders.Media data) ])%list.

Definition no_media : downloaders.media :=
  {| downloaders.members := []; downloaders.author := None |}.

(** [follows m plan]: whatever the system answers, what [m] does is the plan
    or a beginning of it, and it is all of the plan when [m] returns. *)
Definition follows {A} (m : prog (list downloaders.action) A)
    (plan : list downloaders.action) : Prop :=
  forall done o done',
    m done = (o, done') ->
    exists new, done' = (done ++ new)%list /\ new `prefix_of` plan /\
      (forall a, o = Ret a -> new = plan).

(** The metadata [download_youtube] keeps of what [yt_dlp] tells. *)
Definition kept (info : pydict) : pydict :=
  List.filter (fun kv : string * pyval =>
                 negb (List.existsb (String.eqb (fst kv)) downloaders.exclude_fields)) info.

Definition youtube_dir (os : downloaders.System) (base_dir title : string) : string :=
  downloaders.path_join os [base_dir; "youtube"; title].

Definition youtube_video (os : downloaders.System) (base_dir title : string) : string :=
  downloaders.path_join os [youtube_dir os base_dir title; title ++ ".mp4"].

(** All that [download_youtube] does when nothing fails and the video is not
    there yet, for the sanitized title and what is kept of the information. *)
Definition youtube_plan (os : downloaders.System) (url base_dir title : string)
    (metadata : pydict) : list downloaders.action :=
  [ downloaders.ExtractInfo url;
    downloaders.Makedirs (youtube_dir os base_dir title);
    downloaders.PathExists (youtube_video os base_dir title);
    downloaders.Open (downloaders.path_join os [youtube_dir os base_dir title; "metadata.json"]);
    downloaders.Dump (downloaders.path_join os [youtube_dir os base_dir title; "metadata.json"])
      (downloaders.Metadata metadata);
    downloaders.YdlDownload
      (downloaders.path_join os [youtube_dir os base_dir title; "%(title)s.%(ext)s"]) url ].

Definition instagram_dir (os : downloaders.System) (base_dir owner shortcode : string)
  : string :=
  downloaders.path_join os
    [base_dir; "instagram"; main.sanitize_filename (owner ++ "_" ++ shortcode)].

Definition instagram_video (os : downloaders.System) (base_dir owner shortcode : string)
  : string :=
  downloaders.path_join os
    [instagram_dir os base_dir owner shortcode;
     main.sanitize_filename (owner ++ "_" ++ shortcode ++ ".mp4")].

(** All that [download_instagram] does when nothing fails and the video is
    not there yet, for the owner of the post, the URL and the chunks of its
    video, and the metadata. *)
Definition instagram_plan (os : downloaders.System) (url : string) (L : bool)
    (base_dir owner : string) (video_url : pyval) (chunks : list string) (metadata : pydict)
  : list downloaders.action :=
  let shortcode := downloaders.shortcode_of url in
  ([ downloaders.FromShortcode L shortcode;
     downloaders.Makedirs (instagram_dir os base_dir owner shortcode);
     downloaders.PathExists (instagram_video os base_dir owner shortcode);
     downloaders.Get (media_meta_data.py_str video_url) [] [] true;
     downloaders.Open (instagram_video os base_dir owner shortcode) ]
   ++ writes false (instagram_video os base_dir owner shortcode) chunks
   ++ [ downloaders.Open
          (downloaders.path_join os [instagram_dir os base_dir owner shortcode; "metadata.json"]);
        downloaders.Dump
          (downloaders.path_join os [instagram_dir os base_dir owner shortcode; "metadata.json"])
          (downloaders.Metadata metadata) ])%list.

(** A system on which nothing fails: paths are joined with a slash, every
    request is answered with [data] and three chunks, [yt_dlp] and
    [instaloader] know the video, and a path exists or not as [there] says. *)
Definition machine (there : bool) (data : downloaders.media) : downloaders.System := {|
  downloaders.path_join := String.concat "/";
  downloaders.requests_get := fun _ =>
    Ret {| downloaders.status_code := 200; downloaders.json := Ret data;
           downloaders.chunks := ["ab"; EmptyString; "cd"]; downloaders.broken := None |};
  downloaders.ydl_extract_info := fun _ =>
    Ret [("id", PStr "x"); ("formats", PNone); ("title", PStr "A: talk")];
  downloaders.ydl_download := fun _ => Ret tt;
  downloaders.post_from_shortcode := fun _ =>
    Ret {| downloaders.owner_username := Ret "owner";
           downloaders.video_url := Ret (PStr "https://cdn.example/i.mp4");
           downloaders.caption := Ret PNone;
           downloaders.likes := Ret (PInt 3);
           downloaders.comments := Ret (PInt 0) |};
  downloaders.os_makedirs := fun _ => Ret tt;
  downloaders.os_path_exists := fun _ => there;
  downloaders.open_for_writing := fun _ => Ret tt;
  downloaders.file_write := fun _ => Ret tt;
  downloaders.json_dump := fun _ => Ret tt
|}.

Definition a_media : downloaders.media :=
  {| downloaders.members := [("downloadUrl", PStr "https://cdn.example/v.mp4"); ("id", PInt 7)];
     downloaders.author := Some [("username", PStr "a/b")] |}.

(** ** main.py, run as a script

    [input(...)] gives the line typed, or raises (end of input, interrupt)
    outside the [try]; the [except] block prints the error. *)
Definition main_block (E : Env) (typed : outcome string) : M unit :=
  let* line := lift typed in
  let url := strip line in
  try_except (let* _ := main.download_video E url in ret tt)
    is_Exception
    (fun e w => (print E (calls w) (MainError e), w)).

(** ** Notions for the writing of the temporary file and for the printing *)

(** No writing of a frame fails. *)
Definition writes_succeed (E : Env) : Prop :=
  forall h path d, to_csv_fault E h path d = None.

(** No printing of an [except] block raises an [Exception]. *)
Definition prints_safely (E : Env) : Prop :=
  forall h m e, print E h m = Raise e -> is_Exception e = false.

(** A world whose input file holds one row, an Instagram URL. *)
Definition instagram_world : world :=
  {| files := {[ media_meta_data.INPUT_CSV :=
                   {| columns := ["Platform"; "URL / Media"];
                      rows := [[PStr "instagram"; PStr "https://www.instagram.com/p/gone/"]] |} ]};
     calls := [] |}.

(** The web site answers, and the disk is full once a request was made:
    every writing of a frame fails from then on, before it touches the file. *)
Definition full_disk : Env := {|
  check_bracketed_netloc := fun _ => true;
  nfkc_delimiter := fun _ => false;
  int_max_str_digits := 4300;
  os_getenv := fun _ => None;
  requests_get := fun _ _ _ => Ret {| status_code := 200; text := "<html>"; json := Ret [] |};
  BeautifulSoup := fun _ => Ret (fun _ => None);
  videos_list := fun _ _ => Ret [];
  channels_list := fun _ _ => Ret [];
  download_tiktok := fun _ _ _ => Ret None;
  download_youtube := fun _ _ => Ret None;
  download_instagram := fun _ _ _ => Ret None;
  instaloader_login := fun _ _ _ => Ret tt;
  pandas_keeps_missing := false;
  to_csv_fault := fun h _ _ =>
    match h with [] => None | _ => Some (EnvironmentError, None) end;
  print := fun _ _ => Ret tt
|}.

(** The network is down, and pandas is of a version in which [astype(str)]
    keeps a missing value missing. *)
Definition pandas3 : Env := {|
  check_bracketed_netloc := fun _ => true;
  nfkc_delimiter := fun _ => false;
  int_max_str_digits := 4300;
  os_getenv := fun _ => None;
  requests_get := fun _ _ _ => Raise RequestException;
  BeautifulSoup := fun _ => Ret (fun _ => None);
  videos_list := fun _ _ => Raise OtherException;
  channels_list := fun _ _ => Raise OtherException;
  download_tiktok := fun _ _ _ => Raise RequestException;
  download_youtube := fun _ _ => Raise OtherException;
  download_instagram := fun _ _ _ => Raise RequestException;
  instaloader_login := fun _ _ _ => Raise RequestException;
  pandas_keeps_missing := true;
  to_csv_fault := fun _ _ _ => None;
  print := fun _ _ => Ret tt
|}.

(** Nothing can be printed: the encoding of the output lacks U+274C. *)
Definition mute : Env := {|
  check_bracketed_netloc := fun _ => true;
  nfkc_delimiter := fun _ => false;
  int_max_str_digits := 4300;
  os_getenv := fun _ => None;
  requests_get := fun _ _ _ => Raise RequestException;
  BeautifulSoup := fun _ => Ret (fun _ => None);
  videos_list := fun _ _ => Raise OtherException;
  channels_list := fun _ _ => Raise OtherException;
  download_tiktok := fun _ _ _ => Raise RequestException;
  download_youtube := fun _ _ => Raise OtherException;
  download_instagram := fun _ _ _ => Raise RequestException;
  instaloader_login := fun _ _ _ => Raise RequestException;
  pandas_keeps_missing := false;
  to_csv_fault := fun _ _ _ => None;
  print := fun _ _ => Raise ValueError
|}.
(** * Properties *)

(** ** Strings *)

Lemma app_empty_r (s : string) : s ++ "" = s.
Proof. induction s as [|c s IH]; simpl; [reflexivity | now rewrite IH]. Qed.

Lemma app_assoc_str (a b c : string) : (a ++ b) ++ c = a ++ b ++ c.
Proof. induction a as [|x a IH]; simpl; [reflexivity | now rewrite IH]. Qed.

Lemma length_app_str (a b : string) :
  String.length (a ++ b) = String.length a + String.length b.
Proof. induction a as [|x a IH]; simpl; [reflexivity | now rewrite IH]. Qed.

Lemma is_empty_true (s : string) : is_empty s = true -> s = "".
Proof. destruct s; [reflexivity | discriminate]. Qed.

Lemma chr_eqb_eq (a b : ascii) : chr_eqb a b = true <-> a = b.
Proof. apply Ascii.eqb_eq. Qed.

Lemma chr_eqb_refl (a : ascii) : chr_eqb a a = true.
Proof. apply Ascii.eqb_refl. Qed.

Lemma take_lit_Some (p s t : string) : take_lit p s = Some t <-> s = p ++ t.
Proof.
  revert s; induction p as [|a p IH]; intros s; simpl.
  - split; [intros [= ->] | intros ->]; reflexivity.
  - destruct s as [|b s]; [split; discriminate|].
    destruct (chr_eqb a b) eqn:Hab.
    + apply chr_eqb_eq in Hab as ->. rewrite IH. split; [intros -> | intros [= ->]]; reflexivity.
    + split; [discriminate|]. intros [= -> _]. now rewrite chr_eqb_refl in Hab.
Qed.

Lemma forallb_app_str (p : ascii -> bool) (a b : string) :
  str_forallb p (a ++ b) = str_forallb p a && str_forallb p b.
Proof. induction a as [|x a IH]; simpl; [reflexivity | now rewrite IH, andb_assoc]. Qed.

(** ** The matcher only reports texts of the pattern's language *)

Lemma star_class_sound (p : ascii -> bool) (s m t : string) :
  In (m, t) (star_class p s) -> s = m ++ t /\ str_forallb p m = true.
Proof.
  revert m t; induction s as [|c s IH]; intros m t; simpl.
  - intros [[= <- <-]|[]]; auto.
  - destruct (p c) eqn:Hc.
    + rewrite in_app_iff, in_map_iff. intros [[[m' t'] [[= <- <-] Hin]]|[[= <- <-]|[]]]; auto.
      apply IH in Hin as [-> Hm]. simpl. now rewrite Hc, Hm.
    + intros [[= <- <-]|[]]; auto.
Qed.

Lemma plus_class_sound (p : ascii -> bool) (s m t : string) :
  In (m, t) (plus_class p s) -> s = m ++ t /\ m <> "" /\ str_forallb p m = true.
Proof.
  destruct s as [|c s]; simpl; [intros []|].
  destruct (p c) eqn:Hc; [|intros []].
  rewrite in_map_iff. intros [[m' t'] [[= <- <-] Hin]].
  apply star_class_sound in Hin as [-> Hm]. simpl. rewrite Hc, Hm. repeat split; discriminate.
Qed.

Lemma rep_class_sound (n : nat) (p : ascii -> bool) (s m t : string) :
  In (m, t) (rep_class n p s) ->
  s = m ++ t /\ String.length m = n /\ str_forallb p m = true.
Proof.
  revert s m t; induction n as [|n IH]; intros s m t; simpl.
  - intros [[= <- <-]|[]]; auto.
  - destruct s as [|c s]; [intros []|].
    destruct (p c) eqn:Hc; [|intros []].
    rewrite in_map_iff. intros [[m' t'] [[= <- <-] Hin]].
    apply IH in Hin as (-> & Hlen & Hm). simpl. now rewrite Hc, Hm, Hlen.
Qed.

Lemma rx_groups_sound (r : regex) :
  forall bos s g m t g', In (m, t, g') (rx r bos s g) -> s = m ++ t /\ langc r m g g'.
Proof.
  induction r as [p|r1 IH1 r2 IH2|r1 IH1 r2 IH2|r1 IH1|p|p|n p|i r1 IH1| |];
    intros bos s g m t g'; simpl.
  - destruct (take_lit p s) as [t'|] eqn:Ht; [|intros []].
    intros [[= <- <- <-]|[]]. apply take_lit_Some in Ht. auto.
  - rewrite in_flat_map. intros [[[m1 s1] g1] [H1 H2]].
    apply in_map_iff in H2 as [[[m2 s2] g2] [[= <- <- <-] H2]].
    apply IH1 in H1 as [-> L1]. apply IH2 in H2 as [-> L2].
    split; [now rewrite app_assoc_str | eauto 6].
  - rewrite in_app_iff. intros [H|H]; [apply IH1 in H | apply IH2 in H]; tauto.
  - rewrite in_app_iff. intros [H|[[= <- <- <-]|[]]]; [apply IH1 in H; tauto | auto].
  - rewrite in_map_iff. intros [[m' t'] [[= <- <- <-] H]].
    apply star_class_sound in H. tauto.
  - rewrite in_map_iff. intros [[m' t'] [[= <- <- <-] H]].
    apply plus_class_sound in H. tauto.
  - rewrite in_map_iff. intros [[m' t'] [[= <- <- <-] H]].
    apply rep_class_sound in H. tauto.
  - rewrite in_map_iff. intros [[[m' t'] g''] [[= <- <- <-] H]].
    apply IH1 in H as [-> L]. eauto.
  - destruct bos; [|intros []]. intros [[= <- <- <-]|[]]. auto.
  - destruct (at_eol s); [|intros []]. intros [[= <- <- <-]|[]]. auto.
Qed.

Lemma langc_lang (r : regex) : forall m g g', langc r m g g' -> lang r m.
Proof.
  induction r as [p|r1 IH1 r2 IH2|r1 IH1 r2 IH2|r1 IH1|p|p|n p|i r1 IH1| |];
    intros m g g'; simpl; try tauto.
  - intros (a & b & g1 & -> & L1 & L2). exists a, b. eauto.
  - intros [H|H]; [left | right]; eauto.
  - intros [[-> _]|H]; [now left | right; eauto].
  - intros (g1 & L & _). eauto.
Qed.

Lemma rx_sound (r : regex) :
  forall bos s g m t g', In (m, t, g') (rx r bos s g) -> s = m ++ t /\ lang r m.
Proof.
  intros bos s g m t g' H. apply rx_groups_sound in H as [-> L].
  split; [reflexivity | exact (langc_lang _ _ _ _ L)].
Qed.

Lemma fullmatch_sound (r : regex) (s : string) (g : captures) :
  fullmatch r s = Some g -> lang r s.
Proof.
  unfold fullmatch. destruct (List.filter _ _) as [|[[m t] g'] l] eqn:Hf; [discriminate|].
  intros _.
  assert (Hin : In (m, t, g') (List.filter ends_text (rx r true s []))) by (rewrite Hf; now left).
  apply filter_In in Hin as [Hin He]. apply rx_sound in Hin as [-> L].
  apply is_empty_true in He. simpl in He. subst t. now rewrite app_empty_r.
Qed.

(** ** The duration pattern *)

Lemma lang_component (i : nat) (u s : string) :
  lang (Opt (Cat (Grp i (Plus is_digit)) (Lit u))) s -> component u s.
Proof.
  intros [->|(a & b & -> & [Ha Hd] & ->)]; [now left | right].
  exists a. now repeat split.
Qed.

Lemma lang_pattern_iso (s : string) : lang media_meta_data.pattern s -> iso_duration s.
Proof.
  intros (a & b & -> & -> & h & c & -> & Hh & m & sec & -> & Hm & Hs).
  exists h, m, sec. repeat split; now (apply lang_component with (i := 1) ||
    apply lang_component with (i := 2) || apply lang_component with (i := 3) || idtac).
Qed.

(** A text of at most 640 digits is converted whatever the limit. *)
Lemma py_int_short (E : Env) (s : string) :
  String.length s <= 640 -> py_int E s = Ret (int_of_str s).
Proof.
  intros H. unfold py_int, too_long.
  destruct (Nat.ltb_spec (Nat.max 640 (int_max_str_digits E)) (String.length s)) as [Hlt|_];
    [lia | now rewrite andb_false_r].
Qed.

(** C3: the four durations of the specification and [PT0S] are printed as it
    says, ["bogus"] gives [None], and so does every text outside the grammar
    [PT#H#M#S]. *)
Theorem parse_youtube_duration_short_spec (E : Env) :
  media_meta_data.parse_youtube_duration_short E "PT1H2M3S" = Ret (Some "1:02:03") /\
  media_meta_data.parse_youtube_duration_short E "PT5M9S" = Ret (Some "5:09") /\
  media_meta_data.parse_youtube_duration_short E "PT45S" = Ret (Some "0:45") /\
  media_meta_data.parse_youtube_duration_short E "PT0S" = Ret (Some "0:00") /\
  media_meta_data.parse_youtube_duration_short E "bogus" = Ret None /\
  (forall s, ~ iso_duration s ->
     media_meta_data.parse_youtube_duration_short E s = Ret None).
Proof.
  repeat split;
    try (unfold media_meta_data.parse_youtube_duration_short, media_meta_data.group_int;
         simpl; rewrite ?py_int_short by (simpl; lia); reflexivity).
  intros s Hs. unfold media_meta_data.parse_youtube_duration_short.
  destruct (fullmatch media_meta_data.pattern s) as [g|] eqn:Hm; [|reflexivity].
  exfalso. apply Hs, lang_pattern_iso. exact (fullmatch_sound _ _ _ Hm).
Qed.

Lemma bogus_not_iso : ~ iso_duration "bogus".
Proof. intros (h & m & sec & _ & _ & _ & Heq). simpl in Heq. discriminate Heq. Qed.

Lemma parse_youtube_duration_short_spec_witness :
  ~ iso_duration "bogus" /\
  media_meta_data.parse_youtube_duration_short offline "bogus" = Ret None.
Proof.
  split; [exact bogus_not_iso|].
  exact (proj2 (proj2 (proj2 (proj2 (proj2 (parse_youtube_duration_short_spec offline)))))
               "bogus" bogus_not_iso).
Defined.

(** C10: the bare ["PT"] matches the pattern with no group taking part, and
    is printed ["0:00"]. *)
Theorem parse_youtube_duration_short_PT (E : Env) :
  fullmatch media_meta_data.pattern "PT" = Some [] /\
  group 1 [] = None /\ group 2 [] = None /\ group 3 [] = None /\
  media_meta_data.parse_youtube_duration_short E "PT" = Ret (Some "0:00").
Proof. repeat split; reflexivity. Qed.

(** ** Searching a pattern *)

Lemma rx_bos (r : regex) :
  no_bol r = true -> forall b b' s g, rx r b s g = rx r b' s g.
Proof.
  induction r as [p|r1 IH1 r2 IH2|r1 IH1 r2 IH2|r1 IH1|p|p|n p|i r1 IH1| |];
    simpl; intros Hr b b' s g; try reflexivity; try discriminate.
  - apply andb_prop in Hr as [H1 H2]. rewrite (IH1 H1 b b').
    apply flat_map_ext. intros [[m1 s1] g1]. now rewrite (IH2 H2 _ (b' && is_empty m1)).
  - apply andb_prop in Hr as [H1 H2]. now rewrite (IH1 H1 b b'), (IH2 H2 b b').
  - now rewrite (IH1 Hr b b').
  - now rewrite (IH1 Hr b b').
Qed.

Lemma search_from_iff (r : regex) (Hr : no_bol r = true) (s : string) :
  forall b, matched (search_from r b s) = true <->
            exists p t, s = p ++ t /\ rx r true t [] <> [].
Proof.
  induction s as [|c s IH]; intros b; simpl.
  - rewrite (rx_bos r Hr b true). destruct (rx r true "" []) as [|x l] eqn:Hx; simpl.
    + split; [discriminate|]. intros (p & t & Hpt & Hne).
      destruct p; [|discriminate]. simpl in Hpt. subst t. now rewrite Hx in Hne.
    + split; [|reflexivity]. intros _. exists "", "". now rewrite Hx.
  - rewrite (rx_bos r Hr b true). destruct (rx r true (String c s) []) as [|x l] eqn:Hx; simpl.
    + rewrite IH. split.
      * intros (p & t & -> & Hne). now exists (String c p), t.
      * intros (p & t & Hpt & Hne). destruct p as [|c' p].
        -- simpl in Hpt. subst t. now rewrite Hx in Hne.
        -- injection Hpt as _ ->. now exists p, t.
    + split; [|reflexivity]. intros _. exists "", (String c s). now rewrite Hx.
Qed.

Lemma at_eol_iff (t : string) : at_eol t = true <-> t = "" \/ t = String LF "".
Proof.
  destruct t as [|c [|c' t]]; simpl.
  - tauto.
  - rewrite chr_eqb_eq. split; [intros ->; now right | intros [|[= ->]]; [discriminate|reflexivity]].
  - split; [discriminate | intros [|]; discriminate].
Qed.

(** A group followed by [$]: some way to match the group stops at the end of
    the text or before its final line feed. *)
Lemma rx_group_eol (r : regex) (b : bool) (t : string) :
  rx (Cat (Grp 1 r) Eol) b t [] <> [] <->
  exists m t' g, In (m, t', g) (rx r b t []) /\ (t' = "" \/ t' = String LF "").
Proof.
  simpl. split.
  - intros Hne. destruct (List.flat_map _ _) as [|x l] eqn:Hf; [now elim Hne|].
    assert (Hin : In x (x :: l)) by now left.
    rewrite <- Hf in Hin. apply in_flat_map in Hin as [[[m1 s1] g1] [H1 H2]].
    apply in_map_iff in H1 as [[[m' t'] g'] [[= <- <- <-] H1]].
    destruct (at_eol t') eqn:He; [|destruct H2].
    apply at_eol_iff in He. eauto.
  - intros (m & t' & g & Hin & He) Hnil.
    apply at_eol_iff in He.
    assert (Hx : In (m ++ "", t', (1, m) :: g)
              (List.flat_map
                 (fun x1 : found =>
                    let '(m1, s1, g1) := x1 in
                    List.map (fun x2 : found => let '(m2, s2, g2) := x2 in (m1 ++ m2, s2, g2))
                      (if at_eol s1 then [("", s1, g1)] else []))
                 (List.map (fun x : found => let '(m0, t0, g') := x in (m0, t0, (1, m0) :: g'))
                    (rx r b t [])))).
    { apply in_flat_map. exists (m, t', (1, m) :: g). split.
      - apply in_map_iff. now exists (m, t', g).
      - rewrite He. now left. }
    rewrite Hnil in Hx. exact Hx.
Qed.

Lemma rx_lit_in (a t m t' : string) (b : bool) (g g' : captures) :
  In (m, t', g') (rx (Lit a) b t g) <-> m = a /\ t = a ++ t' /\ g' = g.
Proof.
  simpl. destruct (take_lit a t) as [u|] eqn:Hu.
  - apply take_lit_Some in Hu as ->. split.
    + intros [[= <- <- <-]|[]]. auto.
    + intros (-> & Heq & ->). apply String.app_inj in Heq as ->. now left.
  - split; [intros []|]. intros (-> & -> & ->).
    assert (H : take_lit a (a ++ t') = Some t') by now apply take_lit_Some.
    rewrite H in Hu. discriminate.
Qed.

(** On a text without line feed, searching [(a)$] succeeds exactly when the
    text ends with [a], and [(a|a')$] when it ends with one of the two. *)
Lemma no_LF_tail (p a : string) : no_LF (p ++ a ++ String LF "") = false.
Proof.
  unfold no_LF. rewrite !forallb_app_str.
  change (str_forallb (fun c => negb (chr_eqb c LF)) (String LF "")) with false.
  now rewrite !andb_false_r.
Qed.

Lemma search_one_suffix (a s : string) :
  no_LF s = true ->
  (matched (search (Cat (Grp 1 (Lit a)) Eol) s) = true <-> ends_with a s).
Proof.
  intros Hs. unfold search. rewrite search_from_iff by reflexivity. split.
  - intros (p & t & -> & Hne). apply rx_group_eol in Hne as (m & t' & g & Hin & He).
    apply rx_lit_in in Hin as (-> & -> & _). destruct He as [->| ->].
    + exists p. now rewrite app_empty_r.
    + now rewrite no_LF_tail in Hs.
  - intros [p ->]. exists p, a. split; [reflexivity|]. apply rx_group_eol.
    exists a, "", []. split; [|now left]. apply rx_lit_in. now rewrite app_empty_r.
Qed.

Lemma search_two_suffixes (a a' s : string) :
  no_LF s = true ->
  (matched (search (Cat (Grp 1 (Alt (Lit a) (Lit a'))) Eol) s) = true <->
   ends_with a s \/ ends_with a' s).
Proof.
  intros Hs. unfold search. rewrite search_from_iff by reflexivity. split.
  - intros (p & t & -> & Hne). apply rx_group_eol in Hne as (m & t' & g & Hin & He).
    change (rx (Alt (Lit a) (Lit a')) true t []) with
      (rx (Lit a) true t [] ++ rx (Lit a') true t [])%list in Hin.
    apply in_app_iff in Hin as [Hin|Hin]; apply rx_lit_in in Hin as (-> & -> & _);
      (destruct He as [->| ->]; [|now rewrite no_LF_tail in Hs]);
      [left|right]; exists p; now rewrite app_empty_r.
  - intros [[p ->]|[p ->]].
    + exists p, a. split; [reflexivity|]. apply rx_group_eol.
      exists a, "", []. split; [|now left].
      change (In (a, "", []) (rx (Lit a) true a [] ++ rx (Lit a') true a [])%list).
      apply in_app_iff. left. apply rx_lit_in. now rewrite app_empty_r.
    + exists p, a'. split; [reflexivity|]. apply rx_group_eol.
      exists a', "", []. split; [|now left].
      change (In (a', "", []) (rx (Lit a) true a' [] ++ rx (Lit a') true a' [])%list).
      apply in_app_iff. right. apply rx_lit_in. now rewrite app_empty_r.
Qed.

(** ** The pieces [urlparse] and [strip] cut out of a text *)

Lemma part_of_refl (s : string) : part_of s s.
Proof. intros q H; exact H. Qed.

Lemma part_of_trans (a b c : string) : part_of a b -> part_of b c -> part_of a c.
Proof. intros H1 H2 q H. apply H1, H2, H. Qed.

Lemma part_of_tail (c : ascii) (s' s : string) : part_of s' s -> part_of s' (String c s).
Proof. intros H q Hq. simpl in Hq. apply andb_prop in Hq as [_ Hq]. now apply H. Qed.

Lemma part_of_lstrip (p : ascii -> bool) (s : string) : part_of (lstrip_by p s) s.
Proof.
  induction s as [|c s IH]; simpl; [apply part_of_refl|].
  destruct (p c); [now apply part_of_tail | apply part_of_refl].
Qed.

Lemma part_of_rstrip (p : ascii -> bool) (s : string) : part_of (rstrip_by p s) s.
Proof.
  induction s as [|c s IH]; simpl; [apply part_of_refl|].
  destruct (is_empty (rstrip_by p s) && p c); intros q Hq; [reflexivity|].
  simpl in *. apply andb_prop in Hq as [Hc Hq]. now rewrite Hc, (IH q Hq).
Qed.

Lemma part_of_strip (s : string) : part_of (strip s) s.
Proof. eapply part_of_trans; [apply part_of_rstrip | apply part_of_lstrip]. Qed.

Lemma part_of_filter (p : ascii -> bool) (s : string) : part_of (str_filter p s) s.
Proof.
  induction s as [|c s IH]; simpl; [apply part_of_refl|].
  intros q Hq. simpl in Hq. apply andb_prop in Hq as [Hc Hq].
  destruct (p c); simpl; [rewrite Hc|]; now apply IH.
Qed.

Lemma part_of_drop (n : nat) (s : string) : part_of (drop_str n s) s.
Proof.
  revert s; induction n as [|n IH]; intros [|c s]; simpl; try apply part_of_refl.
  apply part_of_tail, IH.
Qed.

Lemma part_of_break (p : ascii -> bool) (s : string) :
  part_of (fst (break_at p s)) s /\ part_of (snd (break_at p s)) s.
Proof.
  induction s as [|c s [IH1 IH2]]; simpl; [split; apply part_of_refl|].
  destruct (p c); simpl; [split; [intros q _; reflexivity | apply part_of_refl]|].
  destruct (break_at p s) as [a b]; simpl in *. split.
  - intros q Hq. simpl in *. apply andb_prop in Hq as [Hc Hq]. now rewrite Hc, (IH1 q Hq).
  - now apply part_of_tail.
Qed.

Lemma part_of_after_scheme (s : string) : part_of (urllib.after_scheme s) s.
Proof.
  unfold urllib.after_scheme.
  pose proof (part_of_break (chr_eqb ":") s) as [_ H2].
  destruct (break_at (chr_eqb ":") s) as [pre rest]; simpl in H2.
  destruct pre as [|c0 pre]; [apply part_of_refl|].
  destruct rest as [|c1 after]; [apply part_of_refl|].
  destruct (_ && _); [|apply part_of_refl].
  intros q Hq. apply H2 in Hq. simpl in Hq. now apply andb_prop in Hq as [_ Hq].
Qed.

Lemma has_char_forallb (c : ascii) (s : string) :
  has_char c s = negb (str_forallb (fun x => negb (chr_eqb c x)) s).
Proof.
  unfold has_char. induction s as [|x s IH]; simpl; [reflexivity|].
  rewrite IH, negb_andb, negb_involutive. reflexivity.
Qed.

Lemma part_of_has_char (c : ascii) (s' s : string) :
  part_of s' s -> has_char c s' = true -> has_char c s = true.
Proof.
  intros H. rewrite !has_char_forallb.
  destruct (str_forallb _ s) eqn:Hs; [|reflexivity].
  now rewrite (H _ Hs).
Qed.

(** The netloc is a piece of the URL without tab, carriage return or line
    feed. *)
Lemma netloc_part_of (E : Env) (url netloc : string) :
  urllib.urlparse_netloc E url = Ret netloc ->
  part_of netloc (str_filter (fun c => negb (urllib.is_unsafe_byte c))
                             (lstrip_by urllib.is_c0_control_or_space url)).
Proof.
  unfold urllib.urlparse_netloc.
  set (u := str_filter _ _).
  assert (Hn : part_of (fst (break_at urllib.is_netloc_delim (drop_str 2 (urllib.after_scheme u)))) u).
  { eapply part_of_trans; [apply part_of_break|].
    eapply part_of_trans; [apply part_of_drop | apply part_of_after_scheme]. }
  unfold urllib.checked.
  destruct (starts_with "//" (urllib.after_scheme u)).
  - destruct (_ || _); [discriminate|].
    destruct (_ && _); [destruct (check_bracketed_netloc E _); [|discriminate]|];
      destruct (urllib.checknetloc E _); try discriminate;
      intros [= <-]; exact Hn.
  - destruct (urllib.checknetloc E _); [|discriminate].
    intros [= <-]. intros q _. reflexivity.
Qed.

Lemma no_LF_filter (s : string) :
  no_LF (str_filter (fun c => negb (urllib.is_unsafe_byte c)) s) = true.
Proof.
  unfold no_LF. induction s as [|c s IH]; simpl; [reflexivity|].
  destruct (negb (urllib.is_unsafe_byte c)) eqn:Hc; [|exact IH].
  simpl. rewrite IH, andb_true_r.
  destruct (chr_eqb c LF) eqn:Hl; [|reflexivity].
  apply chr_eqb_eq in Hl. subst c. discriminate Hc.
Qed.

Lemma lower_char_LF (c : ascii) : chr_eqb (lower_char c) LF = chr_eqb c LF.
Proof. destruct c as [[] [] [] [] [] [] [] []]; reflexivity. Qed.

Lemma no_LF_lower (s : string) : no_LF (lower s) = no_LF s.
Proof.
  unfold no_LF, lower. induction s as [|c s IH]; simpl; [reflexivity|].
  now rewrite IH, lower_char_LF.
Qed.

Lemma netloc_no_LF (E : Env) (url netloc : string) :
  urllib.urlparse_netloc E url = Ret netloc -> no_LF (lower netloc) = true.
Proof.
  intros H. rewrite no_LF_lower. apply (netloc_part_of E url netloc H), no_LF_filter.
Qed.

(** [_checknetloc] refuses only a netloc with a character that is not ASCII
    whose NFKC form, the characters [@ : # ?] left out, holds a delimiter. *)
Lemma checknetloc_raise (E : Env) (netloc : string) (e : exn) :
  urllib.checknetloc E netloc = Raise e ->
  e = ValueError /\ str_forallb urllib.is_ascii netloc = false /\
  nfkc_delimiter E (str_filter (fun c => negb (has_char c "@:#?")) netloc) = true.
Proof.
  unfold urllib.checknetloc.
  destruct (is_empty netloc); [discriminate|].
  destruct (str_forallb urllib.is_ascii netloc); [discriminate|]. simpl.
  destruct (nfkc_delimiter E _); [|discriminate]. now intros [= <-].
Qed.

(** When [urlparse] raises, it raises [ValueError]: the URL holds a bracket,
    or [_checknetloc] refuses a piece of it. *)
Lemma netloc_raise (E : Env) (url : string) (e : exn) :
  urllib.urlparse_netloc E url = Raise e ->
  e = ValueError /\
  (has_char "[" url || has_char "]" url = true \/
   exists netloc, part_of netloc url /\ urllib.checknetloc E netloc = Raise ValueError).
Proof.
  unfold urllib.urlparse_netloc.
  set (u := str_filter _ _).
  assert (Hu : part_of u url).
  { eapply part_of_trans; [apply part_of_filter | apply part_of_lstrip]. }
  set (n := fst (break_at urllib.is_netloc_delim (drop_str 2 (urllib.after_scheme u)))).
  assert (Hn : part_of n url).
  { eapply part_of_trans; [|exact Hu].
    eapply part_of_trans; [apply part_of_break|].
    eapply part_of_trans; [apply part_of_drop | apply part_of_after_scheme]. }
  assert (Hc : forall m, part_of m url -> urllib.checked E m = Raise e ->
             e = ValueError /\
             (has_char "[" url || has_char "]" url = true \/
              exists netloc, part_of netloc url /\
                             urllib.checknetloc E netloc = Raise ValueError)).
  { intros m Hm. unfold urllib.checked.
    destruct (urllib.checknetloc E m) as [[]|e'] eqn:Hcheck; [discriminate|].
    intros [= <-]. destruct (checknetloc_raise E m e' Hcheck) as [-> _].
    split; [reflexivity|]. right. now exists m. }
  destruct (starts_with "//" (urllib.after_scheme u)).
  2:{ apply Hc. intros q _. reflexivity. }
  destruct (has_char "[" n) eqn:Hl; destruct (has_char "]" n) eqn:Hr; simpl.
  - destruct (check_bracketed_netloc E n).
    + now apply Hc.
    + intros [= <-]. split; [reflexivity|]. left.
      now rewrite (part_of_has_char _ _ _ Hn Hl).
  - intros [= <-]. split; [reflexivity|]. left. now rewrite (part_of_has_char _ _ _ Hn Hl).
  - intros [= <-]. split; [reflexivity|]. left.
    rewrite (part_of_has_char _ _ _ Hn Hr). apply orb_true_r.
  - now apply Hc.
Qed.

(** ** Platform detection *)

Lemma detect_platform_same (E : Env) (url : string) :
  media_meta_data.detect_platform E url = main.detect_platform E url.
Proof. reflexivity. Qed.

(** Two suffixes of one text: the shorter is a suffix of the longer. *)
Lemma suffix_of_suffix (a b : string) :
  forall p q, p ++ a = q ++ b -> String.length a <= String.length b -> exists x, b = x ++ a.
Proof.
  induction p as [|c p IH]; intros q Heq Hlen; simpl in Heq.
  - destruct q as [|c q]; simpl in Heq; [exists ""; now subst|].
    subst a. simpl in Hlen. rewrite length_app_str in Hlen. lia.
  - destruct q as [|c' q]; simpl in Heq.
    + exists (String c p). now subst.
    + injection Heq as _ Heq. now apply (IH q).
Qed.

Lemma ends_with_apart (a b s : string) :
  ends_with a s -> ends_with b s -> String.length a <= String.length b ->
  exists x, b = x ++ a /\ String.length x = String.length b - String.length a.
Proof.
  intros [p ->] [q Hq] Hlen. destruct (suffix_of_suffix a b p q Hq Hlen) as [x ->].
  exists x. split; [reflexivity|]. rewrite length_app_str. lia.
Qed.

(** The four host names are no suffixes of one another. *)
Ltac apart Ha Hb :=
  let x := fresh "x" in
  let Hx := fresh "Hx" in
  let Hl := fresh "Hl" in
  destruct (ends_with_apart _ _ _ Ha Hb) as (x & Hx & Hl); [simpl; lia|];
  simpl in Hl;
  repeat (destruct x as [|? x]; [discriminate Hl|simpl in Hl; injection Hl as Hl]);
  destruct x; [|discriminate Hl];
  simpl in Hx; discriminate Hx.

Lemma hosts_apart (s : string) :
  (ends_with "tiktok.com" s -> ~ ends_with "youtube.com" s /\ ~ ends_with "youtu.be" s) /\
  (ends_with "instagram.com" s ->
   ~ ends_with "youtube.com" s /\ ~ ends_with "youtu.be" s /\ ~ ends_with "tiktok.com" s).
Proof.
  split; intros H; repeat split; intros H'.
  - apart H H'.
  - apart H' H.
  - apart H' H.
  - apart H' H.
  - apart H' H.
Qed.

Lemma detect_platform_unfold (E : Env) (url netloc : string) :
  strip url <> "" ->
  urllib.urlparse_netloc E (strip url) = Ret netloc ->
  main.detect_platform E url =
    if matched (search main.youtube_host (lower netloc)) then Ret "youtube"
    else if matched (search main.tiktok_host (lower netloc)) then Ret "tiktok"
    else if matched (search main.instagram_host (lower netloc)) then Ret "instagram"
    else Ret "unknown".
Proof.
  intros Hne Hn. unfold main.detect_platform. rewrite Hn.
  destruct (strip url); [now elim Hne | reflexivity].
Qed.

(** C1, amended: [detect_platform] decides on the netloc of [urlparse], which
    is the authority with its user information and port.  The empty text
    (after trimming) is [unknown]; when [urlparse] raises, so does
    [detect_platform]; otherwise the lower-cased netloc ending with
    [youtube.com] or [youtu.be] gives [youtube], with [tiktok.com] gives
    [tiktok], with [instagram.com] gives [instagram], and any other netloc
    gives [unknown].  Both copies of the function agree. *)
Theorem detect_platform_by_netloc (E : Env) (url : string) :
  media_meta_data.detect_platform E url = main.detect_platform E url /\
  (strip url = "" -> main.detect_platform E url = Ret "unknown") /\
  (forall e, strip url <> "" -> urllib.urlparse_netloc E (strip url) = Raise e ->
     main.detect_platform E url = Raise e) /\
  (forall netloc, strip url <> "" -> urllib.urlparse_netloc E (strip url) = Ret netloc ->
     (ends_with "youtube.com" (lower netloc) \/ ends_with "youtu.be" (lower netloc) ->
      main.detect_platform E url = Ret "youtube") /\
     (ends_with "tiktok.com" (lower netloc) -> main.detect_platform E url = Ret "tiktok") /\
     (ends_with "instagram.com" (lower netloc) ->
      main.detect_platform E url = Ret "instagram") /\
     (~ ends_with "youtube.com" (lower netloc) -> ~ ends_with "youtu.be" (lower netloc) ->
      ~ ends_with "tiktok.com" (lower netloc) -> ~ ends_with "instagram.com" (lower netloc) ->
      main.detect_platform E url = Ret "unknown")).
Proof.
  split; [reflexivity|]. split; [|split].
  - intros H. unfold main.detect_platform. now rewrite H.
  - intros e Hne He. unfold main.detect_platform. rewrite He.
    destruct (strip url); [now elim Hne | reflexivity].
  - intros netloc Hne Hn. rewrite (detect_platform_unfold E url netloc Hne Hn).
    pose proof (netloc_no_LF E _ _ Hn) as HLF.
    pose proof (search_two_suffixes "youtube.com" "youtu.be" _ HLF) as Hy.
    pose proof (search_one_suffix "tiktok.com" _ HLF) as Ht.
    pose proof (search_one_suffix "instagram.com" _ HLF) as Hi.
    pose proof (hosts_apart (lower netloc)) as [At Ai].
    fold main.youtube_host in Hy. fold main.tiktok_host in Ht. fold main.instagram_host in Hi.
    destruct (matched (search main.youtube_host (lower netloc)));
      destruct (matched (search main.tiktok_host (lower netloc)));
      destruct (matched (search main.instagram_host (lower netloc)));
      repeat split; try reflexivity; intros; exfalso;
      intuition (try discriminate; eauto).
Qed.

Lemma detect_platform_by_netloc_witness :
  main.detect_platform offline "https://www.YouTube.com/watch?v=dQw4w9WgXcQ" = Ret "youtube".
Proof.
  refine (proj1 (proj2 (proj2 (proj2
            (detect_platform_by_netloc offline "https://www.YouTube.com/watch?v=dQw4w9WgXcQ")))
            "www.YouTube.com" _ _) _).
  - discriminate.
  - reflexivity.
  - left. exists "www.". reflexivity.
Defined.

(** C1 as stated fails: with an explicit port the host component is
    [youtube.com], and the URL is classified [unknown]. *)
Lemma detect_platform_port_counterexample :
  urllib.urlparse_netloc offline "https://youtube.com:443/watch" = Ret "youtube.com:443" /\
  hostname "youtube.com:443" = "youtube.com" /\
  main.detect_platform offline "https://youtube.com:443/watch" = Ret "unknown" /\
  media_meta_data.detect_platform offline "https://youtube.com:443/watch" = Ret "unknown".
Proof. repeat split; reflexivity. Qed.

(** C2, amended: [detect_platform] is total and gives one of the four tags,
    or raises [ValueError]; it raises only when [urlparse] does, which is
    for a URL with a bracket (one bracket without the other, or a bracketed
    host that is refused) or with an authority that is not ASCII and that
    [_checknetloc] refuses for its NFKC form. *)
Theorem detect_platform_tag_or_ValueError (E : Env) (url : string) :
  media_meta_data.detect_platform E url = main.detect_platform E url /\
  ((exists tag, In tag platform_tags /\ main.detect_platform E url = Ret tag) \/
   (main.detect_platform E url = Raise ValueError /\
    urllib.urlparse_netloc E (strip url) = Raise ValueError /\
    (has_char "[" url || has_char "]" url = true \/
     exists netloc,
       part_of netloc url /\ str_forallb urllib.is_ascii netloc = false /\
       nfkc_delimiter E (str_filter (fun c => negb (has_char c "@:#?")) netloc) = true))).
Proof.
  split; [reflexivity|]. unfold main.detect_platform.
  destruct (is_empty (strip url)); [left; exists "unknown"; simpl; tauto|].
  destruct (urllib.urlparse_netloc E (strip url)) as [netloc|e] eqn:Hn.
  - left.
    destruct (matched _); [exists "youtube"; simpl; tauto|].
    destruct (matched _); [exists "tiktok"; simpl; tauto|].
    destruct (matched _); [exists "instagram"; simpl; tauto|].
    exists "unknown"; simpl; tauto.
  - right. apply netloc_raise in Hn as [-> Hb]. repeat split.
    destruct Hb as [Hb|(netloc & Hp & Hcheck)].
    + left. apply orb_prop in Hb as [Hb|Hb];
        rewrite (part_of_has_char _ _ _ (part_of_strip url) Hb);
        [reflexivity|apply orb_true_r].
    + right. exists netloc. split; [exact (part_of_trans _ _ _ Hp (part_of_strip url))|].
      now destruct (checknetloc_raise E netloc _ Hcheck) as (_ & Ha & Hd).
Qed.

(** C2 as stated fails: an authority with an opening bracket alone makes
    [urlparse], and with it [detect_platform], raise [ValueError]. *)
Lemma detect_platform_raises_counterexample :
  main.detect_platform offline "http://[" = Raise ValueError /\
  media_meta_data.detect_platform offline "http://[" = Raise ValueError.
Proof. split; reflexivity. Qed.

(** ** Video identifiers *)

Lemma rep_class_exact (n : nat) (p : ascii -> bool) (m t : string) :
  String.length m = n -> str_forallb p m = true -> rep_class n p (m ++ t) = [(m, t)].
Proof.
  revert m; induction n as [|n IH]; intros [|c m]; simpl; try discriminate; try reflexivity.
  intros [= Hl] Hp. apply andb_prop in Hp as [Hc Hp]. now rewrite Hc, (IH m Hl Hp).
Qed.

Lemma extract_video_id_same (url : string) :
  media_meta_data.extract_video_id url = youtube_metadata_fetcher.extract_video_id url.
Proof. reflexivity. Qed.

#[local] Arguments rep_class : simpl never.

(** C8: from the canonical URL [https://youtu.be/] followed by an
    identifier of eleven characters of [A-Za-z0-9_-], [extract_video_id]
    gives the identifier back, in both scripts. *)
Theorem extract_video_id_roundtrip (id : string) :
  String.length id = 11 ->
  str_forallb youtube_metadata_fetcher.is_id_char id = true ->
  media_meta_data.extract_video_id ("https://youtu.be/" ++ id) = Some id /\
  youtube_metadata_fetcher.extract_video_id ("https://youtu.be/" ++ id) = Some id.
Proof.
  intros Hl Hp. rewrite extract_video_id_same.
  assert (H : youtube_metadata_fetcher.extract_video_id ("https://youtu.be/" ++ id) = Some id);
    [|now split].
  unfold youtube_metadata_fetcher.extract_video_id, youtube_metadata_fetcher.patterns,
    youtube_metadata_fetcher.first_match, search.
  pose proof (rep_class_exact 11 _ id "" Hl Hp) as Hr. rewrite app_empty_r in Hr.
  simpl. rewrite Hr. reflexivity.
Qed.

Lemma extract_video_id_roundtrip_witness :
  media_meta_data.extract_video_id "https://youtu.be/dQw4w9WgXcQ" = Some "dQw4w9WgXcQ" /\
  youtube_metadata_fetcher.extract_video_id "https://youtu.be/dQw4w9WgXcQ" = Some "dQw4w9WgXcQ".
Proof. exact (extract_video_id_roundtrip "dQw4w9WgXcQ" eq_refl eq_refl). Defined.

(** ** The Instagram scrapers *)

Lemma try_except_raise {A} (body : M A) (caught : exn -> bool) (handler : exn -> M A)
    (w w' : world) (e : exn) :
  body w = (Raise e, w') -> caught e = true ->
  try_except body caught handler w = handler e w'.
Proof. intros Hb Hc. unfold try_except. now rewrite Hb, Hc. Qed.

Lemma try_except_outcome {A} (body : M A) (caught : exn -> bool) (handler : exn -> M A)
    (w : world) (e : exn) :
  (forall e' w', fst (handler e' w') <> Raise e) ->
  fst (try_except body caught handler w) = Raise e -> caught e = false.
Proof.
  intros Hh. unfold try_except. destruct (body w) as [[a|e'] w']; simpl; [discriminate|].
  destruct (caught e') eqn:Hc; simpl.
  - intros H. now elim (Hh e' w').
  - now intros [= <-].
Qed.

(** C4: whatever the fetch and parse step raises (an [Exception]: the
    request failing, a status from 400 to 599, the parser failing), both
    scrapers return the record with the URL and empty description and
    thumbnail, and never propagate an [Exception]. *)
Theorem fetch_instagram_meta_never_raises (E : Env) (url : string) (w : world) :
  (forall e w', is_Exception e = true ->
     media_meta_data.fetch_instagram_meta_try E url w = (Raise e, w') ->
     media_meta_data.fetch_instagram_meta E url w = (Ret (empty_record url), w')) /\
  (forall e w', is_Exception e = true ->
     temp.fetch_instagram_meta_try E url w = (Raise e, w') ->
     temp.fetch_instagram_meta E url w = (Ret (empty_record url), w')) /\
  (forall e, is_Exception e = true ->
     requests_get E (calls w) url [] = Raise e ->
     fst (media_meta_data.fetch_instagram_meta E url w) = Ret (empty_record url) /\
     fst (temp.fetch_instagram_meta E url w) = Ret (empty_record url)) /\
  (forall r, requests_get E (calls w) url [] = Ret r ->
     400 <= status_code r < 600 ->
     fst (media_meta_data.fetch_instagram_meta E url w) = Ret (empty_record url) /\
     fst (temp.fetch_instagram_meta E url w) = Ret (empty_record url)) /\
  (forall r e, is_Exception e = true ->
     requests_get E (calls w) url [] = Ret r ->
     BeautifulSoup E (text r) = Raise e ->
     fst (media_meta_data.fetch_instagram_meta E url w) = Ret (empty_record url) /\
     fst (temp.fetch_instagram_meta E url w) = Ret (empty_record url)) /\
  (forall e, fst (media_meta_data.fetch_instagram_meta E url w) = Raise e ->
     is_Exception e = false) /\
  (forall e, fst (temp.fetch_instagram_meta E url w) = Raise e -> is_Exception e = false).
Proof.
  repeat apply conj.
  - intros e w' He Hb. unfold media_meta_data.fetch_instagram_meta.
    now rewrite (try_except_raise _ _ _ w w' e Hb He).
  - intros e w' He Hb. unfold temp.fetch_instagram_meta.
    now rewrite (try_except_raise _ _ _ w w' e Hb He).
  - intros e He Hg.
    unfold media_meta_data.fetch_instagram_meta, temp.fetch_instagram_meta,
      media_meta_data.fetch_instagram_meta_try, temp.fetch_instagram_meta_try,
      try_except, bind, invoke.
    rewrite Hg, He. split; reflexivity.
  - intros r Hg [Hlo Hhi].
    unfold media_meta_data.fetch_instagram_meta, temp.fetch_instagram_meta,
      media_meta_data.fetch_instagram_meta_try, temp.fetch_instagram_meta_try,
      try_except, bind, invoke, lift, raise_for_status.
    rewrite Hg.
    apply Nat.leb_le in Hlo. apply Nat.ltb_lt in Hhi. rewrite Hlo, Hhi.
    split; reflexivity.
  - intros r e He Hg Hs.
    unfold media_meta_data.fetch_instagram_meta, temp.fetch_instagram_meta,
      media_meta_data.fetch_instagram_meta_try, temp.fetch_instagram_meta_try,
      try_except, bind, invoke, lift.
    rewrite Hg. unfold raise_for_status.
    destruct (Nat.leb 400 (status_code r) && Nat.ltb (status_code r) 600); simpl.
    + split; reflexivity.
    + rewrite Hs, He. split; reflexivity.
  - intros e. apply try_except_outcome. intros e' w'. discriminate.
  - intros e. apply try_except_outcome. intros e' w'. discriminate.
Qed.

Lemma fetch_instagram_meta_never_raises_witness :
  fst (media_meta_data.fetch_instagram_meta (site 404 None None)
         "https://www.instagram.com/p/gone/" fresh)
    = Ret (empty_record "https://www.instagram.com/p/gone/") /\
  fst (temp.fetch_instagram_meta (site 404 None None)
         "https://www.instagram.com/p/gone/" fresh)
    = Ret (empty_record "https://www.instagram.com/p/gone/").
Proof.
  refine (proj1 (proj2 (proj2 (proj2
    (fetch_instagram_meta_never_raises (site 404 None None)
       "https://www.instagram.com/p/gone/" fresh))))
    {| status_code := 404; text := "<html>"; json := Ret [] |} eq_refl _).
  simpl. lia.
Defined.

Lemma replace_no_occurrence (old new s : string) :
  occurs old s = false -> str_replace old new s = s.
Proof.
  unfold str_replace. induction s as [|c s IH]; simpl; [reflexivity|].
  intros H. apply orb_false_elim in H as [H1 H2].
  change (match old with
          | "" => true
          | String a p' => chr_eqb a c && starts_with p' s
          end) with (starts_with old (String c s)).
  rewrite H1. now rewrite (IH H2).
Qed.

Lemma or_empty_Some (s : string) : or_empty (Some s) = s.
Proof. now destruct s. Qed.

Lemma coerced_replace (fetched : option string) :
  coerced fetched (str_replace "nan" "" (or_empty fetched)).
Proof.
  repeat split.
  - now intros ->.
  - now intros ->.
  - intros s -> Hs. rewrite or_empty_Some. now apply replace_no_occurrence.
Qed.

(** C5, amended: when the page is fetched and parsed, the record's URL is
    the one asked for; in [media_meta_data.py] a description or image that
    was not found, or is the bare ["nan"], shows as the empty text, and one
    that does not hold the letters [nan] shows unchanged; in [temp.py] a
    value not found shows as the empty text and every value found shows
    unchanged, ["nan"] too. *)
Theorem fetch_instagram_meta_coercion (E : Env) (url : string) (w : world)
    (r : http_response) (sp : soup) :
  requests_get E (calls w) url [] = Ret r ->
  raise_for_status r = Ret tt ->
  BeautifulSoup E (text r) = Ret sp ->
  (exists d t,
     fst (media_meta_data.fetch_instagram_meta E url w)
       = Ret [ ("url", PStr url); ("description", PStr d); ("thumbnail", PStr t) ] /\
     coerced (og sp "og:description") d /\ coerced (og sp "og:image") t) /\
  (exists d t,
     fst (temp.fetch_instagram_meta E url w)
       = Ret [ ("url", PStr url); ("description", PStr d); ("thumbnail", PStr t) ] /\
     (og sp "og:description" = None -> d = "") /\
     (forall s, og sp "og:description" = Some s -> d = s) /\
     (og sp "og:image" = None -> t = "") /\
     (forall s, og sp "og:image" = Some s -> t = s)).
Proof.
  intros Hg Hs Hp. split.
  - exists (str_replace "nan" "" (or_empty (og sp "og:description"))),
           (str_replace "nan" "" (or_empty (og sp "og:image"))).
    split; [|split; apply coerced_replace].
    unfold media_meta_data.fetch_instagram_meta, media_meta_data.fetch_instagram_meta_try,
      try_except, bind, invoke, lift.
    rewrite Hg, Hs, Hp. unfold ret. cbn [fst]. now rewrite or_empty_Some.
  - exists (or_empty (og sp "og:description")), (or_empty (og sp "og:image")).
    split.
    + unfold temp.fetch_instagram_meta, temp.fetch_instagram_meta_try,
        try_except, bind, invoke, lift.
      now rewrite Hg, Hs, Hp.
    + repeat split; try (now intros ->); intros s ->; apply or_empty_Some.
Qed.

Lemma fetch_instagram_meta_coercion_witness :
  exists d t,
    fst (media_meta_data.fetch_instagram_meta
           (site 200 (Some "A reel about sourdough") None)
           "https://www.instagram.com/p/x/" fresh)
      = Ret [ ("url", PStr "https://www.instagram.com/p/x/");
              ("description", PStr d); ("thumbnail", PStr t) ] /\
    coerced (Some "A reel about sourdough") d /\ coerced None t.
Proof.
  exact (proj1 (fetch_instagram_meta_coercion
    (site 200 (Some "A reel about sourdough") None) "https://www.instagram.com/p/x/" fresh
    {| status_code := 200; text := "<html>"; json := Ret [] |}
    (fun prop => if String.eqb prop "og:description" then Some (Some "A reel about sourdough")
                 else if String.eqb prop "og:image" then Some None else None)
    eq_refl eq_refl eq_refl)).
Defined.

(** C5 as stated fails: [media_meta_data.py] turns the description [banana]
    into [baa] and the image [nnanan] into [nan], and [temp.py] returns the
    description [nan] as it is. *)
Lemma fetch_instagram_meta_nan_counterexample :
  fst (media_meta_data.fetch_instagram_meta (site 200 (Some "banana") (Some "nnanan"))
         "https://www.instagram.com/p/x/" fresh)
    = Ret [ ("url", PStr "https://www.instagram.com/p/x/");
            ("description", PStr "baa"); ("thumbnail", PStr "nan") ] /\
  fst (temp.fetch_instagram_meta (site 200 (Some "nan") None)
         "https://www.instagram.com/p/x/" fresh)
    = Ret [ ("url", PStr "https://www.instagram.com/p/x/");
            ("description", PStr "nan"); ("thumbnail", PStr "") ].
Proof. split; reflexivity. Qed.

(** ** The YouTube normalizer and the row loop *)

Lemma detect_youtube_nonblank (E : Env) (url : string) :
  main.detect_platform E url = Ret "youtube" ->
  is_empty (strip url) = false /\ String.eqb url "nan" = false.
Proof.
  intros H. split.
  - unfold main.detect_platform in H. destruct (is_empty (strip url)); [discriminate|reflexivity].
  - destruct (String.eqb url "nan") eqn:Hn; [|reflexivity].
    apply String.eqb_eq in Hn. subst url. discriminate H.
Qed.

(** C6: when the provider knows no item for the identifier,
    [fetch_video_data] returns [None]; a row whose URL is a YouTube one and
    whose lookup finds no item adds one to the skipped counter, leaves the
    success counter and the frame as they are, and the loop goes on with the
    next row. *)
Theorem zero_items_row_is_skipped (E : Env) :
  (forall vid w, videos_list E (calls w) vid = Ret [] ->
     media_meta_data.fetch_video_data E vid w = (Ret None, logged (VideosList vid) w)) /\
  (forall cols idx row rest st w url,
     url = strip (media_meta_data.py_str
                    (media_meta_data.row_get cols row "URL / Media" (PStr ""))) ->
     media_meta_data.detect_platform E url = Ret "youtube" ->
     videos_list E (calls w) (media_meta_data.extract_video_id url) = Ret [] ->
     media_meta_data.download_metadata E (idx + 1) url w
       = (Ret None, logged (VideosList (media_meta_data.extract_video_id url)) w) /\
     media_meta_data.process_row E cols idx row st w
       = (Ret (media_meta_data.skipped st),
          logged (VideosList (media_meta_data.extract_video_id url)) w) /\
     media_meta_data.skipped_error_count (media_meta_data.skipped st)
       = S (media_meta_data.skipped_error_count st) /\
     media_meta_data.success_count (media_meta_data.skipped st)
       = media_meta_data.success_count st /\
     media_meta_data.df (media_meta_data.skipped st) = media_meta_data.df st /\
     media_meta_data.process_rows E cols idx (row :: rest) st w
       = media_meta_data.process_rows E cols (S idx) rest (media_meta_data.skipped st)
           (logged (VideosList (media_meta_data.extract_video_id url)) w)).
Proof.
  assert (Hf : forall vid w, videos_list E (calls w) vid = Ret [] ->
     media_meta_data.fetch_video_data E vid w = (Ret None, logged (VideosList vid) w)).
  { intros vid w Hv. unfold media_meta_data.fetch_video_data, bind, invoke. now rewrite Hv. }
  split; [exact Hf|].
  intros cols idx row rest st w url Hurl Hd Hv.
  assert (Hm : media_meta_data.download_metadata E (idx + 1) url w
               = (Ret None, logged (VideosList (media_meta_data.extract_video_id url)) w)).
  { unfold media_meta_data.download_metadata, bind, lift. rewrite Hd. simpl.
    now apply Hf. }
  assert (Hr : media_meta_data.process_row E cols idx row st w
               = (Ret (media_meta_data.skipped st),
                  logged (VideosList (media_meta_data.extract_video_id url)) w)).
  { destruct (detect_youtube_nonblank E url Hd) as [He Hn].
    assert (He' : is_empty url = false).
    { destruct url; [|reflexivity]. discriminate Hd. }
    unfold media_meta_data.process_row. rewrite <- Hurl, He', Hn. simpl.
    rewrite Hm. reflexivity. }
  repeat split; try assumption.
  simpl. unfold bind at 1. now rewrite Hr.
Qed.

Lemma zero_items_row_is_skipped_witness :
  media_meta_data.process_row (site 200 None None) ["Platform"; "URL / Media"] 0
    [PStr "youtube"; PStr "https://youtu.be/dQw4w9WgXcQ"]
    (media_meta_data.start {| columns := ["Platform"; "URL / Media"]; rows := [] |}) fresh
  = (Ret (media_meta_data.skipped
            (media_meta_data.start {| columns := ["Platform"; "URL / Media"]; rows := [] |})),
     logged (VideosList (Some "dQw4w9WgXcQ")) fresh).
Proof.
  exact (proj1 (proj2 (proj2 (zero_items_row_is_skipped (site 200 None None))
    ["Platform"; "URL / Media"] 0 [PStr "youtube"; PStr "https://youtu.be/dQw4w9WgXcQ"] []
    (media_meta_data.start {| columns := ["Platform"; "URL / Media"]; rows := [] |}) fresh
    "https://youtu.be/dQw4w9WgXcQ" eq_refl eq_refl eq_refl))).
Defined.

(** ** The dispatchers *)

(** C7, amended: on a URL classified [unknown] both dispatchers return
    [None] and leave the world, and with it the log of calls, as it is.  On a
    known platform [download_metadata] returns what the platform's normalizer
    returns, and so does [download_video], except that for TikTok it first
    wants a non-empty [RAPIDAPI_KEY] and raises [EnvironmentError] without
    any call when there is none, and that for Instagram it logs in first when
    both credentials are set. *)
Theorem dispatch_by_platform (E : Env) (url : string) (w : world) :
  (main.detect_platform E url = Ret "unknown" ->
     (forall n, media_meta_data.download_metadata E n url w = (Ret None, w)) /\
     main.download_video E url w = (Ret None, w)) /\
  (main.detect_platform E url = Ret "youtube" ->
     (forall n, media_meta_data.download_metadata E n url w
                = media_meta_data.fetch_video_data E (media_meta_data.extract_video_id url) w) /\
     main.download_video E url w
       = (download_youtube E (calls w) url, logged (DownloadYoutube url) w)) /\
  (main.detect_platform E url = Ret "tiktok" ->
     (forall n, media_meta_data.download_metadata E n url w
                = media_meta_data.fetch_tiktok_reel_metadata E url w) /\
     (forall key, os_getenv E "RAPIDAPI_KEY" = Some key -> key <> "" ->
        main.download_video E url w
          = (download_tiktok E (calls w) url key, logged (DownloadTiktok url key) w)) /\
     (nonempty (os_getenv E "RAPIDAPI_KEY") = false ->
        main.download_video E url w = (Raise EnvironmentError, w))) /\
  (main.detect_platform E url = Ret "instagram" ->
     (forall n,
        media_meta_data.download_metadata E n url w
        = match media_meta_data.fetch_instagram_meta E url w with
          | (Ret r, w') => (Ret (Some r), w')
          | (Raise e, w') => (Raise e, w')
          end) /\
     (nonempty (os_getenv E "INSTA_USERNAME") && nonempty (os_getenv E "INSTA_PASSWORD") = false ->
        main.download_video E url w
          = (download_instagram E (calls w) url false, logged (DownloadInstagram url false) w)) /\
     (forall u p, os_getenv E "INSTA_USERNAME" = Some u -> os_getenv E "INSTA_PASSWORD" = Some p ->
        u <> "" -> p <> "" ->
        main.download_video E url w
          = match instaloader_login E (calls w) u p with
            | Ret _ =>
                (download_instagram E (calls w ++ [InstaloaderLogin u p]) url true,
                 logged (DownloadInstagram url true) (logged (InstaloaderLogin u p) w))
            | Raise e => (Raise e, logged (InstaloaderLogin u p) w)
            end)).
Proof.
  unfold media_meta_data.download_metadata, main.download_video, bind, lift.
  change (media_meta_data.detect_platform E url) with (main.detect_platform E url).
  repeat apply conj; intros Hd; rewrite Hd; simpl; repeat apply conj;
    try reflexivity; try (intros n; reflexivity).
  - intros key Hk Hne. rewrite Hk. destruct key; [now elim Hne | reflexivity].
  - intros Hk. now rewrite Hk.
  - intros Hc. now rewrite Hc.
  - intros u p Hu Hp Hun Hpn. rewrite Hu, Hp.
    destruct u; [now elim Hun|]. destruct p; [now elim Hpn|]. simpl.
    unfold invoke at 1. now destruct (instaloader_login E (calls w) _ _).
Qed.

Lemma dispatch_by_platform_witness :
  media_meta_data.download_metadata (site 200 None None) 1 "https://youtu.be/dQw4w9WgXcQ" fresh
  = media_meta_data.fetch_video_data (site 200 None None)
      (media_meta_data.extract_video_id "https://youtu.be/dQw4w9WgXcQ") fresh.
Proof.
  exact (proj1 (proj1 (proj2 (dispatch_by_platform (site 200 None None)
           "https://youtu.be/dQw4w9WgXcQ" fresh)) eq_refl) 1).
Defined.

(** C7 as stated fails for [download_video]: a TikTok URL with no
    [RAPIDAPI_KEY] in the environment raises [EnvironmentError] and no
    downloader is called, although the downloader would deliver. *)
Lemma download_video_missing_key_counterexample :
  main.detect_platform (site 200 None None) "https://www.tiktok.com/@u/video/1" = Ret "tiktok" /\
  os_getenv (site 200 None None) "RAPIDAPI_KEY" = None /\
  main.download_video (site 200 None None) "https://www.tiktok.com/@u/video/1" fresh
    = (Raise EnvironmentError, fresh) /\
  download_tiktok (site 200 None None) [] "https://www.tiktok.com/@u/video/1" ""
    = Ret (Some ([], "video.mp4")).
Proof. repeat split; reflexivity. Qed.

(** ** The files the loop writes *)

Lemma keeps_ret {A} (p : string) (a : A) : keeps p (ret a).
Proof. intros w; reflexivity. Qed.

Lemma keeps_raise {A} (p : string) (e : exn) : keeps p (@raise A e).
Proof. intros w; reflexivity. Qed.

Lemma keeps_lift {A} (p : string) (o : outcome A) : keeps p (lift o).
Proof. intros w; reflexivity. Qed.

Lemma keeps_invoke {A} (p : string) (c : call) (f : list call -> outcome A) :
  keeps p (invoke c f).
Proof. intros w; reflexivity. Qed.

Lemma keeps_bind {A B} (p : string) (m : M A) (k : A -> M B) :
  keeps p m -> (forall a, keeps p (k a)) -> keeps p (bind m k).
Proof.
  intros Hm Hk w. unfold bind. specialize (Hm w).
  destruct (m w) as [[a|e] w']; simpl in *; [now rewrite (Hk a w') | exact Hm].
Qed.

Lemma keeps_try {A} (p : string) (body : M A) (c : exn -> bool) (h : exn -> M A) :
  keeps p body -> (forall e, keeps p (h e)) -> keeps p (try_except body c h).
Proof.
  intros Hb Hh w. unfold try_except. specialize (Hb w).
  destruct (body w) as [[a|e] w']; simpl in *; [exact Hb|].
  destruct (c e); simpl; [now rewrite (Hh e w') | exact Hb].
Qed.

Lemma keeps_to_csv (E : Env) (p path : string) (d : table) :
  path <> p -> keeps p (media_meta_data.to_csv E path d).
Proof.
  intros Hne w. unfold media_meta_data.to_csv.
  destruct (to_csv_fault E (calls w) path d) as [[e [partial|]]|]; simpl;
    try reflexivity; now apply lookup_insert_ne.
Qed.

Lemma keeps_say (E : Env) (p : string) (m : message) : keeps p (media_meta_data.say E m).
Proof. intros w; reflexivity. Qed.

Lemma keeps_row_error (E : Env) (p : string) (idx : nat) (st : media_meta_data.counters)
    (e : exn) :
  keeps p (media_meta_data.row_error E idx st e).
Proof.
  intros w. unfold media_meta_data.row_error, bind, media_meta_data.say.
  now destruct (print E (calls w) _).
Qed.

Lemma keeps_read_csv (p path : string) : keeps p (media_meta_data.read_csv path).
Proof. intros w. unfold media_meta_data.read_csv. now destruct (files w !! path). Qed.

Ltac frame :=
  repeat first
    [ apply keeps_ret | apply keeps_raise | apply keeps_lift | apply keeps_invoke
    | apply keeps_read_csv
    | apply keeps_say
    | apply keeps_to_csv; assumption
    | apply keeps_bind; [|intros ?; cbv beta]
    | apply keeps_try; [|intros ?; cbv beta]
    | match goal with |- keeps _ (match ?x with _ => _ end) => destruct x end
    | assumption ].

Lemma keeps_download_metadata (E : Env) (p : string) (n : nat) (url : string) :
  keeps p (media_meta_data.download_metadata E n url).
Proof.
  unfold media_meta_data.download_metadata, media_meta_data.fetch_video_data,
    media_meta_data.get_channel_statistics, media_meta_data.fetch_tiktok_reel_metadata,
    media_meta_data.fetch_instagram_meta, media_meta_data.fetch_instagram_meta_try.
  frame.
Qed.

Lemma keeps_process_row (E : Env) (p : string) (cols : list string) (idx : nat)
    (row : list pyval) (st : media_meta_data.counters) :
  media_meta_data.TEMP_CSV <> p -> keeps p (media_meta_data.process_row E cols idx row st).
Proof.
  intros Hne. unfold media_meta_data.process_row.
  destruct (_ || _); [apply keeps_ret|]. intros w.
  pose proof (keeps_download_metadata E p (idx + 1)
                (strip (media_meta_data.py_str
                          (media_meta_data.row_get cols row "URL / Media" (PStr "")))) w) as Hd.
  destruct (media_meta_data.download_metadata E (idx + 1) _ w) as [[[[|kv kvs]|]|e] w1];
    simpl in Hd; try exact Hd.
  - pose proof (keeps_to_csv E p media_meta_data.TEMP_CSV
                  (media_meta_data.df (media_meta_data.stored_row idx (kv :: kvs) st))
                  Hne w1) as Hw.
    destruct (media_meta_data.to_csv E media_meta_data.TEMP_CSV _ w1) as [[[]|e] w2];
      simpl in Hw; [simpl; congruence|].
    destruct (is_Exception e); [|simpl; congruence].
    rewrite (keeps_row_error E p idx _ e w2). congruence.
  - destruct (is_Exception e); [|exact Hd].
    rewrite (keeps_row_error E p idx _ e w1). exact Hd.
Qed.

Lemma keeps_process_rows (E : Env) (p : string) (cols : list string)
    (rs : list (list pyval)) :
  media_meta_data.TEMP_CSV <> p ->
  forall idx st, keeps p (media_meta_data.process_rows E cols idx rs st).
Proof.
  intros Hne. induction rs as [|row rest IH]; intros idx st; simpl.
  - apply keeps_ret.
  - apply keeps_bind; [now apply keeps_process_row | intros st'; apply IH].
Qed.

(** Up to the swap, the script writes no file but the temporary one. *)
Lemma keeps_run_rows (E : Env) (p : string) (n : nat) :
  media_meta_data.TEMP_CSV <> p -> keeps p (media_meta_data.run_rows E n).
Proof.
  intros Hne. unfold media_meta_data.run_rows, media_meta_data.load.
  frame. now apply keeps_process_rows.
Qed.

(** C9: stopped after any number of turns of the loop, with the swap not yet
    made, the script has left the input file as it found it; the same holds
    of the loop from any state, whether it returns or an exception gets
    through. *)
Theorem input_untouched_before_swap (E : Env) (n : nat) (w : world) :
  files (snd (media_meta_data.run_rows E n w)) !! media_meta_data.INPUT_CSV
    = files w !! media_meta_data.INPUT_CSV /\
  (forall cols idx rs st,
     files (snd (media_meta_data.process_rows E cols idx rs st w)) !! media_meta_data.INPUT_CSV
       = files w !! media_meta_data.INPUT_CSV).
Proof.
  assert (Hne : media_meta_data.TEMP_CSV <> media_meta_data.INPUT_CSV) by discriminate.
  split.
  - exact (keeps_run_rows E _ n Hne w).
  - intros cols idx rs st. exact (keeps_process_rows E _ cols rs Hne idx st w).
Qed.

(** ** The temporary file and the counters *)

Lemma to_csv_keeps_temp (E : Env) (d : table) (w : world) :
  is_Some (files w !! media_meta_data.TEMP_CSV) ->
  is_Some (files (snd (media_meta_data.to_csv E media_meta_data.TEMP_CSV d w))
             !! media_meta_data.TEMP_CSV).
Proof.
  intros Ht. unfold media_meta_data.to_csv.
  destruct (to_csv_fault E (calls w) _ d) as [[e [partial|]]|]; simpl;
    try exact Ht; rewrite lookup_insert_eq; eauto.
Qed.

(** What a turn of the loop does to the counters and to the temporary file:
    each counter grows by one at most and one of them grows; the file stays
    there; and when no writing fails, exactly one counter grows and the file
    holds the frame. *)
Lemma process_row_step (E : Env) (cols : list string) (idx : nat) (row : list pyval)
    (st st' : media_meta_data.counters) (w w' : world) :
  media_meta_data.process_row E cols idx row st w = (Ret st', w') ->
  (media_meta_data.success_count st <= media_meta_data.success_count st'
     <= S (media_meta_data.success_count st) /\
   media_meta_data.skipped_error_count st <= media_meta_data.skipped_error_count st'
     <= S (media_meta_data.skipped_error_count st) /\
   S (media_meta_data.success_count st + media_meta_data.skipped_error_count st)
     <= media_meta_data.success_count st' + media_meta_data.skipped_error_count st') /\
  (is_Some (files w !! media_meta_data.TEMP_CSV) ->
   is_Some (files w' !! media_meta_data.TEMP_CSV)) /\
  (writes_succeed E ->
   files w !! media_meta_data.TEMP_CSV = Some (media_meta_data.df st) ->
   files w' !! media_meta_data.TEMP_CSV = Some (media_meta_data.df st') /\
   media_meta_data.success_count st' + media_meta_data.skipped_error_count st'
     = S (media_meta_data.success_count st + media_meta_data.skipped_error_count st)).
Proof.
  unfold media_meta_data.process_row.
  destruct (_ || _).
  { intros [= <- <-]. simpl. repeat split; auto; lia. }
  pose proof (keeps_download_metadata E media_meta_data.TEMP_CSV (idx + 1)
                (strip (media_meta_data.py_str
                          (media_meta_data.row_get cols row "URL / Media" (PStr "")))) w) as Hk.
  destruct (media_meta_data.download_metadata E (idx + 1) _ w) as [[[[|kv kvs]|]|e] w1];
    simpl in Hk.
  - intros [= <- <-]. simpl. rewrite Hk. repeat split; auto; lia.
  - pose proof (to_csv_keeps_temp E
                  (media_meta_data.df (media_meta_data.stored_row idx (kv :: kvs) st)) w1) as Hs.
    unfold media_meta_data.to_csv in *.
    destruct (to_csv_fault E (calls w1) media_meta_data.TEMP_CSV _) as [[e partial]|] eqn:Hf.
    + assert (Hrow : forall w2,
                (if is_Exception e
                 then media_meta_data.row_error E idx
                        (media_meta_data.stored_row idx (kv :: kvs) st) e w2
                 else (Raise e, w2)) = (Ret st', w') ->
                st' = media_meta_data.skipped (media_meta_data.stored_row idx (kv :: kvs) st) /\
                w' = w2).
      { intros w2. destruct (is_Exception e); [|discriminate].
        unfold media_meta_data.row_error, bind, media_meta_data.say.
        destruct (print E (calls w2) _); [|discriminate]. now intros [= <- <-]. }
      destruct partial as [partial|]; simpl in *; intros Hrun;
        apply Hrow in Hrun as [-> ->]; simpl;
        (split; [lia|]); (split; [rewrite <- ?Hk; exact Hs|]);
        intros Hall; now rewrite Hall in Hf.
    + simpl in *. intros [= <- <-]. simpl.
      split; [lia|]. split; [rewrite <- ?Hk; exact Hs|].
      intros _ _. split; [apply lookup_insert_eq | lia].
  - intros [= <- <-]. simpl. rewrite Hk. repeat split; auto; lia.
  - destruct (is_Exception e); [|discriminate].
    unfold media_meta_data.row_error, bind, media_meta_data.say.
    destruct (print E (calls w1) _); [|discriminate].
    intros [= <- <-]. simpl. rewrite Hk. repeat split; auto; lia.
Qed.

Lemma process_rows_steps (E : Env) (cols : list string) (rs : list (list pyval)) :
  forall idx st st' w w',
    media_meta_data.process_rows E cols idx rs st w = (Ret st', w') ->
    (media_meta_data.success_count st' <= length rs + media_meta_data.success_count st /\
     media_meta_data.skipped_error_count st'
       <= length rs + media_meta_data.skipped_error_count st /\
     length rs + (media_meta_data.success_count st + media_meta_data.skipped_error_count st)
       <= media_meta_data.success_count st' + media_meta_data.skipped_error_count st') /\
    (is_Some (files w !! media_meta_data.TEMP_CSV) ->
     is_Some (files w' !! media_meta_data.TEMP_CSV)) /\
    (writes_succeed E ->
     files w !! media_meta_data.TEMP_CSV = Some (media_meta_data.df st) ->
     files w' !! media_meta_data.TEMP_CSV = Some (media_meta_data.df st') /\
     media_meta_data.success_count st' + media_meta_data.skipped_error_count st'
       = length rs
         + (media_meta_data.success_count st + media_meta_data.skipped_error_count st)).
Proof.
  induction rs as [|row rest IH]; intros idx st st' w w'; simpl.
  - intros [= <- <-]. repeat split; auto; lia.
  - unfold bind at 1.
    destruct (media_meta_data.process_row E cols idx row st w) as [[st1|e] w1] eqn:Hrow;
      [|discriminate].
    destruct (process_row_step E cols idx row st st1 w w1 Hrow) as (Hc1 & Hs1 & Hw1).
    intros Hrest. destruct (IH (S idx) st1 st' w1 w' Hrest) as (Hc' & Hs' & Hw').
    split; [lia|]. split; [auto|].
    intros Hall Ht. destruct (Hw1 Hall Ht) as [Ht1 Hn1].
    destruct (Hw' Hall Ht1) as [Ht' Hn']. split; [exact Ht' | lia].
Qed.

Lemma load_writes_temp (E : Env) (w w0 : world) (d : table) :
  media_meta_data.load E w = (Ret d, w0) ->
  files w0 !! media_meta_data.TEMP_CSV = Some d.
Proof.
  unfold media_meta_data.load, bind, media_meta_data.read_csv.
  destruct (files w !! media_meta_data.INPUT_CSV) as [raw|]; [|discriminate].
  unfold media_meta_data.to_csv.
  destruct (to_csv_fault E (calls w) _ _) as [[e [partial|]]|]; simpl; try discriminate.
  intros [= <- <-]. simpl. apply lookup_insert_eq.
Qed.


Lemma pair_of_fst {A B} (p : A * B) (a : A) : fst p = a -> p = (a, snd p).
Proof. intros <-. now destruct p. Qed.


(** A writing that fails: the row is counted in both counters, and the
    temporary file is left behind the frame. *)
Example temp_file_stale_when_disk_full :
  exists st w',
    media_meta_data.run_rows full_disk 1 instagram_world = (Ret st, w') /\
    media_meta_data.success_count st = 1 /\
    media_meta_data.skipped_error_count st = 1 /\
    files w' !! media_meta_data.TEMP_CSV <> Some (media_meta_data.df st).
Proof.
  eexists. eexists. split; [apply pair_of_fst; reflexivity|].
  split; [reflexivity|]. split; [reflexivity|]. vm_compute. discriminate.
Qed.



(** ** The TikTok normalizer *)

(** X3: [fetch_tiktok_reel_metadata] asks the oEmbed endpoint with the URL
    as parameter; when the request raises a [RequestException] or the status
    is from 400 to 599 it returns [None]; when the answer is a JSON object
    with a textual [html] member that parses, it returns the title, the
    author's URL and the thumbnail URL as the object has them. *)
Theorem fetch_tiktok_reel_metadata_spec (E : Env) (reel_url : string) (w : world) :
  let c := RequestsGet media_meta_data.oembed_endpoint [("url", reel_url)] in
  (forall e, is_RequestException e = true ->
     requests_get E (calls w) media_meta_data.oembed_endpoint [("url", reel_url)] = Raise e ->
     media_meta_data.fetch_tiktok_reel_metadata E reel_url w = (Ret None, logged c w)) /\
  (forall r,
     requests_get E (calls w) media_meta_data.oembed_endpoint [("url", reel_url)] = Ret r ->
     400 <= status_code r < 600 ->
     media_meta_data.fetch_tiktok_reel_metadata E reel_url w = (Ret None, logged c w)) /\
  (forall r data sp,
     requests_get E (calls w) media_meta_data.oembed_endpoint [("url", reel_url)] = Ret r ->
     raise_for_status r = Ret tt ->
     json r = Ret data ->
     media_meta_data.parse_embed_html E data = Ret sp ->
     media_meta_data.fetch_tiktok_reel_metadata E reel_url w
       = (Ret (Some [ ("Title / Headline", dict_get "title" data);
                      ("Creator / Channel", dict_get "author_url" data);
                      ("Thumbnail Url", dict_get "thumbnail_url" data) ]),
          logged c w)).
Proof.
  intros c. unfold media_meta_data.fetch_tiktok_reel_metadata, try_except, bind, invoke, lift.
  repeat split.
  - intros e He Hg. now rewrite Hg, He.
  - intros r Hg [Hlo Hhi]. rewrite Hg. unfold raise_for_status.
    apply Nat.leb_le in Hlo. apply Nat.ltb_lt in Hhi. now rewrite Hlo, Hhi.
  - intros r data sp Hg Hs Hj Hp. now rewrite Hg, Hs, Hj, Hp.
Qed.

Lemma fetch_tiktok_reel_metadata_spec_witness :
  media_meta_data.fetch_tiktok_reel_metadata offline "https://www.tiktok.com/@u/video/1" fresh
  = (Ret None,
     logged (RequestsGet media_meta_data.oembed_endpoint
               [("url", "https://www.tiktok.com/@u/video/1")]) fresh).
Proof.
  exact (proj1 (fetch_tiktok_reel_metadata_spec offline "https://www.tiktok.com/@u/video/1" fresh)
           RequestException eq_refl eq_refl).
Defined.

(** ** File names *)

Lemma sanitize_length (s : string) :
  String.length (main.sanitize_filename s) = String.length s.
Proof.
  unfold main.sanitize_filename.
  induction s as [|c s IH]; simpl; [reflexivity | now rewrite IH].
Qed.

Lemma sanitize_clean (s : string) :
  str_existsb main.is_reserved (main.sanitize_filename s) = false.
Proof.
  unfold main.sanitize_filename.
  induction s as [|c s IH]; simpl; [reflexivity|]. rewrite IH, orb_false_r.
  destruct (main.is_reserved c) eqn:Hc; [reflexivity | exact Hc].
Qed.

Lemma sanitize_fixed (s : string) :
  str_existsb main.is_reserved s = false -> main.sanitize_filename s = s.
Proof.
  unfold main.sanitize_filename.
  induction s as [|c s IH]; simpl; [reflexivity|].
  intros H. apply orb_false_elim in H as [Hc Hs]. now rewrite Hc, (IH Hs).
Qed.

(** X4: [sanitize_filename] keeps the length, leaves none of the reserved
    characters, changes nothing in a name that has none, and applied twice
    gives what it gives once. *)
Theorem sanitize_filename_spec (s : string) :
  String.length (main.sanitize_filename s) = String.length s /\
  str_existsb main.is_reserved (main.sanitize_filename s) = false /\
  (str_existsb main.is_reserved s = false -> main.sanitize_filename s = s) /\
  main.sanitize_filename (main.sanitize_filename s) = main.sanitize_filename s.
Proof.
  repeat split.
  - apply sanitize_length.
  - apply sanitize_clean.
  - apply sanitize_fixed.
  - apply sanitize_fixed, sanitize_clean.
Qed.

Lemma sanitize_filename_spec_witness :
  main.sanitize_filename "creator_7301" = "creator_7301".
Proof. exact (proj1 (proj2 (proj2 (sanitize_filename_spec "creator_7301"))) eq_refl). Defined.

Example sanitize_filename_example :
  main.sanitize_filename "a/b:c?*.mp4" = "a_b_c__.mp4".
Proof. reflexivity. Qed.

(** ** The matcher finds every text of an anchor-free pattern *)

Lemma star_class_nil (p : ascii -> bool) (t : string) : In ("", t) (star_class p t).
Proof.
  destruct t as [|c t]; simpl; [now left|].
  destruct (p c); [apply in_app_iff; right|]; now left.
Qed.

Lemma star_class_complete (p : ascii -> bool) (m t : string) :
  str_forallb p m = true -> In (m, t) (star_class p (m ++ t)).
Proof.
  induction m as [|c m IH]; simpl; [intros _; apply star_class_nil|].
  intros H. apply andb_prop in H as [Hc Hm]. rewrite Hc.
  apply in_app_iff. left. apply in_map_iff. exists (m, t). split; [reflexivity | now apply IH].
Qed.

Lemma plus_class_complete (p : ascii -> bool) (m t : string) :
  m <> "" -> str_forallb p m = true -> In (m, t) (plus_class p (m ++ t)).
Proof.
  destruct m as [|c m]; [intros H; now elim H|]. intros _ H. simpl in *.
  apply andb_prop in H as [Hc Hm]. rewrite Hc.
  apply in_map_iff. exists (m, t). split; [reflexivity | now apply star_class_complete].
Qed.

Lemma rx_complete (r : regex) :
  anchor_free r = true ->
  forall m g g', langc r m g g' -> forall bos t, In (m, t, g') (rx r bos (m ++ t) g).
Proof.
  induction r as [p|r1 IH1 r2 IH2|r1 IH1 r2 IH2|r1 IH1|p|p|n p|i r1 IH1| |];
    simpl; intros Hr m g g' L bos t; try discriminate.
  - destruct L as [-> ->].
    assert (H : take_lit p (p ++ t) = Some t) by now apply take_lit_Some.
    rewrite H. now left.
  - apply andb_prop in Hr as [H1 H2]. destruct L as (a & b & g1 & -> & L1 & L2).
    rewrite app_assoc_str. apply in_flat_map. exists (a, b ++ t, g1).
    split; [now apply IH1|].
    apply in_map_iff. exists (b, t, g'). split; [reflexivity | now apply IH2].
  - apply andb_prop in Hr as [H1 H2]. apply in_app_iff.
    destruct L as [L|L]; [left; now apply IH1 | right; now apply IH2].
  - apply in_app_iff. destruct L as [[-> ->]|L]; [right; now left | left; now apply IH1].
  - destruct L as [Hm ->]. apply in_map_iff. exists (m, t).
    split; [reflexivity | now apply star_class_complete].
  - destruct L as [[Hne Hm] ->]. apply in_map_iff. exists (m, t).
    split; [reflexivity | now apply plus_class_complete].
  - destruct L as [[Hl Hm] ->]. apply in_map_iff. exists (m, t).
    split; [reflexivity|]. rewrite (rep_class_exact n p m t Hl Hm). now left.
  - destruct L as (g1 & L & ->). apply in_map_iff. exists (m, t, g1).
    split; [reflexivity | now apply IH1].
Qed.

Lemma lang_langc (r : regex) : forall m, lang r m -> forall g, exists g', langc r m g g'.
Proof.
  induction r as [p|r1 IH1 r2 IH2|r1 IH1 r2 IH2|r1 IH1|p|p|n p|i r1 IH1| |];
    simpl; intros m L g; eauto.
  - destruct L as (a & b & -> & L1 & L2).
    destruct (IH1 a L1 g) as [g1 G1]. destruct (IH2 b L2 g1) as [g2 G2].
    exists g2, a, b, g1. auto.
  - destruct L as [L|L]; [destruct (IH1 m L g) as [g1 G] | destruct (IH2 m L g) as [g1 G]];
      eauto.
  - destruct L as [->|L]; [eauto|]. destruct (IH1 m L g) as [g1 G]. eauto.
  - destruct (IH1 m L g) as [g1 G]. eauto.
Qed.

Lemma filter_head {A} (f : A -> bool) (l : list A) (x : A) :
  In x l -> f x = true -> List.filter f l <> [].
Proof.
  intros Hin Hf Hnil.
  assert (H : In x (List.filter f l)) by (apply filter_In; auto).
  now rewrite Hnil in H.
Qed.

Lemma fullmatch_complete (r : regex) (s : string) :
  anchor_free r = true -> lang r s -> fullmatch r s <> None.
Proof.
  intros Hr L. destruct (lang_langc r s L []) as [g' G].
  pose proof (rx_complete r Hr s [] g' G true "") as Hin. rewrite app_empty_r in Hin.
  unfold fullmatch.
  destruct (List.filter ends_text (rx r true s [])) eqn:Hf; [|discriminate].
  now elim (filter_head ends_text _ _ Hin eq_refl).
Qed.

Lemma fullmatch_groups (r : regex) (s : string) (g : captures) :
  fullmatch r s = Some g -> langc r s [] g.
Proof.
  unfold fullmatch. destruct (List.filter _ _) as [|[[m t] g'] l] eqn:Hf; [discriminate|].
  intros [= <-].
  assert (Hin : In (m, t, g') (List.filter ends_text (rx r true s []))) by (rewrite Hf; now left).
  apply filter_In in Hin as [Hin He]. apply rx_groups_sound in Hin as [-> L].
  apply is_empty_true in He. simpl in He. subst t. now rewrite app_empty_r.
Qed.

Lemma search_from_groups (r : regex) (s : string) :
  forall b g, search_from r b s = Some g ->
              exists p m t, s = p ++ m ++ t /\ langc r m [] g.
Proof.
  induction s as [|c s IH]; intros b g; simpl.
  - destruct (rx r b "" []) as [|[[m t] g'] l] eqn:Hx; [discriminate|].
    intros [= <-].
    assert (Hin : In (m, t, g') (rx r b "" [])) by (rewrite Hx; now left).
    apply rx_groups_sound in Hin as [Heq L]. exists "", m, t. auto.
  - destruct (rx r b (String c s) []) as [|[[m t] g'] l] eqn:Hx.
    + intros H. apply IH in H as (p & m & t & -> & L). exists (String c p), m, t. auto.
    + intros [= <-].
      assert (Hin : In (m, t, g') (rx r b (String c s) [])) by (rewrite Hx; now left).
      apply rx_groups_sound in Hin as [Heq L]. exists "", m, t. auto.
Qed.

(** ** What [extract_video_id] returns *)

Lemma langc_id_pattern (m : string) (g : captures) :
  langc (Cat (Alt (Lit "v=") (Alt (Lit "/v/") (Alt (Lit "youtu.be/") (Lit "shorts/"))))
             (Grp 1 (Rep 11 youtube_metadata_fetcher.is_id_char))) m [] g <->
  exists marker id,
    In marker id_markers /\ String.length id = 11 /\
    str_forallb youtube_metadata_fetcher.is_id_char id = true /\
    m = marker ++ id /\ g = [(1, id)].
Proof.
  simpl. split.
  - intros (a & id & g1 & -> & Ha & g2 & [[Hl Hp] ->] & ->).
    exists a, id.
    destruct Ha as [[-> ->]|[[-> ->]|[[-> ->]|[-> ->]]]]; repeat split; auto.
  - intros (marker & id & Hm & Hl & Hp & -> & ->).
    exists marker, id, []. repeat split; [|exists []; auto].
    destruct Hm as [<-|[<-|[<-|[<-|[]]]]]; auto.
Qed.

(** X5: an identifier returned by [extract_video_id] has eleven characters
    of [A-Za-z0-9_-] and stands in the URL right after one of the markers
    [v=], [/v/], [youtu.be/], [shorts/]; and [None] is returned only when
    the URL holds no marker followed by eleven such characters. *)
Theorem extract_video_id_sound (url : string) :
  media_meta_data.extract_video_id url = youtube_metadata_fetcher.extract_video_id url /\
  (forall id, youtube_metadata_fetcher.extract_video_id url = Some id ->
     String.length id = 11 /\
     str_forallb youtube_metadata_fetcher.is_id_char id = true /\
     exists pre marker post, In marker id_markers /\ url = pre ++ marker ++ id ++ post) /\
  (youtube_metadata_fetcher.extract_video_id url = None ->
     forall pre marker id post,
       In marker id_markers -> String.length id = 11 ->
       str_forallb youtube_metadata_fetcher.is_id_char id = true ->
       url <> pre ++ marker ++ id ++ post).
Proof.
  split; [reflexivity|].
  unfold youtube_metadata_fetcher.extract_video_id, youtube_metadata_fetcher.patterns,
    youtube_metadata_fetcher.first_match, search.
  split.
  - intros id. destruct (search_from _ true url) as [g|] eqn:Hs; [|discriminate].
    apply search_from_groups in Hs as (p & m & t & -> & L).
    apply langc_id_pattern in L as (marker & id' & Hm & Hl & Hp & -> & ->).
    simpl. intros [= <-]. repeat split; auto.
    exists p, marker, t. split; [exact Hm|]. now rewrite app_assoc_str.
  - destruct (search_from _ true url) as [g|] eqn:Hs.
    + apply search_from_groups in Hs as (p & m & t & -> & L).
      apply langc_id_pattern in L as (marker & id' & Hm & Hl & Hp & -> & ->). discriminate.
    + intros _ pre marker id post Hm Hl Hp ->.
      assert (Hmatch : matched (search_from
                (Cat (Alt (Lit "v=") (Alt (Lit "/v/") (Alt (Lit "youtu.be/") (Lit "shorts/"))))
                     (Grp 1 (Rep 11 youtube_metadata_fetcher.is_id_char)))
                true (pre ++ marker ++ id ++ post)) = true).
      { apply search_from_iff; [reflexivity|].
        exists pre, (marker ++ id ++ post). split; [reflexivity|].
        assert (L : langc
                  (Cat (Alt (Lit "v=") (Alt (Lit "/v/") (Alt (Lit "youtu.be/") (Lit "shorts/"))))
                       (Grp 1 (Rep 11 youtube_metadata_fetcher.is_id_char)))
                  (marker ++ id) [] [(1, id)]).
        { apply langc_id_pattern. exists marker, id. auto. }
        pose proof (fun Hr => rx_complete _ Hr _ _ _ L true post) as Hin.
        specialize (Hin eq_refl).
        rewrite app_assoc_str in Hin. intros Hnil. now rewrite Hnil in Hin. }
      now rewrite Hs in Hmatch.
Qed.

Lemma extract_video_id_sound_witness :
  String.length "dQw4w9WgXcQ" = 11 /\
  str_forallb youtube_metadata_fetcher.is_id_char "dQw4w9WgXcQ" = true /\
  exists pre marker post,
    In marker id_markers /\
    "https://www.youtube.com/watch?v=dQw4w9WgXcQ&t=42" = pre ++ marker ++ "dQw4w9WgXcQ" ++ post.
Proof.
  exact (proj1 (proj2 (extract_video_id_sound "https://www.youtube.com/watch?v=dQw4w9WgXcQ&t=42"))
           "dQw4w9WgXcQ" eq_refl).
Defined.

(** ** Durations: the pattern is the grammar, and what is printed *)

Lemma langc_component (i : nat) (u x : string) (g g' : captures) :
  langc (Opt (Cat (Grp i (Plus is_digit)) (Lit u))) x g g' <->
  exists o, opt_number o /\ x = comp o u /\ g' = bind_group i o g.
Proof.
  simpl. split.
  - intros [[-> ->]|(a & b & g1 & -> & (g0 & [Hn ->] & ->) & -> & ->)].
    + now exists None.
    + now exists (Some a).
  - intros ([d|] & Ho & -> & ->); [right | now left].
    exists d, u, ((i, d) :: g). repeat split; try apply Ho. exists g. auto.
Qed.

Lemma langc_duration (s : string) (g : captures) :
  langc media_meta_data.pattern s [] g <->
  exists h m sec,
    opt_number h /\ opt_number m /\ opt_number sec /\
    s = duration_text h m sec /\ g = duration_groups h m sec.
Proof.
  unfold media_meta_data.pattern.
  change (langc (Cat (Lit "PT") ?r) s [] g) with
    (exists a b g1, s = a ++ b /\ (a = "PT" /\ g1 = []) /\ langc r b g1 g).
  change (fun b g1 => langc (Cat ?r1 ?r2) b g1 g) with
    (fun b g1 => exists a c g2, b = a ++ c /\ langc r1 a g1 g2 /\ langc r2 c g2 g).
  split.
  - intros (a & b & g1 & -> & [-> ->] & h' & c & g2 & -> & L1 & m' & s' & g3 & -> & L2 & L3).
    apply langc_component in L1 as (h & Hh & -> & ->).
    apply langc_component in L2 as (m & Hm & -> & ->).
    apply langc_component in L3 as (sec & Hs & -> & ->).
    exists h, m, sec. auto.
  - intros (h & m & sec & Hh & Hm & Hs & -> & ->).
    exists "PT", (comp h "H" ++ comp m "M" ++ comp sec "S"), []. repeat split.
    exists (comp h "H"), (comp m "M" ++ comp sec "S"), (bind_group 1 h []).
    split; [reflexivity|]. split; [apply langc_component; eauto|].
    exists (comp m "M"), (comp sec "S"), (bind_group 2 m (bind_group 1 h [])).
    split; [reflexivity|]. split; apply langc_component; eauto.
Qed.

Lemma iso_duration_text (s : string) :
  iso_duration s <->
  exists h m sec, opt_number h /\ opt_number m /\ opt_number sec /\ s = duration_text h m sec.
Proof.
  assert (C : forall u x, component u x <-> exists o, opt_number o /\ x = comp o u).
  { intros u x. split.
    - intros [->|(d & Hd & ->)]; [now exists None | now exists (Some d)].
    - intros ([d|] & Ho & ->); [right; now exists d | now left]. }
  split.
  - intros (h & m & sec & Hh & Hm & Hs & ->).
    apply C in Hh as (oh & ? & ->). apply C in Hm as (om & ? & ->).
    apply C in Hs as (os & ? & ->). now exists oh, om, os.
  - intros (h & m & sec & Hh & Hm & Hs & ->).
    exists (comp h "H"), (comp m "M"), (comp sec "S").
    repeat split; try reflexivity; apply C; eauto.
Qed.

(** Two numbers, each followed by a character that is no digit, at the head
    of one text: they are the same number. *)
Lemma digits_split (d d' : string) :
  str_forallb is_digit d = true -> str_forallb is_digit d' = true ->
  forall c c' x x', is_digit c = false -> is_digit c' = false ->
    d ++ String c x = d' ++ String c' x' -> d = d' /\ c = c' /\ x = x'.
Proof.
  revert d'. induction d as [|a d IH]; intros [|a' d'] Hd Hd' c c' x x' Hc Hc'; simpl.
  - now intros [= -> ->].
  - intros [= -> _]. simpl in Hd'. apply andb_prop in Hd' as [Ha _]. congruence.
  - intros [= -> _]. simpl in Hd. apply andb_prop in Hd as [Ha _]. congruence.
  - simpl in Hd, Hd'. apply andb_prop in Hd as [_ Hd]. apply andb_prop in Hd' as [_ Hd'].
    intros [= -> Heq]. destruct (IH d' Hd Hd' c c' x x' Hc Hc' Heq) as (-> & -> & ->). auto.
Qed.

Lemma comp_cons (d : string) (u : ascii) (x : string) :
  (d ++ String u "") ++ x = d ++ String u x.
Proof. now rewrite app_assoc_str. Qed.

Ltac split_digits :=
  repeat match goal with
    | H : ?d ++ String ?c ?x = ?d' ++ String ?c' ?x' |- _ =>
        let Hd := fresh "Hd" in
        let Hc := fresh "Hc" in
        let Hx := fresh "Hx" in
        apply digits_split in H as (Hd & Hc & Hx);
        [first [discriminate Hc | clear Hc; subst d]
        | tauto | tauto | reflexivity | reflexivity]
    | H : "" = ?d ++ String _ _ |- _ => destruct d; discriminate H
    | H : ?d ++ String _ _ = "" |- _ => destruct d; discriminate H
    end.

Lemma duration_text_inj (h m s h' m' s' : option string) :
  opt_number h -> opt_number m -> opt_number s ->
  opt_number h' -> opt_number m' -> opt_number s' ->
  duration_text h m s = duration_text h' m' s' -> h = h' /\ m = m' /\ s = s'.
Proof.
  unfold duration_text, opt_number, number, comp.
  intros Hh Hm Hs Hh' Hm' Hs' Heq. simpl in Heq. injection Heq as Heq.
  destruct h as [h|], m as [m|], s as [s|], h' as [h'|], m' as [m'|], s' as [s'|];
    rewrite ?comp_cons, ?app_empty_r in Heq; simpl in Heq;
    rewrite ?comp_cons, ?app_empty_r in Heq;
    split_digits; auto.
Qed.

Lemma group_duration (h m s : option string) :
  group 1 (duration_groups h m s) = h /\
  group 2 (duration_groups h m s) = m /\
  group 3 (duration_groups h m s) = s.
Proof. destruct h, m, s; repeat split; reflexivity. Qed.

Lemma group_int_opt (E : Env) (i : nat) (g : captures) (o : option string) :
  opt_number o -> group i g = o ->
  media_meta_data.group_int E i g
    = if within_limit E o then Ret (opt_int o) else Raise ValueError.
Proof.
  intros Ho Hg. unfold media_meta_data.group_int. rewrite Hg.
  destruct o as [d|]; [|reflexivity].
  destruct Ho as [Hne _]. destruct d as [|c d]; [now elim Hne|].
  simpl. unfold py_int. now destruct (too_long E (String c d)).
Qed.

(** X6: [parse_youtube_duration_short] returns [None] exactly outside the
    grammar [PT#H#M#S]; for a duration of the grammar whose numbers are
    within the interpreter's limit of digits it returns the text made of the
    numbers of its components, an absent component counting as zero:
    minutes, a colon and the seconds on two digits when the hours are zero,
    and the hours, the minutes on two digits and the seconds on two digits
    otherwise; a number beyond the limit makes it raise [ValueError]. *)
Theorem parse_youtube_duration_short_value (E : Env) :
  (forall s, media_meta_data.parse_youtube_duration_short E s <> Ret None <-> iso_duration s) /\
  (forall h m s, opt_number h -> opt_number m -> opt_number s ->
     media_meta_data.parse_youtube_duration_short E (duration_text h m s)
       = if within_limit E h && within_limit E m && within_limit E s
         then Ret (Some (clock (opt_int h) (opt_int m) (opt_int s)))
         else Raise ValueError).
Proof.
  assert (Hex : forall s, iso_duration s -> fullmatch media_meta_data.pattern s <> None).
  { intros s Hs. apply fullmatch_complete; [reflexivity|].
    apply iso_duration_text in Hs as (h & m & sec & Hh & Hm & Hsec & ->).
    apply (langc_lang _ _ [] (duration_groups h m sec)), langc_duration.
    now exists h, m, sec. }
  split.
  - intros s. split.
    + intros Hp. unfold media_meta_data.parse_youtube_duration_short in Hp.
      destruct (fullmatch media_meta_data.pattern s) as [g|] eqn:Hm; [|now elim Hp].
      apply lang_pattern_iso. exact (fullmatch_sound _ _ _ Hm).
    + intros Hs. apply Hex in Hs. unfold media_meta_data.parse_youtube_duration_short.
      destruct (fullmatch media_meta_data.pattern s) as [g|]; [|now elim Hs].
      destruct (media_meta_data.group_int E 1 g); [|discriminate].
      destruct (media_meta_data.group_int E 2 g); [|discriminate].
      destruct (media_meta_data.group_int E 3 g); discriminate.
  - intros h m s Hh Hm Hs.
    assert (Hiso : iso_duration (duration_text h m s)).
    { apply iso_duration_text. now exists h, m, s. }
    apply Hex in Hiso. unfold media_meta_data.parse_youtube_duration_short.
    destruct (fullmatch media_meta_data.pattern (duration_text h m s)) as [g|] eqn:Hf;
      [|now elim Hiso].
    apply fullmatch_groups, langc_duration in Hf
      as (h' & m' & s' & Hh' & Hm' & Hs' & Heq & ->).
    apply duration_text_inj in Heq as (<- & <- & <-); auto.
    destruct (group_duration h m s) as (G1 & G2 & G3).
    rewrite (group_int_opt E 1 _ h Hh G1), (group_int_opt E 2 _ m Hm G2),
      (group_int_opt E 3 _ s Hs G3).
    destruct (within_limit E h), (within_limit E m), (within_limit E s); reflexivity.
Qed.

Lemma parse_youtube_duration_short_value_witness :
  media_meta_data.parse_youtube_duration_short offline "PT12M07S" = Ret (Some "12:07").
Proof.
  exact (proj2 (parse_youtube_duration_short_value offline) None (Some "12") (Some "07")
           I (conj (fun H => String_discr H) eq_refl) (conj (fun H => String_discr H) eq_refl)).
Defined.

(** ** What the loop writes into the frame *)

Lemma index_of_lt (k : string) (cols : list string) (j : nat) :
  media_meta_data.index_of k cols = Some j -> j < length cols.
Proof.
  revert j; induction cols as [|c cols IH]; intros j; simpl; [discriminate|].
  destruct (String.eqb k c); [intros [= <-]; lia|].
  destruct (media_meta_data.index_of k cols) as [i|]; [|discriminate].
  intros [= <-]. specialize (IH i eq_refl). lia.
Qed.

Lemma index_of_new (k : string) (cols : list string) :
  media_meta_data.index_of k cols = None ->
  media_meta_data.index_of k (cols ++ [k]) = Some (length cols).
Proof.
  induction cols as [|c cols IH]; simpl.
  - now rewrite String.eqb_refl.
  - destruct (String.eqb k c); [discriminate|].
    destruct (media_meta_data.index_of k cols); [discriminate|].
    intros _. now rewrite (IH eq_refl).
Qed.

Lemma well_formed_add_column (key : string) (d : table) :
  well_formed d -> well_formed (media_meta_data.add_column key d).
Proof.
  unfold well_formed, media_meta_data.add_column. simpl. intros H.
  induction H as [|r rs Hr _ IH]; simpl; constructor; [|exact IH].
  rewrite !length_app. simpl. now rewrite Hr.
Qed.

Lemma length_rows_add_column (key : string) (d : table) :
  length (rows (media_meta_data.add_column key d)) = length (rows d).
Proof. simpl. apply length_map. Qed.

Lemma set_at_cell (idx : nat) (key : string) (v : pyval) (d : table) (j : nat) :
  well_formed d -> idx < length (rows d) ->
  media_meta_data.index_of key (columns d) = Some j ->
  cell (media_meta_data.set_at idx key v d) idx key = Some v /\
  well_formed (media_meta_data.set_at idx key v d).
Proof.
  intros Hwf Hidx Hj. unfold media_meta_data.set_at, cell. rewrite Hj. simpl. rewrite Hj.
  destruct (lookup_lt_is_Some_2 _ _ Hidx) as [row Hrow].
  rewrite list_lookup_alter_eq, Hrow. simpl. split.
  - apply list_lookup_insert_eq.
    unfold well_formed in Hwf. rewrite Forall_lookup in Hwf.
    rewrite (Hwf idx row Hrow). now apply index_of_lt with (k := key).
  - unfold well_formed in *. simpl. rewrite Forall_lookup in *.
    intros i r. destruct (decide (idx = i)) as [<-|Hne].
    + rewrite list_lookup_alter_eq, Hrow. simpl. intros [= <-].
      rewrite length_insert. now apply (Hwf idx).
    + rewrite list_lookup_alter_ne by exact Hne. apply Hwf.
Qed.

(** X7: one turn of the loop over the items of a result leaves the frame
    well formed with the key among its columns, and the cell it writes is the
    value itself unless that is a placeholder of a missing value, in which
    case it is the empty text; so no cell written is such a placeholder. *)
Theorem store_writes_no_placeholder (idx : nat) (d : table) (key : string) (value : pyval) :
  well_formed d -> idx < length (rows d) ->
  exists v,
    cell (media_meta_data.store idx d (key, value)) idx key = Some v /\
    is_placeholder v = false /\
    (is_placeholder value = false -> v = value) /\
    (is_placeholder value = true -> v = PStr "") /\
    well_formed (media_meta_data.store idx d (key, value)) /\
    length (rows (media_meta_data.store idx d (key, value))) = length (rows d).
Proof.
  intros Hwf Hidx. unfold media_meta_data.store.
  set (v := match value with
            | PNaN => PStr ""
            | PStr s => if String.eqb (lower s) "nan" then PStr "" else value
            | _ => value
            end).
  set (d1 := if matched (media_meta_data.index_of key (columns d)) then d
             else media_meta_data.add_column key d).
  assert (H1 : well_formed d1 /\ length (rows d1) = length (rows d) /\
               exists j, media_meta_data.index_of key (columns d1) = Some j).
  { unfold d1. destruct (media_meta_data.index_of key (columns d)) as [j|] eqn:Hj; simpl.
    - eauto.
    - split; [now apply well_formed_add_column|]. split; [apply length_map|].
      exists (length (columns d)). now apply index_of_new. }
  destruct H1 as (Hwf1 & Hlen1 & j & Hj).
  destruct (set_at_cell idx key v d1 j Hwf1 ltac:(lia) Hj) as [Hc Hw].
  exists v. repeat split; auto.
  - unfold v. destruct value as [|s|z|]; simpl; try reflexivity.
    destruct (String.eqb (lower s) "nan") eqn:Hs; [reflexivity | exact Hs].
  - unfold v. destruct value as [|s|z|]; simpl; try reflexivity; try discriminate.
    now intros ->.
  - unfold v. destruct value as [|s|z|]; simpl; try reflexivity; try discriminate.
    now intros ->.
  - unfold media_meta_data.set_at. rewrite Hj. simpl. now rewrite length_alter.
Qed.

Lemma store_writes_no_placeholder_witness :
  exists v,
    cell (media_meta_data.store 0 one_row ("Language", PStr "NaN")) 0 "Language" = Some v /\
    is_placeholder v = false /\
    (is_placeholder (PStr "NaN") = false -> v = PStr "NaN") /\
    (is_placeholder (PStr "NaN") = true -> v = PStr "") /\
    well_formed (media_meta_data.store 0 one_row ("Language", PStr "NaN")) /\
    length (rows (media_meta_data.store 0 one_row ("Language", PStr "NaN"))) = 1.
Proof.
  refine (store_writes_no_placeholder 0 one_row "Language" (PStr "NaN") _ _).
  - repeat constructor.
  - simpl. lia.
Defined.

(** * Further properties of the code *)

(** ** Rows without a URL *)

Lemma blank_row_skipped (E : Env) (cols : list string) (idx : nat) (row : list pyval)
    (st : media_meta_data.counters) (w : world) :
  blank_row cols row ->
  media_meta_data.process_row E cols idx row st w = (Ret (media_meta_data.skipped st), w).
Proof.
  unfold blank_row, media_meta_data.process_row, try_except. intros [H|H]; rewrite H; reflexivity.
Qed.

Lemma missing_column_blank (cols : list string) (row : list pyval) :
  media_meta_data.index_of "URL / Media" cols = None -> blank_row cols row.
Proof. intros H. unfold blank_row, media_meta_data.row_get. rewrite H. now left. Qed.

(** X8: rows whose URL cell is missing, blank or ["nan"] are counted as
    skipped without any call to a collaborator and without any write; in
    particular, on a table without the column [URL / Media] the loop skips
    every row and leaves the world as it is. *)
Theorem blank_rows_make_no_call (E : Env) (cols : list string) (rs : list (list pyval)) :
  (Forall (blank_row cols) rs ->
   forall idx st w,
     media_meta_data.process_rows E cols idx rs st w = (Ret (skipped_by (length rs) st), w)) /\
  (media_meta_data.index_of "URL / Media" cols = None ->
   forall idx st w,
     media_meta_data.process_rows E cols idx rs st w = (Ret (skipped_by (length rs) st), w)).
Proof.
  assert (H1 : Forall (blank_row cols) rs ->
    forall idx st w,
      media_meta_data.process_rows E cols idx rs st w = (Ret (skipped_by (length rs) st), w)).
  { induction 1 as [|row rest Hrow _ IH]; intros idx st w; simpl.
    - now destruct st.
    - unfold bind at 1. rewrite (blank_row_skipped E cols idx row st w Hrow).
      rewrite IH. unfold skipped_by, media_meta_data.skipped. simpl.
      do 3 f_equal. lia. }
  split; [exact H1|].
  intros Hc. apply H1. apply Forall_forall. intros row _. now apply missing_column_blank.
Qed.

Lemma blank_rows_make_no_call_witness :
  media_meta_data.process_rows offline ["Platform"; "Link"]  0
    [[PStr "youtube"; PStr "https://youtu.be/dQw4w9WgXcQ"]; [PStr "tiktok"; PStr "x"]]
    (media_meta_data.start one_row) fresh
  = (Ret (skipped_by 2 (media_meta_data.start one_row)), fresh).
Proof.
  exact (proj2 (blank_rows_make_no_call offline ["Platform"; "Link"]
                  [[PStr "youtube"; PStr "https://youtu.be/dQw4w9WgXcQ"]; [PStr "tiktok"; PStr "x"]])
           eq_refl 0 (media_meta_data.start one_row) fresh).
Defined.

(** ** Exceptions that leave the loop and the script *)

Lemma row_error_escape (E : Env) (idx : nat) (st : media_meta_data.counters) (e0 e : exn)
    (w w' : world) :
  media_meta_data.row_error E idx st e0 w = (Raise e, w') ->
  print E (calls w') (RecordError (idx + 1) e0) = Raise e.
Proof.
  unfold media_meta_data.row_error, bind, media_meta_data.say.
  destruct (print E (calls w) _) eqn:Hp; [discriminate|]. now intros [= <- <-].
Qed.

(** An exception that leaves the turn of a row is no [Exception], or it was
    raised by the printing of the row's [except] block. *)
Lemma process_row_escape (E : Env) (cols : list string) (idx : nat) (row : list pyval)
    (st : media_meta_data.counters) (w w' : world) (e : exn) :
  media_meta_data.process_row E cols idx row st w = (Raise e, w') ->
  is_Exception e = false \/
  exists e0, is_Exception e0 = true /\
             print E (calls w') (RecordError (idx + 1) e0) = Raise e.
Proof.
  unfold media_meta_data.process_row.
  destruct (_ || _); [discriminate|].
  destruct (media_meta_data.download_metadata E (idx + 1) _ w) as [[[[|kv kvs]|]|e1] w1];
    try discriminate.
  - destruct (media_meta_data.to_csv E media_meta_data.TEMP_CSV _ w1) as [[u|e1] w2];
      [discriminate|].
    destruct (is_Exception e1) eqn:He1.
    + intros Hr. right. exists e1. split; [exact He1|].
      exact (row_error_escape E idx _ e1 e w2 w' Hr).
    + intros [= <- <-]. now left.
  - destruct (is_Exception e1) eqn:He1.
    + intros Hr. right. exists e1. split; [exact He1|].
      exact (row_error_escape E idx _ e1 e w1 w' Hr).
    + intros [= <- <-]. now left.
Qed.

Lemma process_rows_escape (E : Env) (cols : list string) (rs : list (list pyval)) :
  forall idx st w w' e,
    media_meta_data.process_rows E cols idx rs st w = (Raise e, w') ->
    is_Exception e = false \/
    exists i e0, idx <= i < idx + length rs /\ is_Exception e0 = true /\
                 print E (calls w') (RecordError (i + 1) e0) = Raise e.
Proof.
  induction rs as [|row rest IH]; intros idx st w w' e; simpl; [discriminate|].
  unfold bind at 1.
  destruct (media_meta_data.process_row E cols idx row st w) as [[st1|e1] w1] eqn:Hrow.
  - intros Hr. destruct (IH _ _ _ _ _ Hr) as [H|(i & e0 & Hi & He0 & Hp)]; [now left|].
    right. exists i, e0. split; [lia|]. now split.
  - intros [= <- <-].
    destruct (process_row_escape E cols idx row st w w1 e1 Hrow) as [H|(e0 & He0 & Hp)];
      [now left|].
    right. exists idx, e0. split; [lia|]. now split.
Qed.

Lemma keeps_load (E : Env) : keeps media_meta_data.INPUT_CSV (media_meta_data.load E).
Proof.
  unfold media_meta_data.load. apply keeps_bind; [apply keeps_read_csv|]. intros raw.
  apply keeps_bind; [apply keeps_to_csv; discriminate | intros; apply keeps_ret].
Qed.

Lemma script_raise (E : Env) (w w' : world) (e : exn) :
  media_meta_data.script E w = (Raise e, w') ->
  (is_Exception e = false \/
   exists e0, is_Exception e0 = true /\
              print E (calls w') (ProcessingError e0) = Raise e) /\
  files w' !! media_meta_data.INPUT_CSV = files w !! media_meta_data.INPUT_CSV.
Proof.
  unfold media_meta_data.script, try_except, bind at 1.
  pose proof (fun d => keeps_process_rows E media_meta_data.INPUT_CSV (columns d) (rows d)
                ltac:(discriminate) 0 (media_meta_data.start d)) as Hk.
  pose proof (keeps_load E w) as Hl.
  assert (Hsay : forall e0 w1, is_Exception e0 = true ->
            media_meta_data.say E (ProcessingError e0) w1 = (Raise e, w') ->
            (is_Exception e = false \/
             exists e0, is_Exception e0 = true /\
                        print E (calls w') (ProcessingError e0) = Raise e) /\ w' = w1).
  { intros e0 w1 He0. unfold media_meta_data.say. intros [= Hp <-].
    split; [|reflexivity]. right. now exists e0. }
  destruct (media_meta_data.load E w) as [[d|e0] w0]; simpl in Hl.
  - unfold bind at 1. specialize (Hk d w0).
    destruct (media_meta_data.process_rows E (columns d) 0 (rows d)
                (media_meta_data.start d) w0) as [[st1|e1] w1]; simpl in Hk.
    + unfold media_meta_data.os_replace.
      destruct (files w1 !! media_meta_data.TEMP_CSV); simpl.
      * discriminate.
      * intros Hr. destruct (Hsay EnvironmentError w1 eq_refl Hr) as [H ->].
        split; [exact H | exact (eq_trans Hk Hl)].
    + destruct (is_Exception e1) eqn:He1; simpl.
      * intros Hr. destruct (Hsay _ _ He1 Hr) as [H ->].
        split; [exact H | exact (eq_trans Hk Hl)].
      * intros [= <- <-]. split; [now left | exact (eq_trans Hk Hl)].
  - destruct (is_Exception e0) eqn:He0; simpl.
    + intros Hr. destruct (Hsay _ _ He0 Hr) as [H ->]. split; [exact H | exact Hl].
    + intros [= <- <-]. split; [now left | exact Hl].
Qed.



(** With printings that succeed, an interrupt is what gets through. *)
Example interrupt_escapes :
  prints_safely interrupted /\
  fst (media_meta_data.script interrupted one_row_world) = Raise KeyboardInterrupt /\
  is_Exception KeyboardInterrupt = false.
Proof. split; [intros h m e; discriminate|]. split; reflexivity. Qed.

(** ** The cells the loop leaves alone *)

Lemma index_of_lookup (k : string) (cols : list string) (j : nat) :
  media_meta_data.index_of k cols = Some j -> cols !! j = Some k.
Proof.
  revert j; induction cols as [|c cols IH]; intros j; simpl; [discriminate|].
  destruct (String.eqb k c) eqn:Hkc.
  - apply String.eqb_eq in Hkc as ->. now intros [= <-].
  - destruct (media_meta_data.index_of k cols) as [i|]; [|discriminate].
    intros [= <-]. simpl. now apply IH.
Qed.

Lemma index_of_app_l (k : string) (cols more : list string) (j : nat) :
  media_meta_data.index_of k cols = Some j ->
  media_meta_data.index_of k (cols ++ more) = Some j.
Proof.
  revert j; induction cols as [|c cols IH]; intros j; simpl; [discriminate|].
  destruct (String.eqb k c); [easy|].
  destruct (media_meta_data.index_of k cols) as [i|]; [|discriminate].
  intros [= <-]. now rewrite (IH i eq_refl).
Qed.

Lemma index_of_app_other (k key : string) (cols : list string) :
  k <> key -> media_meta_data.index_of k cols = None ->
  media_meta_data.index_of k (cols ++ [key]) = None.
Proof.
  intros Hne. induction cols as [|c cols IH]; simpl.
  - intros _. destruct (String.eqb k key) eqn:Hk; [|reflexivity].
    apply String.eqb_eq in Hk. contradiction.
  - destruct (String.eqb k c); [discriminate|].
    destruct (media_meta_data.index_of k cols); [discriminate|].
    intros _. now rewrite IH.
Qed.

Lemma lookup_map {A B} (f : A -> B) (l : list A) (i : nat) :
  List.map f l !! i = option_map f (l !! i).
Proof. revert i; induction l as [|x l IH]; intros [|i]; simpl; auto. Qed.

Lemma cell_add_column (key k : string) (d : table) (i : nat) :
  well_formed d -> k <> key ->
  cell (media_meta_data.add_column key d) i k = cell d i k.
Proof.
  intros Hwf Hne. unfold cell, media_meta_data.add_column. simpl.
  destruct (media_meta_data.index_of k (columns d)) as [j|] eqn:Hj.
  - rewrite (index_of_app_l _ _ [key] _ Hj), lookup_map.
    destruct (rows d !! i) as [row|] eqn:Hrow; simpl; [|reflexivity].
    apply lookup_app_l.
    unfold well_formed in Hwf. rewrite Forall_lookup in Hwf. rewrite (Hwf i row Hrow).
    now apply index_of_lt with (k := k).
  - now rewrite (index_of_app_other k key _ Hne Hj).
Qed.

Lemma cell_set_at (idx : nat) (key : string) (v : pyval) (d : table) (i : nat) (k : string) :
  i <> idx \/ k <> key ->
  cell (media_meta_data.set_at idx key v d) i k = cell d i k.
Proof.
  intros Hne. unfold media_meta_data.set_at.
  destruct (media_meta_data.index_of key (columns d)) as [jk|] eqn:Hjk; [|reflexivity].
  unfold cell. simpl.
  destruct (media_meta_data.index_of k (columns d)) as [j|] eqn:Hj; [|reflexivity].
  destruct (decide (idx = i)) as [<-|Hi].
  - rewrite list_lookup_alter_eq. destruct (rows d !! idx) as [row|]; simpl; [|reflexivity].
    apply list_lookup_insert_ne. intros <-.
    apply index_of_lookup in Hjk, Hj. rewrite Hjk in Hj. injection Hj as <-.
    destruct Hne as [H|H]; now elim H.
  - now rewrite list_lookup_alter_ne.
Qed.

Lemma well_formed_set_at (idx : nat) (key : string) (v : pyval) (d : table) :
  well_formed d -> well_formed (media_meta_data.set_at idx key v d).
Proof.
  intros Hwf. unfold media_meta_data.set_at.
  destruct (media_meta_data.index_of key (columns d)) as [jk|]; [|exact Hwf].
  unfold well_formed in *. simpl. rewrite Forall_lookup in *. intros i r.
  destruct (decide (idx = i)) as [<-|Hi].
  - rewrite list_lookup_alter_eq. destruct (rows d !! idx) as [row|] eqn:Hrow; [|discriminate].
    simpl. intros [= <-]. rewrite length_insert. now apply (Hwf idx).
  - rewrite list_lookup_alter_ne by exact Hi. apply Hwf.
Qed.

(** What one [store] keeps: the shape of the frame, the place of the columns
    it had, and every cell but the one written. *)
Lemma store_frame (idx : nat) (d : table) (key : string) (value : pyval) :
  well_formed d ->
  well_formed (media_meta_data.store idx d (key, value)) /\
  length (rows (media_meta_data.store idx d (key, value))) = length (rows d) /\
  (forall k j, media_meta_data.index_of k (columns d) = Some j ->
     media_meta_data.index_of k (columns (media_meta_data.store idx d (key, value))) = Some j) /\
  (forall i k, k <> key ->
     cell (media_meta_data.store idx d (key, value)) i k = cell d i k) /\
  (forall i k, i <> idx -> media_meta_data.index_of k (columns d) <> None ->
     cell (media_meta_data.store idx d (key, value)) i k = cell d i k).
Proof.
  intros Hwf. unfold media_meta_data.store.
  set (v := match value with
            | PNaN => PStr ""
            | PStr s => if String.eqb (lower s) "nan" then PStr "" else value
            | _ => value
            end).
  destruct (media_meta_data.index_of key (columns d)) as [jk|] eqn:Hjk; simpl.
  - repeat split.
    + now apply well_formed_set_at.
    + unfold media_meta_data.set_at. rewrite Hjk. simpl. apply length_alter.
    + intros k j Hj. unfold media_meta_data.set_at. now rewrite Hjk.
    + intros i k Hk. apply cell_set_at. now right.
    + intros i k Hi _. apply cell_set_at. now left.
  - assert (Hwf1 := well_formed_add_column key d Hwf).
    assert (Hnew := index_of_new key _ Hjk).
    repeat split.
    + now apply well_formed_set_at.
    + unfold media_meta_data.set_at. simpl. rewrite Hnew. simpl.
      rewrite length_alter. apply length_map.
    + intros k j Hj. unfold media_meta_data.set_at. simpl. rewrite Hnew. simpl.
      now apply index_of_app_l.
    + intros i k Hk. rewrite cell_set_at by now right. now apply cell_add_column.
    + intros i k Hi Hk. rewrite cell_set_at by now left. apply cell_add_column; [exact Hwf|].
      intros ->. now elim Hk.
Qed.

Lemma stores_frame (idx : nat) (kvs : pydict) :
  forall d, well_formed d ->
    let d' := List.fold_left (media_meta_data.store idx) kvs d in
    well_formed d' /\
    length (rows d') = length (rows d) /\
    (forall k j, media_meta_data.index_of k (columns d) = Some j ->
       media_meta_data.index_of k (columns d') = Some j) /\
    (forall i k, ~ In k (List.map fst kvs) -> cell d' i k = cell d i k) /\
    (forall i k, i <> idx -> media_meta_data.index_of k (columns d) <> None ->
       cell d' i k = cell d i k).
Proof.
  induction kvs as [|[key value] kvs IH]; intros d Hwf; simpl.
  - repeat split; auto.
  - destruct (store_frame idx d key value Hwf) as (W & L & C & K & R).
    destruct (IH _ W) as (W' & L' & C' & K' & R').
    repeat split.
    + exact W'.
    + exact (eq_trans L' L).
    + intros k j Hj. apply C', C, Hj.
    + intros i k Hk. rewrite K' by tauto. apply K. intros ->. tauto.
    + intros i k Hi Hk. rewrite R'; [now apply R | exact Hi |].
      destruct (media_meta_data.index_of k (columns d)) as [j|] eqn:Hj; [|now elim Hk].
      now rewrite (C k j Hj).
Qed.

(** The keys of the records the normalizers return. *)
Ltac innermost x :=
  lazymatch x with
  | context [match ?y with _ => _ end] => innermost y
  | _ => destruct x eqn:?
  end.

Ltac by_cases :=
  repeat (cbn beta iota;
          match goal with
          | |- context [match ?x with _ => _ end] => innermost x
          end).

Lemma fetch_video_data_keys (E : Env) (vid : option string) (w w' : world) (r : pydict) :
  media_meta_data.fetch_video_data E vid w = (Ret (Some r), w') ->
  List.map fst r = youtube_keys.
Proof.
  unfold media_meta_data.fetch_video_data, media_meta_data.get_channel_statistics,
    bind, invoke, lift, ret, raise.
  by_cases; try discriminate; intros H; inversion H; reflexivity.
Qed.

Lemma fetch_tiktok_keys (E : Env) (url : string) (w w' : world) (r : pydict) :
  media_meta_data.fetch_tiktok_reel_metadata E url w = (Ret (Some r), w') ->
  List.map fst r = tiktok_keys.
Proof.
  unfold media_meta_data.fetch_tiktok_reel_metadata, try_except, bind, invoke, lift, ret.
  by_cases; try discriminate; intros H; inversion H; reflexivity.
Qed.

Lemma fetch_instagram_keys (E : Env) (url : string) (w w' : world) (r : pydict) :
  media_meta_data.fetch_instagram_meta E url w = (Ret r, w') ->
  List.map fst r = instagram_keys.
Proof.
  unfold media_meta_data.fetch_instagram_meta, media_meta_data.fetch_instagram_meta_try,
    try_except, bind, invoke, lift, ret.
  by_cases; try discriminate; intros H; inversion H; reflexivity.
Qed.

Lemma download_metadata_keys (E : Env) (n : nat) (url : string) (w w' : world) (r : pydict) :
  media_meta_data.download_metadata E n url w = (Ret (Some r), w') ->
  forall k, In k (List.map fst r) -> In k normalizer_keys.
Proof.
  unfold media_meta_data.download_metadata, bind at 1, lift.
  destruct (media_meta_data.detect_platform E url) as [p|e]; [|discriminate].
  destruct (String.eqb p "unknown"); [discriminate|].
  destruct (String.eqb p "youtube").
  { intros H k. rewrite (fetch_video_data_keys _ _ _ _ _ H). simpl. tauto. }
  destruct (String.eqb p "tiktok").
  { intros H k. rewrite (fetch_tiktok_keys _ _ _ _ _ H). simpl. tauto. }
  destruct (String.eqb p "instagram"); [|discriminate].
  unfold bind.
  destruct (media_meta_data.fetch_instagram_meta E url w) as [[r0|e] w0] eqn:Hi; [|discriminate].
  intros [= <- <-] k. rewrite (fetch_instagram_keys _ _ _ _ _ Hi). simpl. tauto.
Qed.

Lemma process_row_frame (E : Env) (cols : list string) (idx : nat) (row : list pyval)
    (st st' : media_meta_data.counters) (w w' : world) :
  well_formed (media_meta_data.df st) ->
  media_meta_data.process_row E cols idx row st w = (Ret st', w') ->
  well_formed (media_meta_data.df st') /\
  length (rows (media_meta_data.df st')) = length (rows (media_meta_data.df st)) /\
  (forall k j, media_meta_data.index_of k (columns (media_meta_data.df st)) = Some j ->
     media_meta_data.index_of k (columns (media_meta_data.df st')) = Some j) /\
  (forall i k, ~ In k normalizer_keys ->
     cell (media_meta_data.df st') i k = cell (media_meta_data.df st) i k) /\
  (forall i k, i <> idx ->
     media_meta_data.index_of k (columns (media_meta_data.df st)) <> None ->
     cell (media_meta_data.df st') i k = cell (media_meta_data.df st) i k).
Proof.
  intros Hwf. unfold media_meta_data.process_row.
  destruct (_ || _).
  { intros [= <- <-]. simpl. repeat split; auto. }
  destruct (media_meta_data.download_metadata E (idx + 1) _ w) as [[[[|kv kvs]|]|e] w1] eqn:Hd.
  - intros [= <- <-]. simpl. repeat split; auto.
  - intros Hrun.
    assert (Hst : media_meta_data.df st'
                  = List.fold_left (media_meta_data.store idx) (kv :: kvs)
                      (media_meta_data.df st)).
    { revert Hrun.
      destruct (media_meta_data.to_csv E media_meta_data.TEMP_CSV _ w1) as [[u|e] w2].
      - now intros [= <- <-].
      - destruct (is_Exception e); [|discriminate].
        unfold media_meta_data.row_error, bind, media_meta_data.say.
        destruct (print E (calls w2) _); [|discriminate]. now intros [= <- <-]. }
    rewrite Hst.
    destruct (stores_frame idx (kv :: kvs) _ Hwf) as (W & L & C & K & R).
    repeat split; auto.
    intros i k Hk. apply K. intros Hin. apply Hk.
    exact (download_metadata_keys E _ _ _ _ _ Hd k Hin).
  - intros [= <- <-]. simpl. repeat split; auto.
  - destruct (is_Exception e); [|discriminate].
    unfold media_meta_data.row_error, bind, media_meta_data.say.
    destruct (print E (calls w1) _); [|discriminate].
    intros [= <- <-]. simpl. repeat split; auto.
Qed.

(** X10: the loop keeps the frame well formed and the number of its rows,
    keeps every column it had at its place, and changes no cell of a column
    that is not named by a key of a normalizer's record (so the columns
    [Platform] and [URL / Media] stay as read); a row that is not among the
    rows processed keeps its cells in all the columns the frame had. *)
Theorem loop_touches_only_its_cells (E : Env) (cols : list string) (rs : list (list pyval)) :
  forall idx st st' w w',
    well_formed (media_meta_data.df st) ->
    media_meta_data.process_rows E cols idx rs st w = (Ret st', w') ->
    well_formed (media_meta_data.df st') /\
    length (rows (media_meta_data.df st')) = length (rows (media_meta_data.df st)) /\
    (forall k j, media_meta_data.index_of k (columns (media_meta_data.df st)) = Some j ->
       media_meta_data.index_of k (columns (media_meta_data.df st')) = Some j) /\
    (forall i k, ~ In k normalizer_keys ->
       cell (media_meta_data.df st') i k = cell (media_meta_data.df st) i k) /\
    (forall i k, i < idx \/ idx + length rs <= i ->
       media_meta_data.index_of k (columns (media_meta_data.df st)) <> None ->
       cell (media_meta_data.df st') i k = cell (media_meta_data.df st) i k).
Proof.
  induction rs as [|row rest IH]; intros idx st st' w w' Hwf; simpl.
  - intros [= <- <-]. repeat split; auto.
  - unfold bind at 1.
    destruct (media_meta_data.process_row E cols idx row st w) as [[st1|e] w1] eqn:Hrow;
      [|discriminate].
    destruct (process_row_frame E cols idx row st st1 w w1 Hwf Hrow) as (W & L & C & K & R).
    intros Hrest. destruct (IH (S idx) st1 st' w1 w' W Hrest) as (W' & L' & C' & K' & R').
    repeat split.
    + exact W'.
    + exact (eq_trans L' L).
    + intros k j Hj. apply C', C, Hj.
    + intros i k Hk. rewrite K' by exact Hk. now apply K.
    + intros i k Hi Hk. rewrite R'.
      * apply R; [lia | exact Hk].
      * lia.
      * destruct (media_meta_data.index_of k (columns (media_meta_data.df st))) as [j|] eqn:Hj;
          [|now elim Hk].
        now rewrite (C k j Hj).
Qed.

Lemma loop_touches_only_its_cells_witness :
  cell (media_meta_data.df
          (media_meta_data.skipped (media_meta_data.start one_row))) 0 "URL / Media"
  = cell one_row 0 "URL / Media".
Proof.
  exact (proj1 (proj2 (proj2 (proj2
    (loop_touches_only_its_cells (site 200 None None) (columns one_row) (rows one_row) 0
       (media_meta_data.start one_row)
       (media_meta_data.skipped (media_meta_data.start one_row))
       fresh
       (snd (media_meta_data.process_rows (site 200 None None) (columns one_row) 0
               (rows one_row) (media_meta_data.start one_row) fresh))
       ltac:(repeat constructor)
       (pair_of_fst _ _ eq_refl)))))
    0 "URL / Media" ltac:(simpl; intuition discriminate)).
Defined.

(** ** Rows of each platform *)

Lemma url_not_blank (E : Env) (url : string) (p : string) :
  media_meta_data.detect_platform E url = Ret p -> p <> "unknown" ->
  is_empty url || String.eqb url "nan" = false.
Proof.
  intros Hd Hp. destruct url as [|c url]; [simpl in Hd; now injection Hd as <-|].
  change (is_empty (String c url)) with false.
  destruct (String.eqb (String c url) "nan") eqn:Hn; [|reflexivity].
  apply String.eqb_eq in Hn. rewrite Hn in Hd. injection Hd as <-. now elim Hp.
Qed.

Lemma row_error_eq (E : Env) (idx : nat) (st : media_meta_data.counters) (e : exn)
    (w : world) :
  media_meta_data.row_error E idx st e w
  = (after_print E (calls w) (RecordError (idx + 1) e) st, w).
Proof.
  unfold media_meta_data.row_error, bind, media_meta_data.say, after_print.
  now destruct (print E (calls w) _).
Qed.

(** A row whose normalizer returned a record with an item: the items are
    stored and the row counted as a success, and then the temporary file is
    written; a writing that fails with an [Exception] sends the row, as it
    then is, to the [except] block. *)
Lemma process_row_stored (E : Env) (cols : list string) (idx : nat) (row : list pyval)
    (st : media_meta_data.counters) (w w1 : world) (url : string) (r : pydict) :
  url = strip (media_meta_data.py_str
                 (media_meta_data.row_get cols row "URL / Media" (PStr ""))) ->
  is_empty url || String.eqb url "nan" = false ->
  media_meta_data.download_metadata E (idx + 1) url w = (Ret (Some r), w1) ->
  r <> [] ->
  (to_csv_fault E (calls w1) media_meta_data.TEMP_CSV
     (List.fold_left (media_meta_data.store idx) r (media_meta_data.df st)) = None ->
   media_meta_data.process_row E cols idx row st w
   = (Ret (succeeded (List.fold_left (media_meta_data.store idx) r (media_meta_data.df st)) st),
      temp_written (List.fold_left (media_meta_data.store idx) r (media_meta_data.df st)) w1)) /\
  (forall e partial,
     to_csv_fault E (calls w1) media_meta_data.TEMP_CSV
       (List.fold_left (media_meta_data.store idx) r (media_meta_data.df st))
       = Some (e, partial) ->
     is_Exception e = true ->
     media_meta_data.process_row E cols idx row st w
     = (after_print E (calls w1) (RecordError (idx + 1) e)
          (succeeded (List.fold_left (media_meta_data.store idx) r (media_meta_data.df st)) st),
        temp_left partial w1)).
Proof.
  intros Hurl Hb Hd Hr. destruct r as [|kv kvs]; [now elim Hr|].
  unfold media_meta_data.process_row. rewrite <- Hurl, Hb, Hd.
  unfold media_meta_data.to_csv, media_meta_data.stored_row.
  cbn [media_meta_data.df]. split.
  - intros ->. reflexivity.
  - intros e partial -> He.
    destruct partial as [partial|]; cbn [snd write_file]; rewrite He, row_error_eq;
      reflexivity.
Qed.

(** X11: a row with an Instagram URL is counted as a success whenever the
    scraper returns, also when the page could not be fetched: the record,
    which then holds the URL and two empty texts, is written into the row,
    the row is counted, and the temporary file is rewritten.  When that
    writing fails with an [Exception], the row, already counted as a success,
    goes through the [except] block: the error is printed and the row is
    counted as skipped as well. *)
Theorem instagram_row_is_a_success (E : Env) (cols : list string) (idx : nat)
    (row : list pyval) (st : media_meta_data.counters) (w w1 : world) (url : string)
    (r : pydict) :
  url = strip (media_meta_data.py_str
                 (media_meta_data.row_get cols row "URL / Media" (PStr ""))) ->
  media_meta_data.detect_platform E url = Ret "instagram" ->
  media_meta_data.fetch_instagram_meta E url w = (Ret r, w1) ->
  (to_csv_fault E (calls w1) media_meta_data.TEMP_CSV
     (List.fold_left (media_meta_data.store idx) r (media_meta_data.df st)) = None ->
   media_meta_data.process_row E cols idx row st w
   = (Ret (succeeded (List.fold_left (media_meta_data.store idx) r (media_meta_data.df st)) st),
      temp_written (List.fold_left (media_meta_data.store idx) r (media_meta_data.df st)) w1)) /\
  (forall e partial,
     to_csv_fault E (calls w1) media_meta_data.TEMP_CSV
       (List.fold_left (media_meta_data.store idx) r (media_meta_data.df st))
       = Some (e, partial) ->
     is_Exception e = true ->
     media_meta_data.process_row E cols idx row st w
     = (after_print E (calls w1) (RecordError (idx + 1) e)
          (succeeded (List.fold_left (media_meta_data.store idx) r (media_meta_data.df st)) st),
        temp_left partial w1)) /\
  (forall resp, requests_get E (calls w) url [] = Ret resp ->
     400 <= status_code resp < 600 -> r = empty_record url) /\
  (forall e, requests_get E (calls w) url [] = Raise e -> r = empty_record url).
Proof.
  intros Hurl Hd Hf.
  assert (Hrow : media_meta_data.download_metadata E (idx + 1) url w = (Ret (Some r), w1)).
  { unfold media_meta_data.download_metadata, bind at 1, lift.
    rewrite Hd. simpl. unfold bind at 1. rewrite Hf. reflexivity. }
  assert (Hr : r <> []).
  { pose proof (fetch_instagram_keys E url w w1 r Hf) as Hk. now destruct r. }
  destruct (process_row_stored E cols idx row st w w1 url r Hurl
              (url_not_blank E url "instagram" Hd ltac:(discriminate)) Hrow Hr) as [H1 H2].
  split; [exact H1|]. split; [exact H2|]. split.
  - intros resp Hg [Hlo Hhi]. revert Hf.
    unfold media_meta_data.fetch_instagram_meta, media_meta_data.fetch_instagram_meta_try,
      try_except, bind, invoke, lift, raise_for_status.
    rewrite Hg. apply Nat.leb_le in Hlo. apply Nat.ltb_lt in Hhi. rewrite Hlo, Hhi. simpl.
    now intros [= <- _].
  - intros e Hg. revert Hf.
    unfold media_meta_data.fetch_instagram_meta, media_meta_data.fetch_instagram_meta_try,
      try_except, bind, invoke.
    rewrite Hg. destruct (is_Exception e); [|discriminate]. now intros [= <- _].
Qed.

Lemma instagram_row_is_a_success_witness :
  media_meta_data.success_count
    (succeeded (List.fold_left (media_meta_data.store 0)
                  (empty_record "https://www.instagram.com/p/gone/") one_row)
       (media_meta_data.start one_row)) = 1 /\
  fst (media_meta_data.process_row (site 404 None None) ["Platform"; "URL / Media"] 0
         instagram_row (media_meta_data.start one_row) fresh)
  = Ret (succeeded (List.fold_left (media_meta_data.store 0)
                      (empty_record "https://www.instagram.com/p/gone/") one_row)
           (media_meta_data.start one_row)).
Proof.
  split; [reflexivity|].
  exact (f_equal fst (proj1 (instagram_row_is_a_success (site 404 None None)
    ["Platform"; "URL / Media"] 0 instagram_row (media_meta_data.start one_row) fresh
    (snd (media_meta_data.fetch_instagram_meta (site 404 None None)
            "https://www.instagram.com/p/gone/" fresh))
    "https://www.instagram.com/p/gone/"
    (empty_record "https://www.instagram.com/p/gone/")
    eq_refl eq_refl (pair_of_fst _ _ eq_refl)) eq_refl)).
Defined.

(** X12: a row whose video the API knows still ends in the [except] block,
    with nothing stored and nothing written, when its channel is listed
    without statistics ([KeyError]) or when the video has no duration
    ([TypeError] from [fullmatch]); both the video and the channel were then
    asked for.  The block prints the error, and when the printing returns the
    row is counted as skipped. *)
Theorem incomplete_video_row_is_skipped (E : Env) (cols : list string) (idx : nat)
    (row : list pyval) (st : media_meta_data.counters) (w : world) (url : string)
    (item : yt_video) (items : list yt_video) (chs : list yt_channel) :
  url = strip (media_meta_data.py_str
                 (media_meta_data.row_get cols row "URL / Media" (PStr ""))) ->
  media_meta_data.detect_platform E url = Ret "youtube" ->
  videos_list E (calls w) (media_meta_data.extract_video_id url) = Ret (item :: items) ->
  channels_list E (calls w ++ [VideosList (media_meta_data.extract_video_id url)])
    (sn_channelId (v_snippet item)) = Ret chs ->
  v_duration item = None \/
  (exists ch chs', chs = ch :: chs' /\ ch_statistics ch = None) ->
  media_meta_data.process_row E cols idx row st w
    = (after_print E
         (calls w ++ [VideosList (media_meta_data.extract_video_id url);
                      ChannelsList (sn_channelId (v_snippet item))])
         (RecordError (idx + 1)
            match chs with
            | ch :: _ => match ch_statistics ch with None => KeyError | Some _ => TypeError end
            | [] => TypeError
            end) st,
       logged (ChannelsList (sn_channelId (v_snippet item)))
         (logged (VideosList (media_meta_data.extract_video_id url)) w)) /\
  (print E
     (calls w ++ [VideosList (media_meta_data.extract_video_id url);
                  ChannelsList (sn_channelId (v_snippet item))])
     (RecordError (idx + 1)
        match chs with
        | ch :: _ => match ch_statistics ch with None => KeyError | Some _ => TypeError end
        | [] => TypeError
        end) = Ret tt ->
     media_meta_data.process_row E cols idx row st w
     = (Ret (media_meta_data.skipped st),
        logged (ChannelsList (sn_channelId (v_snippet item)))
          (logged (VideosList (media_meta_data.extract_video_id url)) w))).
Proof.
  intros Hurl Hd Hv Hc Hbad.
  assert (Hrow : media_meta_data.process_row E cols idx row st w
    = (after_print E
         (calls w ++ [VideosList (media_meta_data.extract_video_id url);
                      ChannelsList (sn_channelId (v_snippet item))])
         (RecordError (idx + 1)
            match chs with
            | ch :: _ => match ch_statistics ch with None => KeyError | Some _ => TypeError end
            | [] => TypeError
            end) st,
       logged (ChannelsList (sn_channelId (v_snippet item)))
         (logged (VideosList (media_meta_data.extract_video_id url)) w))).
  { assert (Hf : media_meta_data.fetch_video_data E (media_meta_data.extract_video_id url) w
      = (Raise match chs with
               | ch :: _ => match ch_statistics ch with None => KeyError | Some _ => TypeError end
               | [] => TypeError
               end,
         logged (ChannelsList (sn_channelId (v_snippet item)))
           (logged (VideosList (media_meta_data.extract_video_id url)) w))).
    { unfold media_meta_data.fetch_video_data, bind at 1, invoke at 1. rewrite Hv.
      unfold bind at 1, media_meta_data.get_channel_statistics, bind at 1, invoke. simpl.
      rewrite Hc.
      destruct Hbad as [Hdur|(ch & chs' & -> & Hs)].
      - destruct chs as [|ch chs']; [|destruct (ch_statistics ch)];
          unfold ret, raise, bind, lift; rewrite ?Hdur; reflexivity.
      - rewrite Hs. reflexivity. }
    unfold media_meta_data.process_row. rewrite <- Hurl.
    rewrite (url_not_blank E url "youtube" Hd) by discriminate.
    unfold media_meta_data.download_metadata, bind at 1, lift.
    rewrite Hd. change (String.eqb "youtube" "unknown") with false.
    change (String.eqb "youtube" "youtube") with true. cbn iota. rewrite Hf.
    replace (is_Exception _) with true
      by (destruct chs as [|ch ?]; [|destruct (ch_statistics ch)]; reflexivity).
    rewrite row_error_eq. cbn [calls logged]. rewrite <- app_assoc. reflexivity. }
  split; [exact Hrow|].
  intros Hp. rewrite Hrow. unfold after_print. now rewrite Hp.
Qed.

Lemma incomplete_video_row_is_skipped_witness :
  media_meta_data.process_row no_duration ["Platform"; "URL / Media"] 0
    [PStr "youtube"; PStr "https://youtu.be/dQw4w9WgXcQ"]
    (media_meta_data.start one_row) fresh
  = (Ret (media_meta_data.skipped (media_meta_data.start one_row)),
     logged (ChannelsList (Some "UC123")) (logged (VideosList (Some "dQw4w9WgXcQ")) fresh)).
Proof.
  exact (proj2 (incomplete_video_row_is_skipped no_duration ["Platform"; "URL / Media"] 0
    [PStr "youtube"; PStr "https://youtu.be/dQw4w9WgXcQ"] (media_meta_data.start one_row) fresh
    "https://youtu.be/dQw4w9WgXcQ"
    {| v_snippet := {| sn_title := Some "A talk"; sn_description := None;
                       sn_channelId := Some "UC123"; sn_publishedAt := None;
                       sn_thumbnail_default_url := None;
                       sn_defaultAudioLanguage := None |};
       v_duration := None |} [] [ {| ch_statistics := Some (Some "1200") |} ]
    eq_refl eq_refl eq_refl eq_refl (or_introl eq_refl)) eq_refl).
Defined.

Lemma store_cell (idx : nat) (d : table) (key : string) (value : pyval) :
  well_formed d -> idx < length (rows d) ->
  cell (media_meta_data.store idx d (key, value)) idx key = Some (stored value).
Proof.
  intros Hwf Hidx. unfold media_meta_data.store.
  replace (match value with
           | PNaN => PStr ""
           | PStr s => if String.eqb (lower s) "nan" then PStr "" else value
           | _ => value
           end) with (stored value) by (now destruct value).
  destruct (media_meta_data.index_of key (columns d)) as [j|] eqn:Hj; simpl.
  - now apply (set_at_cell idx key (stored value) d j).
  - apply (set_at_cell idx key (stored value) (media_meta_data.add_column key d)
             (length (columns d))).
    + now apply well_formed_add_column.
    + now rewrite length_rows_add_column.
    + now apply index_of_new.
Qed.

(** After the loop over the items of a record, whose keys are distinct, the
    row holds every value of the record in the column of its key. *)
Lemma stores_cells (idx : nat) (r : pydict) :
  forall d, well_formed d -> idx < length (rows d) -> List.NoDup (List.map fst r) ->
    forall k v, In (k, v) r ->
      cell (List.fold_left (media_meta_data.store idx) r d) idx k = Some (stored v).
Proof.
  induction r as [|[key value] r IH]; intros d Hwf Hidx Hnd k v; simpl; [tauto|].
  simpl in Hnd. apply List.NoDup_cons_iff in Hnd as [Hnew Hnd].
  destruct (store_frame idx d key value Hwf) as (W & L & _).
  intros [[= <- <-]|Hin].
  - destruct (stores_frame idx r _ W) as (_ & _ & _ & K & _).
    rewrite K by exact Hnew. now apply store_cell.
  - apply IH; auto. exact (eq_ind_r (fun n => idx < n) Hidx L).
Qed.

(** X13: a YouTube row whose video the API returns with a duration text that
    [parse_youtube_duration_short] accepts or rejects without raising, and
    whose channel is listed with statistics or not listed at all, is a
    success: after the two API calls the row holds the eight fields of the
    record, a missing member as [None] and a placeholder of a missing value as
    the empty text, the row is counted, and the temporary file is rewritten.
    When that writing fails with an [Exception], the row, already stored and
    counted as a success, goes through the [except] block: the error is
    printed and the row is counted as skipped as well. *)
Theorem complete_video_row_is_stored (E : Env) (cols : list string) (idx : nat)
    (row : list pyval) (st : media_meta_data.counters) (w : world) (url dur : string)
    (item : yt_video) (items : list yt_video) (chs : list yt_channel)
    (sub o : option string) :
  url = strip (media_meta_data.py_str
                 (media_meta_data.row_get cols row "URL / Media" (PStr ""))) ->
  media_meta_data.detect_platform E url = Ret "youtube" ->
  videos_list E (calls w) (media_meta_data.extract_video_id url) = Ret (item :: items) ->
  channels_list E (calls w ++ [VideosList (media_meta_data.extract_video_id url)])
    (sn_channelId (v_snippet item)) = Ret chs ->
  (chs = [] /\ sub = None) \/ (exists ch chs', chs = ch :: chs' /\ ch_statistics ch = Some sub) ->
  v_duration item = Some dur ->
  media_meta_data.parse_youtube_duration_short E dur = Ret o ->
  well_formed (media_meta_data.df st) -> idx < length (rows (media_meta_data.df st)) ->
  exists d,
    (to_csv_fault E
       (calls w ++ [VideosList (media_meta_data.extract_video_id url);
                    ChannelsList (sn_channelId (v_snippet item))])
       media_meta_data.TEMP_CSV d = None ->
     media_meta_data.process_row E cols idx row st w
       = (Ret (succeeded d st),
          temp_written d
            (logged (ChannelsList (sn_channelId (v_snippet item)))
               (logged (VideosList (media_meta_data.extract_video_id url)) w)))) /\
    (forall e partial,
       to_csv_fault E
         (calls w ++ [VideosList (media_meta_data.extract_video_id url);
                      ChannelsList (sn_channelId (v_snippet item))])
         media_meta_data.TEMP_CSV d = Some (e, partial) ->
       is_Exception e = true ->
       media_meta_data.process_row E cols idx row st w
       = (after_print E
            (calls w ++ [VideosList (media_meta_data.extract_video_id url);
                         ChannelsList (sn_channelId (v_snippet item))])
            (RecordError (idx + 1) e) (succeeded d st),
          temp_left partial
            (logged (ChannelsList (sn_channelId (v_snippet item)))
               (logged (VideosList (media_meta_data.extract_video_id url)) w)))) /\
    well_formed d /\
    cell d idx "Title / Headline" = Some (stored (of_opt (sn_title (v_snippet item)))) /\
    cell d idx "Description / Summary"
      = Some (stored (of_opt (sn_description (v_snippet item)))) /\
    cell d idx "Creator / Channel"
      = Some (PStr ("https://www.youtube.com/channel/"
                    ++ media_meta_data.fmt_opt (sn_channelId (v_snippet item)))) /\
    cell d idx "Publish Date"
      = Some (match sn_publishedAt (v_snippet item) with
              | None | Some "" => PNone
              | Some t => stored (PStr (fst (break_at (chr_eqb "T") t)))
              end) /\
    cell d idx "Thumbnail Url"
      = Some (stored (of_opt (sn_thumbnail_default_url (v_snippet item)))) /\
    cell d idx "Language" = Some (stored (of_opt (sn_defaultAudioLanguage (v_snippet item)))) /\
    cell d idx "Duration" = Some (stored (of_opt o)) /\
    cell d idx "Followers / Subscribers" = Some (stored (of_opt sub)).
Proof.
  intros Hurl Hd Hv Hc Hsub Hdur Hp Hwf Hidx.
  assert (Hf : media_meta_data.fetch_video_data E (media_meta_data.extract_video_id url) w
    = (Ret (Some
        [ ("Title / Headline", of_opt (sn_title (v_snippet item)));
          ("Description / Summary", of_opt (sn_description (v_snippet item)));
          ("Creator / Channel",
             PStr ("https://www.youtube.com/channel/"
                   ++ media_meta_data.fmt_opt (sn_channelId (v_snippet item))));
          ("Publish Date",
             if nonempty (sn_publishedAt (v_snippet item))
             then PStr (fst (break_at (chr_eqb "T") (or_empty (sn_publishedAt (v_snippet item)))))
             else PNone);
          ("Thumbnail Url", of_opt (sn_thumbnail_default_url (v_snippet item)));
          ("Language", of_opt (sn_defaultAudioLanguage (v_snippet item)));
          ("Duration", of_opt o);
          ("Followers / Subscribers", of_opt sub) ]),
       logged (ChannelsList (sn_channelId (v_snippet item)))
         (logged (VideosList (media_meta_data.extract_video_id url)) w))).
  { unfold media_meta_data.fetch_video_data, bind at 1, invoke at 1. rewrite Hv.
    unfold bind at 1, media_meta_data.get_channel_statistics, bind at 1, invoke. simpl.
    rewrite Hc.
    destruct Hsub as [[-> ->]|(ch & chs' & -> & Hs)]; rewrite ?Hs;
      unfold ret, bind, lift, media_meta_data.duration_of; rewrite Hdur, Hp; reflexivity. }
  assert (Hrow : media_meta_data.download_metadata E (idx + 1) url w
    = media_meta_data.fetch_video_data E (media_meta_data.extract_video_id url) w).
  { unfold media_meta_data.download_metadata, bind at 1, lift.
    rewrite Hd. reflexivity. }
  rewrite Hf in Hrow.
  destruct (process_row_stored E cols idx row st w _ url _ Hurl
              (url_not_blank E url "youtube" Hd ltac:(discriminate)) Hrow
              ltac:(discriminate)) as [H1 H2].
  cbn [calls logged] in H1, H2. rewrite <- app_assoc in H1, H2.
  eexists. split; [exact H1|]. split; [exact H2|]. split.
  - now apply stores_frame.
  - match goal with
    | |- context [List.fold_left _ ?r _] =>
        pose proof (stores_cells idx r _ Hwf Hidx) as Hcells
    end.
    assert (Hnd : List.NoDup (List.map fst
      [ ("Title / Headline", of_opt (sn_title (v_snippet item)));
        ("Description / Summary", of_opt (sn_description (v_snippet item)));
        ("Creator / Channel",
           PStr ("https://www.youtube.com/channel/"
                 ++ media_meta_data.fmt_opt (sn_channelId (v_snippet item))));
        ("Publish Date",
           if nonempty (sn_publishedAt (v_snippet item))
           then PStr (fst (break_at (chr_eqb "T") (or_empty (sn_publishedAt (v_snippet item)))))
           else PNone);
        ("Thumbnail Url", of_opt (sn_thumbnail_default_url (v_snippet item)));
        ("Language", of_opt (sn_defaultAudioLanguage (v_snippet item)));
        ("Duration", of_opt o);
        ("Followers / Subscribers", of_opt sub) ])).
    { simpl. repeat (constructor; [simpl; intuition discriminate|]). constructor. }
    specialize (Hcells Hnd).
    repeat split.
    + apply Hcells. simpl. tauto.
    + apply Hcells. simpl. tauto.
    + rewrite (Hcells "Creator / Channel" _ ltac:(simpl; tauto)). reflexivity.
    + rewrite (Hcells "Publish Date" _ ltac:(simpl; tauto)).
      destruct (sn_publishedAt (v_snippet item)) as [[|c t]|]; reflexivity.
    + apply Hcells. simpl. tauto.
    + apply Hcells. simpl. tauto.
    + apply Hcells. simpl. tauto.
    + apply Hcells. simpl. tauto.
Qed.

Lemma complete_video_row_is_stored_witness :
  exists d,
    fst (media_meta_data.process_row complete ["Platform"; "URL / Media"] 0
           [PStr "youtube"; PStr "https://youtu.be/dQw4w9WgXcQ"]
           (media_meta_data.start one_row) fresh)
      = Ret (succeeded d (media_meta_data.start one_row)) /\
    cell d 0 "Description / Summary" = Some (PStr "") /\
    cell d 0 "Creator / Channel" = Some (PStr "https://www.youtube.com/channel/None") /\
    cell d 0 "Publish Date" = Some (PStr "2024-05-01") /\
    cell d 0 "Duration" = Some (PStr "1:02:03") /\
    cell d 0 "Followers / Subscribers" = Some PNone.
Proof.
  destruct (complete_video_row_is_stored complete ["Platform"; "URL / Media"] 0
    [PStr "youtube"; PStr "https://youtu.be/dQw4w9WgXcQ"] (media_meta_data.start one_row) fresh
    "https://youtu.be/dQw4w9WgXcQ" "PT1H2M3S"
    {| v_snippet := {| sn_title := Some "A talk"; sn_description := Some "nan";
                       sn_channelId := None;
                       sn_publishedAt := Some "2024-05-01T10:00:00Z";
                       sn_thumbnail_default_url := None;
                       sn_defaultAudioLanguage := Some "en" |};
       v_duration := Some "PT1H2M3S" |} [] [] None (Some "1:02:03")
    eq_refl eq_refl eq_refl eq_refl (or_introl (conj eq_refl eq_refl)) eq_refl eq_refl
    ltac:(repeat constructor) ltac:(simpl; lia))
    as (d & Hrow & _ & _ & _ & Hdesc & Hch & Hdate & _ & _ & Hdur & Hsub).
  exists d. split; [exact (f_equal fst (Hrow eq_refl))|].
  repeat split; assumption.
Defined.

(** ** Loading the input *)

Lemma rx_cat_in (r1 r2 : regex) (b : bool) (s : string) (g : captures) (x : found) :
  In x (rx (Cat r1 r2) b s g) ->
  exists m1 s1 g1 m2 t g',
    x = (m1 ++ m2, t, g') /\ In (m1, s1, g1) (rx r1 b s g) /\
    In (m2, t, g') (rx r2 (b && is_empty m1) s1 g1).
Proof.
  simpl. intros Hin. apply in_flat_map in Hin as [[[m1 s1] g1] [H1 H2]].
  apply in_map_iff in H2 as [[[m2 t] g'] [<- H2]].
  exists m1, s1, g1, m2, t, g'. auto.
Qed.

Lemma rx_cat_head (r1 r2 : regex) (b : bool) (s : string) (g : captures)
    (m1 s1 m2 s2 : string) (g1 g2 : captures) (tl1 tl2 : list found) :
  rx r1 b s g = (m1, s1, g1) :: tl1 ->
  rx r2 (b && is_empty m1) s1 g1 = (m2, s2, g2) :: tl2 ->
  exists tl, rx (Cat r1 r2) b s g = (m1 ++ m2, s2, g2) :: tl.
Proof. intros H1 H2. simpl. rewrite H1. simpl. rewrite H2. simpl. eauto. Qed.

Lemma star_class_head (p : ascii -> bool) (a t : string) :
  str_forallb p a = true ->
  t = "" \/ (exists c t', t = String c t' /\ p c = false) ->
  exists tl, star_class p (a ++ t) = (a, t) :: tl.
Proof.
  intros Ha Ht. induction a as [|c a IH]; simpl in *.
  - destruct Ht as [->|(c & t' & -> & Hc)]; simpl; [eauto|]. rewrite Hc. eauto.
  - apply andb_prop in Ha as [Hc Ha]. rewrite Hc.
    destruct (IH Ha) as [tl ->]. simpl. eauto.
Qed.

Lemma search_from_bol (r : regex) (t : string) : search_from (Cat Bol r) false t = None.
Proof. induction t as [|c t IH]; simpl; [reflexivity | exact IH]. Qed.

Lemma search_bol (r : regex) (s : string) :
  search (Cat Bol r) s
  = match rx (Cat Bol r) true s [] with x :: _ => Some (snd x) | [] => None end.
Proof.
  unfold search. destruct s as [|c s]; unfold search_from; fold search_from;
    destruct (rx (Cat Bol r) true _ []); try reflexivity.
  apply search_from_bol.
Qed.

(** The match [re] reports for [^\s*nan\s*$] covers the whole text. *)
Lemma nan_cell_head (s : string) :
  blank_nan s -> exists tl, rx media_meta_data.nan_cell true s [] = (s, "", []) :: tl.
Proof.
  intros (a & b & -> & Ha & Hb). unfold media_meta_data.nan_cell.
  assert (H4 : forall bb, exists tl,
             rx (Cat (Star is_space) Eol) bb b [] = (b ++ "", "", []) :: tl).
  { intros bb. destruct (star_class_head is_space b "" Hb (or_introl eq_refl)) as [tl Hs].
    rewrite app_empty_r in Hs.
    apply (rx_cat_head _ _ _ _ _ b "" "" "" [] [] (List.map (with_groups []) tl) []).
    - simpl. now rewrite Hs.
    - reflexivity. }
  assert (H3 : forall bb, exists tl,
             rx (Cat (Lit "nan") (Cat (Star is_space) Eol)) bb ("nan" ++ b) []
             = ("nan" ++ b ++ "", "", []) :: tl).
  { intros bb. destruct (H4 (bb && is_empty "nan")) as [tl4 H4'].
    apply (rx_cat_head _ _ _ _ _ "nan" b (b ++ "") "" [] [] [] tl4); [reflexivity | exact H4']. }
  assert (H2 : exists tl,
    rx (Cat (Star is_space) (Cat (Lit "nan") (Cat (Star is_space) Eol))) true
       (a ++ "nan" ++ b) [] = (a ++ "nan" ++ b ++ "", "", []) :: tl).
  { destruct (star_class_head is_space a ("nan" ++ b) Ha) as [tl Hs].
    { right. exists "n"%char, ("an" ++ b). split; reflexivity. }
    destruct (H3 (true && is_empty a)) as [tl3 H3'].
    apply (rx_cat_head _ _ _ _ _ a ("nan" ++ b) ("nan" ++ b ++ "") "" [] []
             (List.map (with_groups []) tl) tl3).
    - cbn [rx]. rewrite Hs. reflexivity.
    - exact H3'. }
  destruct H2 as [tl2 H2].
  destruct (rx_cat_head Bol _ true (a ++ "nan" ++ b) [] "" (a ++ "nan" ++ b)
              (a ++ "nan" ++ b ++ "") "" [] [] [] tl2 eq_refl H2) as [tl H].
  rewrite app_empty_r in H. simpl in H. eauto.
Qed.

Lemma is_space_LF : is_space LF = true.
Proof. reflexivity. Qed.

Lemma nan_cell_sound (s : string) (x : found) :
  In x (rx media_meta_data.nan_cell true s []) -> blank_nan s.
Proof.
  unfold media_meta_data.nan_cell. intros Hin.
  apply rx_cat_in in Hin as (m0 & s0 & g0 & m & t & g' & _ & H0 & Hin).
  simpl in H0. destruct H0 as [[= <- <- <-]|[]].
  apply rx_cat_in in Hin as (a & s1 & g1 & m1 & t1 & g1' & _ & Ha & Hin).
  simpl in Ha. apply in_map_iff in Ha as [[a' s1'] [[= <- <- <-] Ha]].
  apply star_class_sound in Ha as [-> Ha].
  apply rx_cat_in in Hin as (n & s2 & g2 & m2 & t2 & g2' & _ & Hn & Hin).
  apply rx_lit_in in Hn as (-> & -> & ->).
  apply rx_cat_in in Hin as (b & s3 & g3 & m3 & t3 & g3' & _ & Hb & Hin).
  simpl in Hb. apply in_map_iff in Hb as [[b' s3'] [[= <- <- <-] Hb]].
  apply star_class_sound in Hb as [-> Hb].
  simpl in Hin. destruct (at_eol s3') eqn:He; [|destruct Hin].
  apply at_eol_iff in He.
  exists a', (b' ++ s3'). split; [reflexivity|]. split; [exact Ha|].
  rewrite forallb_app_str, Hb. destruct He as [->| ->]; reflexivity.
Qed.

Lemma nan_cell_iff (s : string) :
  (blank_nan s -> matched (search media_meta_data.nan_cell s) = true) /\
  (~ blank_nan s -> matched (search media_meta_data.nan_cell s) = false).
Proof.
  assert (Hs : search media_meta_data.nan_cell s
               = match rx media_meta_data.nan_cell true s [] with
                 | x :: _ => Some (snd x) | [] => None end) by apply search_bol.
  rewrite Hs. split.
  - intros H. destruct (nan_cell_head s H) as [tl ->]. reflexivity.
  - intros H. destruct (rx media_meta_data.nan_cell true s []) as [|x l] eqn:Hx; [reflexivity|].
    elim H. apply (nan_cell_sound s x). rewrite Hx. now left.
Qed.

(** X14: when the input file exists and the temporary file can be written,
    loading gives a frame with the file's columns and as many rows, and
    writes it to the temporary file.  With a pandas whose [astype(str)] turns
    every value into its [str], every cell of the frame is a text: the empty
    text where [str] of the file's value is [nan] between white space (so for
    every missing value), and [str] of the value everywhere else.  With a
    pandas whose [astype(str)] keeps a missing value missing, a missing value
    stays missing and the other cells are as before.  The match of
    [^\s*nan\s*$] that [re] reports covers the whole cell, so the
    substitution leaves nothing.  When the writing of the temporary file
    fails, loading raises what the writing raised. *)
Theorem load_normalizes (E : Env) (w : world) (raw : table) :
  files w !! media_meta_data.INPUT_CSV = Some raw ->
  exists d,
    (to_csv_fault E (calls w) media_meta_data.TEMP_CSV d = None ->
     media_meta_data.load E w = (Ret d, temp_written d w)) /\
    (forall e partial,
       to_csv_fault E (calls w) media_meta_data.TEMP_CSV d = Some (e, partial) ->
       media_meta_data.load E w = (Raise e, temp_left partial w)) /\
    columns d = columns raw /\
    length (rows d) = length (rows raw) /\
    (forall i row, rows raw !! i = Some row ->
       exists row', rows d !! i = Some row' /\ length row' = length row /\
         forall j v, row !! j = Some v ->
           (pandas_keeps_missing E = true -> media_meta_data.is_missing v = true ->
              row' !! j = Some PNaN) /\
           (pandas_keeps_missing E = false \/ media_meta_data.is_missing v = false ->
              (blank_nan (media_meta_data.py_str v) -> row' !! j = Some (PStr "")) /\
              (~ blank_nan (media_meta_data.py_str v) ->
                 row' !! j = Some (PStr (media_meta_data.py_str v))))) /\
    (forall s, blank_nan s ->
       exists tl, rx media_meta_data.nan_cell true s [] = (s, "", []) :: tl).
Proof.
  intros Hraw. exists (media_meta_data.replace_nan (media_meta_data.astype_str E raw)).
  split; [|split; [|split; [reflexivity|split; [|split]]]].
  - intros Hw. unfold media_meta_data.load, bind, media_meta_data.read_csv,
      media_meta_data.to_csv.
    rewrite Hraw, Hw. reflexivity.
  - intros e partial Hw. unfold media_meta_data.load, bind, media_meta_data.read_csv,
      media_meta_data.to_csv.
    rewrite Hraw, Hw. now destruct partial.
  - simpl. now rewrite !length_map.
  - intros i row Hrow. simpl. rewrite !lookup_map, Hrow. simpl.
    eexists. split; [reflexivity|]. split; [now rewrite !length_map|].
    intros j v Hv. rewrite !lookup_map, Hv. simpl.
    destruct (nan_cell_iff (media_meta_data.py_str v)) as [Hy Hn].
    split.
    + intros -> ->. reflexivity.
    + intros Hor.
      assert (Hb : pandas_keeps_missing E && media_meta_data.is_missing v = false).
      { destruct Hor as [-> | ->]; [reflexivity | apply andb_false_r]. }
      rewrite Hb. split; intros H.
      * now rewrite (Hy H).
      * now rewrite (Hn H).
  - exact nan_cell_head.
Qed.

Lemma load_normalizes_witness :
  exists d,
    media_meta_data.load offline gaps_world = (Ret d, temp_written d gaps_world) /\
    rows d = [[PStr ""; PStr ""]; [PStr "banana"; PStr "3"]].
Proof.
  destruct (load_normalizes offline gaps_world gaps eq_refl) as (d & Hl & _).
  specialize (Hl eq_refl).
  exists d. split; [exact Hl|].
  injection Hl as <- _. reflexivity.
Defined.

(** The same file read with a pandas that keeps missing values: the missing
    value stays, the text [" nan "] is emptied. *)
Example load_keeps_missing :
  fst (media_meta_data.load pandas3 gaps_world)
  = Ret {| columns := ["Platform"; "URL / Media"];
           rows := [[PNaN; PStr ""]; [PStr "banana"; PStr "3"]] |}.
Proof. reflexivity. Qed.

(** * temp.py, the script *)

Lemma temp_fetch_shape (E : Env) (link : string) (w : world) :
  calls (snd (temp.fetch_instagram_meta E link w)) = (calls w ++ [RequestsGet link []])%list /\
  ((exists d t, fst (temp.fetch_instagram_meta E link w)
                = Ret [("url", PStr link); ("description", PStr d); ("thumbnail", PStr t)]) \/
   (exists e, fst (temp.fetch_instagram_meta E link w) = Raise e /\ is_Exception e = false)).
Proof.
  unfold temp.fetch_instagram_meta, temp.fetch_instagram_meta_try, try_except, bind, invoke,
    lift, ret, raise_for_status.
  by_cases; simpl; split; try reflexivity; eauto.
Qed.

Lemma read_links_state (s : disk call) : snd (temp_script.read_links s) = s.
Proof.
  unfold temp_script.read_links, andthen, read_records, effectless.
  destruct (csvs s !! temp_script.INPUT_CSV) as [f|]; [|reflexivity].
  destruct (csv.DictReader f). reflexivity.
Qed.

(** X15: the script of [temp.py] never gets beyond its first Instagram link.
    With no such link it only prepares the output file (a header of four
    names when the file is new).  With one or more it requests the first
    page once, appends one record of three fields, and then stops with
    [KeyError], because the record has no ["title"]; the remaining links are
    neither requested nor written. *)
Theorem temp_script_stops_at_first_link (E : Env) (s : disk call) (links : list string) :
  fst (temp_script.read_links s) = Ret links ->
  (links = [] ->
   temp_script.script E s
   = (Ret tt, {| csvs := <[temp_script.OUTPUT_CSV := prepared s]> (csvs s);
                 events := events s |})) /\
  (forall link rest, links = link :: rest ->
   exists e s',
     temp_script.script E s = (Raise e, s') /\
     events s' = (events s ++ [RequestsGet link []])%list /\
     (is_Exception e = true ->
      e = KeyError /\
      exists description thumbnail,
        csvs s' = <[temp_script.OUTPUT_CSV :=
                      (prepared s ++ [[link; description; thumbnail]])%list]> (csvs s)) /\
     (is_Exception e = false ->
      csvs s' = <[temp_script.OUTPUT_CSV := prepared s]> (csvs s))).
Proof.
  intros Hread.
  assert (Hr : temp_script.read_links s = (Ret links, s)).
  { pose proof (read_links_state s) as Hs.
    destruct (temp_script.read_links s) as [o s0]. simpl in Hread, Hs. now subst. }
  assert (Hprep : temp_script.prepare_output s
                  = (Ret tt, {| csvs := <[temp_script.OUTPUT_CSV := prepared s]> (csvs s);
                                events := events s |})).
  { unfold temp_script.prepare_output, append_records, prepared, temp_header.
    destruct (csvs s !! temp_script.OUTPUT_CSV) as [f|]; simpl; [|reflexivity].
    now rewrite app_nil_r. }
  split.
  - intros ->. unfold temp_script.script, andthen. now rewrite Hr, Hprep.
  - intros link rest ->. unfold temp_script.script, andthen at 1. rewrite Hr.
    unfold andthen at 1. rewrite Hprep. simpl for_each. unfold andthen at 1.
    unfold temp_script.scrape, andthen at 1, online. simpl events.
    destruct (temp_fetch_shape E link {| files := ∅; calls := events s |}) as [Hc Hshape].
    destruct (temp.fetch_instagram_meta E link {| files := ∅; calls := events s |})
      as [o w] eqn:Hf.
    simpl in Hc, Hshape. destruct Hshape as [(d & t & ->)|(e & -> & He)].
    + exists KeyError. eexists. split; [reflexivity|]. simpl. split; [exact Hc|].
      split; [|discriminate]. intros _. split; [reflexivity|].
      exists d, t. rewrite lookup_insert_eq. simpl. now rewrite insert_insert_eq.
    + exists e. eexists. split; [reflexivity|]. simpl. split; [exact Hc|].
      split; [rewrite He; discriminate|]. reflexivity.
Qed.

Lemma temp_script_stops_at_first_link_witness :
  exists e s',
    temp_script.script (site 200 (Some "A reel") None) three_links = (Raise e, s') /\
    events s' = [RequestsGet "https://www.instagram.com/p/one/" []] /\
    e = KeyError /\
    csvs s' !! temp_script.OUTPUT_CSV
    = Some [ temp_header; ["https://www.instagram.com/p/one/"; "A reel"; ""] ].
Proof.
  destruct (proj2 (temp_script_stops_at_first_link (site 200 (Some "A reel") None) three_links
                     ["https://www.instagram.com/p/one/"; "https://www.instagram.com/p/two/"]
                     eq_refl)
              "https://www.instagram.com/p/one/" ["https://www.instagram.com/p/two/"] eq_refl)
    as (e & s' & Hs & Hev & _).
  exists e, s'. split; [exact Hs|]. split; [exact Hev|].
  injection Hs as <- <-. split; reflexivity.
Defined.

Lemma last_index_None (key : string) (fieldnames : list string) :
  csv.last_index key fieldnames = None <-> ~ In key fieldnames.
Proof.
  induction fieldnames as [|name rest IH]; simpl; [tauto|].
  destruct (csv.last_index key rest) as [i|].
  - split; [discriminate|]. intros H. exfalso. apply H. right.
    destruct (in_dec String.string_dec key rest) as [Hin|Hn]; [exact Hin|].
    apply IH in Hn. discriminate.
  - destruct (String.eqb key name) eqn:Hk.
    + apply String.eqb_eq in Hk as ->. split; [discriminate|]. intros H. elim H. now left.
    + apply String.eqb_neq in Hk. split; [|reflexivity].
      intros _ [->|Hin]; [now elim Hk|]. now apply IH in Hin.
Qed.

Lemma last_index_lt (key : string) (fieldnames : list string) (i : nat) :
  csv.last_index key fieldnames = Some i -> i < length fieldnames.
Proof.
  revert i; induction fieldnames as [|name rest IH]; intros i; simpl; [discriminate|].
  destruct (csv.last_index key rest) as [j|].
  - intros [= <-]. specialize (IH j eq_refl). lia.
  - destruct (String.eqb key name); [|discriminate]. intros [= <-]. lia.
Qed.

Lemma stripped_complete (fieldnames : list string) (row : csv.record) (key : string) :
  In key fieldnames -> length fieldnames <= length row ->
  exists cell, csv.getitem fieldnames row key = Ret (Some cell) /\
               temp_script.stripped fieldnames row key = Ret (strip cell).
Proof.
  intros Hin Hlen. unfold temp_script.stripped, csv.getitem.
  destruct (csv.last_index key fieldnames) as [i|] eqn:Hi.
  - apply last_index_lt in Hi.
    destruct (lookup_lt_is_Some_2 row i ltac:(lia)) as [cell Hc]. rewrite Hc. eauto.
  - apply last_index_None in Hi. contradiction.
Qed.

Lemma collect_complete (fieldnames : list string) (rows : list csv.record) :
  In "Platform" fieldnames -> In "URL / Media" fieldnames ->
  Forall (fun row => length fieldnames <= length row) rows ->
  forall acc,
    temp_script.collect fieldnames rows acc
    = Ret (acc ++ List.map (link_of fieldnames)
                    (List.filter (is_instagram_row fieldnames) rows))%list.
Proof.
  intros Hp Hu Hrows. induction Hrows as [|row rows Hrow _ IH]; intros acc; simpl.
  - now rewrite app_nil_r.
  - destruct (stripped_complete fieldnames row "Platform" Hp Hrow) as (p & Hgp & Hsp).
    destruct (stripped_complete fieldnames row "URL / Media" Hu Hrow) as (u & Hgu & Hsu).
    rewrite Hsp. unfold is_instagram_row. rewrite Hgp.
    destruct (String.eqb (lower (strip p)) "instagram").
    + rewrite Hsu, IH. simpl. unfold link_of at 2. rewrite Hgu.
      now rewrite <- app_assoc.
    + apply IH.
Qed.

(** X16: what the script of [temp.py] reads.  Without the input file it
    stops with [OSError], and with rows but no [Platform] column with
    [KeyError], in both cases before the output file is created and before
    any request.  When the header names both columns and every row that is
    not blank has a field for each name, the links are the trimmed URLs of
    the rows whose platform, trimmed and in lower case, is [instagram], in
    the order of the file. *)
Theorem temp_script_reads (E : Env) (s : disk call) :
  (forall e, fst (temp_script.read_links s) = Raise e ->
     temp_script.script E s = (Raise e, s)) /\
  (csvs s !! temp_script.INPUT_CSV = None ->
     fst (temp_script.read_links s) = Raise EnvironmentError) /\
  (forall fieldnames records,
     csvs s !! temp_script.INPUT_CSV = Some (fieldnames :: records) ->
     (List.filter not_blank records <> [] -> ~ In "Platform" fieldnames ->
        fst (temp_script.read_links s) = Raise KeyError) /\
     (In "Platform" fieldnames -> In "URL / Media" fieldnames ->
      Forall (fun row => length fieldnames <= length row) (List.filter not_blank records) ->
        fst (temp_script.read_links s)
        = Ret (List.map (link_of fieldnames)
                 (List.filter (is_instagram_row fieldnames)
                    (List.filter not_blank records))))).
Proof.
  split; [|split].
  - intros e He. pose proof (read_links_state s) as Hs.
    unfold temp_script.script, andthen.
    destruct (temp_script.read_links s) as [o s0]. simpl in He, Hs. now subst.
  - intros Hnone. unfold temp_script.read_links, andthen, read_records. now rewrite Hnone.
  - intros fieldnames records Hf.
    unfold temp_script.read_links, andthen, read_records, effectless.
    unfold csv.file, csv.record in *. rewrite Hf. simpl.
    fold not_blank. split.
    + intros Hrows Hp.
      assert (Hc : forall rows : list (list string),
                 rows <> [] -> temp_script.collect fieldnames rows [] = Raise KeyError).
      { intros [|row rows] Hne; [now elim Hne|].
        simpl. unfold temp_script.stripped, csv.getitem.
        apply last_index_None in Hp. now rewrite Hp. }
      apply Hc, Hrows.
    + intros Hp Hu Hrows. now rewrite (collect_complete fieldnames _ Hp Hu Hrows).
Qed.

Lemma temp_script_reads_witness :
  fst (temp_script.read_links three_links)
  = Ret ["https://www.instagram.com/p/one/"; "https://www.instagram.com/p/two/"].
Proof.
  exact (proj2 (proj2 (proj2 (temp_script_reads offline three_links))
    ["Platform"; "URL / Media"]
    [ ["Instagram "; " https://www.instagram.com/p/one/"];
      ["youtube"; "https://youtu.be/dQw4w9WgXcQ"];
      ["instagram"; "https://www.instagram.com/p/two/"] ] eq_refl)
    ltac:(simpl; tauto) ltac:(simpl; tauto) ltac:(repeat constructor)).
Defined.

(** * youtube_metadata_fetcher.py *)

Lemma fill_lookup (items : list fetcher.category) :
  forall m0 m, fetcher.fill items m0 = Ret m ->
    forall k name,
      m !! k = Some name <->
      (exists before item after,
         items = (before ++ item :: after)%list /\ fetcher.id item = Some k /\
         fetcher.title item = Some name /\ Forall (other_than k) after) \/
      (Forall (other_than k) items /\ m0 !! k = Some name).
Proof.
  induction items as [|item rest IH]; intros m0 m; simpl.
  - intros [= <-] k name. split.
    + intros H. right. split; [constructor | exact H].
    + intros [(before & item & after & H & _)|[_ H]]; [|exact H].
      destruct before; discriminate.
  - destruct (fetcher.id item) as [c|] eqn:Hid; [|discriminate].
    destruct (fetcher.title item) as [n|] eqn:Ht; [|discriminate].
    intros Hfill k name. rewrite (IH _ _ Hfill k name). split.
    + intros [(before & item' & after & -> & Hi & Hn & Ha)|[Hrest Hk]].
      * left. exists (item :: before), item', after. auto.
      * destruct (decide (c = k)) as [->|Hne].
        -- rewrite lookup_insert_eq in Hk. injection Hk as ->.
           left. exists [], item, rest. auto.
        -- rewrite lookup_insert_ne in Hk by exact Hne.
           right. split; [|exact Hk]. constructor; [|exact Hrest].
           unfold other_than. rewrite Hid. congruence.
    + intros [(before & item' & after & Heq & Hi & Hn & Ha)|[Hall Hk]].
      * destruct before as [|b before]; simpl in Heq; injection Heq as <- ->.
        -- right. split; [exact Ha|].
           rewrite Hid in Hi. injection Hi as ->. rewrite Ht in Hn. injection Hn as ->.
           apply lookup_insert_eq.
        -- left. exists before, item', after. auto.
      * apply Forall_cons in Hall as [Hitem Hrest]. right. split; [exact Hrest|].
        rewrite lookup_insert_ne; [exact Hk|].
        unfold other_than in Hitem. rewrite Hid in Hitem. congruence.
Qed.

Lemma fill_total (items : list fetcher.category) :
  Forall has_both items -> forall m0, exists m, fetcher.fill items m0 = Ret m.
Proof.
  induction 1 as [|item rest [Hi Ht] _ IH]; intros m0; simpl; [eauto|].
  destruct (fetcher.id item); [|now elim Hi].
  destruct (fetcher.title item); [|now elim Ht]. apply IH.
Qed.

Lemma fill_KeyError (items : list fetcher.category) :
  Exists (fun item => ~ has_both item) items ->
  forall m0, fetcher.fill items m0 = Raise KeyError.
Proof.
  induction 1 as [item rest Hitem|item rest _ IH]; intros m0; simpl.
  - destruct (fetcher.id item) eqn:Hi; [|reflexivity].
    destruct (fetcher.title item) eqn:Ht; [|reflexivity].
    elim Hitem. unfold has_both. rewrite Hi, Ht. split; discriminate.
  - destruct (fetcher.id item); [|reflexivity].
    destruct (fetcher.title item); [|reflexivity]. apply IH.
Qed.

(** X17: [get_all_categories] makes one request.  When an item of the answer
    lacks its [id] or its [snippet.title] it raises [KeyError]; otherwise it
    returns a map in which an id stands for the title of the last item with
    that id, so that the category name of a video whose category no item
    has is ["Unknown"]. *)
Theorem get_all_categories_spec (youtube : fetcher.YouTube) (s : disk fetcher.request)
    (items : list fetcher.category) :
  fetcher.videoCategories_list youtube (events s) = Ret items ->
  (Exists (fun item => ~ has_both item) items ->
     fetcher.get_all_categories youtube s = (Raise KeyError, asked fetcher.VideoCategories s)) /\
  (Forall has_both items ->
     exists m,
       fetcher.get_all_categories youtube s = (Ret m, asked fetcher.VideoCategories s) /\
       (forall k name,
          m !! k = Some name <->
          exists before item after,
            items = (before ++ item :: after)%list /\ fetcher.id item = Some k /\
            fetcher.title item = Some name /\ Forall (other_than k) after) /\
       (forall k, Forall (other_than k) items ->
          fetcher.category_name_of m (Some (fetcher.JStr k)) = fetcher.JStr "Unknown")).
Proof.
  intros Hitems. unfold fetcher.get_all_categories, andthen, fetcher.execute, effectless.
  rewrite Hitems. split.
  - intros Hex. now rewrite (fill_KeyError items Hex).
  - intros Hall. destruct (fill_total items Hall ∅) as [m Hm]. exists m. rewrite Hm.
    split; [reflexivity|].
    assert (Hl := fill_lookup items ∅ m Hm). split.
    + intros k name. rewrite (Hl k name). split; [|tauto].
      intros [H|[_ H]]; [exact H|]. rewrite lookup_empty in H. discriminate.
    + intros k Hk. unfold fetcher.category_name_of.
      destruct (m !! k) as [name|] eqn:Hmk; [|reflexivity].
      apply Hl in Hmk as [(before & item & after & -> & Hi & _)|[_ H]].
      * apply Forall_app in Hk as [_ Hk]. apply Forall_cons in Hk as [Hk _].
        now elim Hk.
      * rewrite lookup_empty in H. discriminate.
Qed.

Lemma get_all_categories_spec_witness :
  exists m,
    fetcher.get_all_categories three_categories no_requests
      = (Ret m, asked fetcher.VideoCategories no_requests) /\
    m !! "1" = Some (fetcher.JStr "Movies") /\
    fetcher.category_name_of m (Some (fetcher.JStr "7")) = fetcher.JStr "Unknown".
Proof.
  destruct (proj2 (get_all_categories_spec three_categories no_requests _ eq_refl))
    as (m & Hm & Hlast & Hunknown).
  { repeat constructor; discriminate. }
  exists m. split; [exact Hm|]. split.
  - apply Hlast.
    exists [ {| fetcher.id := Some "1"; fetcher.title := Some (fetcher.JStr "Film") |};
             {| fetcher.id := Some "2"; fetcher.title := Some (fetcher.JStr "Autos") |} ],
           {| fetcher.id := Some "1"; fetcher.title := Some (fetcher.JStr "Movies") |}, [].
    repeat split. constructor.
  - apply Hunknown. repeat constructor; discriminate.
Defined.

Lemma video_id_shape (url v : string) :
  youtube_metadata_fetcher.extract_video_id url = Some v -> is_video_id v.
Proof.
  unfold youtube_metadata_fetcher.extract_video_id, youtube_metadata_fetcher.patterns,
    youtube_metadata_fetcher.first_match, search.
  destruct (search_from _ true url) as [g|] eqn:Hs; [|discriminate].
  apply search_from_groups in Hs as (p & m & t & -> & L).
  apply langc_id_pattern in L as (marker & id' & Hm & Hl & Hp & -> & ->).
  simpl. intros [= <-]. now split.
Qed.

Lemma canonical_url (v : string) :
  is_video_id v ->
  youtube_metadata_fetcher.extract_video_id ("https://youtu.be/" ++ v) = Some v.
Proof.
  intros [Hl Hp].
  unfold youtube_metadata_fetcher.extract_video_id, youtube_metadata_fetcher.patterns,
    youtube_metadata_fetcher.first_match, search.
  pose proof (rep_class_exact 11 _ v "" Hl Hp) as Hr. rewrite app_empty_r in Hr.
  simpl. rewrite Hr. reflexivity.
Qed.

Lemma record_of_canonical (v : string) (item : fetcher.video) (m : gmap string fetcher.json) :
  is_video_id v -> canonical (fetcher.record_of v item m).
Proof. intros Hv. split; [reflexivity|]. exists v. auto. Qed.

Lemma fetch_video_data_spec (youtube : fetcher.YouTube) (v : string)
    (m : gmap string fetcher.json) (s : disk fetcher.request) :
  fetcher.fetch_video_data youtube v m s
  = (match fetcher.videos_list youtube (events s) v with
     | Ret [] => Ret None
     | Ret (item :: _) => Ret (Some (fetcher.record_of v item m))
     | Raise e => Raise e
     end, asked (fetcher.Videos v) s).
Proof.
  unfold fetcher.fetch_video_data, andthen, fetcher.execute.
  now destruct (fetcher.videos_list youtube (events s) v) as [[|item items]|e].
Qed.

Lemma fetch_video_data_shape (youtube : fetcher.YouTube) (v : string)
    (m : gmap string fetcher.json) (s s' : disk fetcher.request)
    (o : outcome (option fetcher.record)) :
  fetcher.fetch_video_data youtube v m s = (o, s') ->
  csvs s' = csvs s /\
  forall r, o = Ret (Some r) -> is_video_id v -> canonical r.
Proof.
  rewrite fetch_video_data_spec.
  destruct (fetcher.videos_list youtube (events s) v) as [[|item items]|e];
    intros [= <- <-]; (split; [reflexivity|]); try discriminate.
  intros r [= <-]. apply record_of_canonical.
Qed.

Ltac same_results :=
  intros [= <- <-]; split; [reflexivity | intros ? [= <-] ?; assumption].

Ltac raised := intros [= <- <-]; split; [reflexivity | discriminate].

Lemma visit_shape (youtube : fetcher.YouTube) (m : gmap string fetcher.json)
    (fieldnames : list string) (row : csv.record) (results : list fetcher.record)
    (s s' : disk fetcher.request) (o : outcome (list fetcher.record)) :
  fetcher.visit youtube m fieldnames row results s = (o, s') ->
  csvs s' = csvs s /\
  forall results', o = Ret results' -> Forall canonical results -> Forall canonical results'.
Proof.
  unfold fetcher.visit, andthen at 1, effectless at 1.
  destruct (csv.getitem fieldnames row "Platform") as [[platform|]|e];
    [|unfold throw; raised|raised].
  destruct (String.eqb (lower platform) "youtube"); [|unfold value; same_results].
  unfold andthen at 1, effectless at 1.
  destruct (csv.getitem fieldnames row "URL / Media") as [[url|]|e];
    [|unfold throw; raised|raised].
  destruct (youtube_metadata_fetcher.extract_video_id url) as [v|] eqn:Hv;
    [|unfold value; same_results].
  destruct (is_empty v); [unfold value; same_results|].
  apply video_id_shape in Hv.
  unfold andthen.
  destruct (fetcher.fetch_video_data youtube v m s) as [o1 s1] eqn:Hf.
  destruct (fetch_video_data_shape youtube v m s s1 o1 Hf) as [Hc Hr].
  destruct o1 as [[[|kv kvs]|]|e]; unfold value; intros [= <- <-];
    (split; [exact Hc|]); try discriminate; try (intros ? [= <-] ?; assumption).
  intros results' [= <-] Hall. apply Forall_app. split; [exact Hall|].
  constructor; [|constructor]. now apply Hr.
Qed.

Lemma visit_all_shape (youtube : fetcher.YouTube) (m : gmap string fetcher.json)
    (fieldnames : list string) (rows : list csv.record) :
  forall results s o s',
    fetcher.visit_all youtube m fieldnames rows results s = (o, s') ->
    csvs s' = csvs s /\
    forall results', o = Ret results' -> Forall canonical results -> Forall canonical results'.
Proof.
  induction rows as [|row rest IH]; intros results s o s'; simpl.
  - unfold value. same_results.
  - unfold andthen.
    destruct (fetcher.visit youtube m fieldnames row results s) as [[results1|e] s1] eqn:Hv;
      destruct (visit_shape youtube m fieldnames row results s s1 _ Hv) as [Hc Hr].
    + intros Hrest. destruct (IH results1 s1 o s' Hrest) as [Hc' Hr'].
      split; [now rewrite Hc'|].
      intros results' Hres Hall. apply (Hr' results' Hres). now apply Hr.
    + intros [= <- <-]. split; [exact Hc | discriminate].
Qed.

Lemma get_all_categories_csvs (youtube : fetcher.YouTube) (s : disk fetcher.request) :
  csvs (snd (fetcher.get_all_categories youtube s)) = csvs s.
Proof.
  unfold fetcher.get_all_categories, andthen, fetcher.execute, effectless.
  now destruct (fetcher.videoCategories_list youtube (events s)).
Qed.

Lemma answered_canonical (youtube : fetcher.YouTube) (m : gmap string fetcher.json)
    (ids : list string) :
  Forall is_video_id ids -> forall h, Forall canonical (answered youtube m h ids).
Proof.
  induction 1 as [|v ids Hv _ IH]; intros h; simpl; [constructor|].
  apply Forall_app. split; [|apply IH].
  destruct (fetcher.videos_list youtube h v) as [[|item items]|e]; try constructor;
    [now apply record_of_canonical | constructor].
Qed.

Lemma visit_spec (youtube : fetcher.YouTube) (m : gmap string fetcher.json)
    (fieldnames : list string) (row : csv.record) (results results' : list fetcher.record)
    (s s' : disk fetcher.request) :
  fetcher.visit youtube m fieldnames row results s = (Ret results', s') ->
  events s' = (events s ++ List.map fetcher.Videos (option_list (wanted fieldnames row)))%list /\
  results' = (results ++ answered youtube m (events s) (option_list (wanted fieldnames row)))%list.
Proof.
  unfold fetcher.visit, wanted, andthen at 1, effectless at 1.
  destruct (csv.getitem fieldnames row "Platform") as [[platform|]|e];
    [|discriminate|discriminate].
  destruct (String.eqb (lower platform) "youtube").
  2:{ destruct (csv.getitem fieldnames row "URL / Media") as [[url|]|e];
        intros [= <- <-]; simpl; now rewrite !app_nil_r. }
  unfold andthen at 1, effectless at 1.
  destruct (csv.getitem fieldnames row "URL / Media") as [[url|]|e];
    [|discriminate|discriminate].
  destruct (youtube_metadata_fetcher.extract_video_id url) as [v|] eqn:Hv.
  2:{ intros [= <- <-]; simpl; now rewrite !app_nil_r. }
  apply video_id_shape in Hv. destruct Hv as [Hl _].
  destruct v as [|c v]; [discriminate Hl|]. cbn [is_empty].
  unfold andthen. rewrite fetch_video_data_spec. simpl.
  destruct (fetcher.videos_list youtube (events s) (String c v)) as [[|item items]|e];
    [| |discriminate]; intros [= <- <-]; simpl; rewrite ?app_nil_r; split; reflexivity.
Qed.

Lemma visit_all_spec (youtube : fetcher.YouTube) (m : gmap string fetcher.json)
    (fieldnames : list string) (rows : list csv.record) :
  forall results s results' s',
    fetcher.visit_all youtube m fieldnames rows results s = (Ret results', s') ->
    events s'
    = (events s ++ List.map fetcher.Videos (omap (wanted fieldnames) rows))%list /\
    results'
    = (results ++ answered youtube m (events s) (omap (wanted fieldnames) rows))%list.
Proof.
  induction rows as [|row rest IH]; intros results s results' s'; simpl.
  - intros [= <- <-]. now rewrite !app_nil_r.
  - unfold andthen.
    destruct (fetcher.visit youtube m fieldnames row results s) as [[results1|e] s1] eqn:Hv;
      [|discriminate].
    destruct (visit_spec youtube m fieldnames row results results1 s s1 Hv) as [He Hr].
    intros Hrest. destruct (IH results1 s1 results' s' Hrest) as [He' Hr'].
    rewrite He', Hr', He, Hr.
    destruct (wanted fieldnames row) as [v|]; simpl; rewrite ?app_nil_r.
    + rewrite <- !app_assoc. split; reflexivity.
    + split; reflexivity.
Qed.

Lemma wanted_ids (fieldnames : list string) (rows : list csv.record) :
  Forall is_video_id (omap (wanted fieldnames) rows).
Proof.
  induction rows as [|row rest IH]; simpl; [constructor|].
  destruct (wanted fieldnames row) as [v|] eqn:Hw; [|exact IH].
  constructor; [|exact IH]. revert Hw. unfold wanted.
  destruct (csv.getitem fieldnames row "Platform") as [[platform|]|e]; try discriminate.
  destruct (csv.getitem fieldnames row "URL / Media") as [[url|]|e]; try discriminate.
  destruct (String.eqb (lower platform) "youtube"); [|discriminate].
  apply video_id_shape.
Qed.

Lemma line_of_record (v : string) (item : fetcher.video) (m : gmap string fetcher.json) :
  csv.DictWriter_row fetcher.field_text fetcher_keys (fetcher.record_of v item m)
  = Ret (line_of (fetcher.record_of v item m)).
Proof. reflexivity. Qed.

Lemma answered_records (youtube : fetcher.YouTube) (m : gmap string fetcher.json)
    (ids : list string) :
  forall h, Forall (fun r => exists v item, r = fetcher.record_of v item m)
              (answered youtube m h ids).
Proof.
  induction ids as [|v ids IH]; intros h; simpl; [constructor|].
  apply Forall_app. split; [|apply IH].
  destruct (fetcher.videos_list youtube h v) as [[|item items]|e]; try constructor;
    [eauto | constructor].
Qed.

Lemma writerows_records (m : gmap string fetcher.json) (results : list fetcher.record) :
  Forall (fun r => exists v item, r = fetcher.record_of v item m) results ->
  forall s base, csvs s !! fetcher.OUTPUT_CSV = Some base ->
    for_each (fetcher.writerow fetcher_keys) results s
    = (Ret tt,
       {| csvs := <[fetcher.OUTPUT_CSV := (base ++ List.map line_of results)%list]> (csvs s);
          events := events s |}).
Proof.
  induction 1 as [|r results (v & item & ->) _ IH]; intros s base Hbase.
  - simpl. unfold value. rewrite app_nil_r, insert_id by exact Hbase. now destruct s.
  - simpl. unfold andthen at 1, fetcher.writerow, andthen at 1, effectless.
    rewrite line_of_record.
    unfold append_records at 1. unfold csv.file, csv.record in *. rewrite Hbase. simpl.
    set (s1 := {| csvs := _; events := events s |}).
    etransitivity;
      [apply (IH s1 (base ++ [line_of (fetcher.record_of v item m)])%list);
       unfold s1; simpl; apply lookup_insert_eq|].
    unfold s1. simpl. rewrite insert_insert_eq. now rewrite <- app_assoc.
Qed.

Lemma canonical_lines (results : list fetcher.record) :
  Forall canonical results -> Forall canonical_line (List.map line_of results).
Proof.
  induction 1 as [|r results [Hk (v & Hv & Hid & Hurl)] _ IH]; simpl; constructor; [|exact IH].
  unfold line_of. split.
  - rewrite length_map, <- (length_map fst), Hk. reflexivity.
  - exists v.
    destruct r as [|[k0 v0] [|[k1 v1] r]]; try discriminate Hk.
    injection Hk as -> -> _. simpl in Hid, Hurl. injection Hid as ->. injection Hurl as ->.
    simpl. repeat split. now apply canonical_url.
Qed.



(** * main.py, the downloaders *)

Lemma has_char_app (c : ascii) (a b : string) :
  has_char c (a ++ b) = has_char c a || has_char c b.
Proof.
  unfold has_char. induction a as [|x a IH]; simpl; [reflexivity|].
  now rewrite IH, orb_assoc.
Qed.

Lemma chr_eqb_sym (a b : ascii) : chr_eqb a b = chr_eqb b a.
Proof.
  destruct (chr_eqb a b) eqn:H.
  - apply chr_eqb_eq in H as ->. symmetry. apply chr_eqb_refl.
  - destruct (chr_eqb b a) eqn:H'; [|reflexivity].
    apply chr_eqb_eq in H' as ->. now rewrite chr_eqb_refl in H.
Qed.

Lemma after_last_free (c : ascii) (s : string) : has_char c (after_last c s) = false.
Proof.
  induction s as [|a t IH]; simpl; [reflexivity|].
  destruct (has_char c t) eqn:Ht; [exact IH|].
  destruct (chr_eqb a c) eqn:Ha; [exact Ht|].
  unfold has_char in *. simpl. now rewrite chr_eqb_sym, Ha, Ht.
Qed.

Lemma after_last_none (c : ascii) (s : string) : has_char c s = false -> after_last c s = s.
Proof.
  destruct s as [|a t]; [reflexivity|]. intros H.
  unfold has_char in H. simpl in H. apply orb_false_iff in H as [Ha Ht].
  fold (has_char c t) in Ht. cbn [after_last]. now rewrite Ht, chr_eqb_sym, Ha.
Qed.

Lemma after_last_app (c : ascii) (b s : string) :
  has_char c s = false -> after_last c (b ++ String c s) = s.
Proof.
  intros Hs. induction b as [|a b IH]; simpl.
  - now rewrite Hs, chr_eqb_refl.
  - rewrite has_char_app. unfold has_char at 2. simpl. rewrite chr_eqb_refl.
    now rewrite orb_true_r.
Qed.

Lemma rstrip_all (p : ascii -> bool) (x t : string) :
  str_forallb p t = true -> rstrip_by p (x ++ t) = rstrip_by p x.
Proof.
  intros Ht. induction x as [|c x IH]; simpl.
  - induction t as [|c t IHt]; simpl; [reflexivity|].
    simpl in Ht. apply andb_prop in Ht as [Hc Ht]. now rewrite (IHt Ht), Hc.
  - now rewrite IH.
Qed.

Lemma rstrip_keeps (p : ascii -> bool) (y s : string) :
  s <> "" -> str_forallb (fun c => negb (p c)) s = true -> rstrip_by p (y ++ s) = y ++ s.
Proof.
  intros Hne Hs.
  assert (Hcode : rstrip_by p s = s).
  { clear Hne. induction s as [|c t IH]; simpl; [reflexivity|].
    simpl in Hs. apply andb_prop in Hs as [Hc Ht]. rewrite (IH Ht).
    apply negb_true_iff in Hc. now rewrite Hc, andb_false_r. }
  induction y as [|a y IH]; simpl; [exact Hcode|].
  rewrite IH. destruct (y ++ s) as [|b r] eqn:Hy; [|reflexivity].
  destruct y; simpl in Hy; [now elim Hne | discriminate].
Qed.

Lemma slash_free_forall (s : string) :
  slash_free s = true -> str_forallb (fun c => negb (chr_eqb "/" c)) s = true.
Proof.
  unfold slash_free, has_char. induction s as [|c t IH]; simpl; [reflexivity|].
  rewrite negb_orb. intros H. apply andb_prop in H as [Hc Ht]. rewrite Hc. now apply IH.
Qed.

Lemma lstrip_before (base rest : string) (c : ascii) (t : string) :
  rest = String c t -> chr_eqb "/" c = false ->
  exists pre, lstrip_by (chr_eqb "/") (base ++ "/" ++ rest) = pre ++ rest /\
              (pre = "" \/ exists b, pre = b ++ "/").
Proof.
  intros -> Hc. induction base as [|a b IH].
  - exists "". change ("" ++ "/" ++ String c t) with (String "/" (String c t)).
    cbn [lstrip_by]. rewrite chr_eqb_refl. cbn [lstrip_by]. rewrite Hc. auto.
  - change (String a b ++ "/" ++ String c t) with (String a (b ++ "/" ++ String c t)).
    cbn [lstrip_by]. destruct (chr_eqb "/" a); [exact IH|].
    exists (String a b ++ "/"). split; [now rewrite app_assoc_str|].
    right. now exists (String a b).
Qed.

(** X19: the shortcode [download_instagram] takes from a URL,
    [url.strip("/").split("/")[-1]], never holds a slash, and it is the last
    segment of the URL that is not empty: from a URL that ends, before any
    trailing slashes, with a slash and a segment [code], it is [code] (so the
    query string, when the URL has one after the last slash). *)
Theorem shortcode_of_spec :
  (forall url, slash_free (downloaders.shortcode_of url) = true) /\
  (forall base code tail,
     code <> "" -> slash_free code = true -> slashes tail = true ->
     downloaders.shortcode_of (base ++ "/" ++ code ++ tail) = code /\
     downloaders.shortcode_of (code ++ tail) = code) /\
  (forall url, slashes url = true -> downloaders.shortcode_of url = "").
Proof.
  split; [|split].
  - intros url. unfold slash_free, downloaders.shortcode_of. now rewrite after_last_free.
  - intros base code tail Hne Hfree Htail. unfold downloaders.shortcode_of.
    assert (Hfree' := Hfree). unfold slash_free in Hfree'. apply negb_true_iff in Hfree'.
    destruct code as [|c t] eqn:Hcode; [now elim Hne|]. rewrite <- Hcode in *.
    assert (Hc : chr_eqb "/" c = false).
    { rewrite Hcode in Hfree'. unfold has_char in Hfree'. simpl in Hfree'.
      now apply orb_false_iff in Hfree' as [Hc _]. }
    assert (Hkeep : forall y, rstrip_by (chr_eqb "/") (y ++ code ++ tail) = y ++ code).
    { intros y. rewrite <- app_assoc_str, rstrip_all by exact Htail.
      apply rstrip_keeps; [now rewrite Hcode | now apply slash_free_forall]. }
    split.
    + destruct (lstrip_before base (code ++ tail) c (t ++ tail)) as (pre & -> & Hpre);
        [now rewrite Hcode | exact Hc |].
      rewrite Hkeep. destruct Hpre as [->|[b ->]].
      * now apply after_last_none.
      * rewrite app_assoc_str. now apply after_last_app.
    + assert (Hl : lstrip_by (chr_eqb "/") (code ++ tail) = code ++ tail).
      { rewrite Hcode. change (String c t ++ tail) with (String c (t ++ tail)).
        cbn [lstrip_by]. now rewrite Hc. }
      rewrite Hl. change (code ++ tail) with ("" ++ code ++ tail). rewrite (Hkeep "").
      now apply after_last_none.
  - intros url Hurl. unfold downloaders.shortcode_of.
    assert (Hl : lstrip_by (chr_eqb "/") url = "").
    { unfold slashes in Hurl. induction url as [|c t IH]; simpl; [reflexivity|].
      simpl in Hurl. apply andb_prop in Hurl as [Hc Ht]. now rewrite Hc, IH. }
    now rewrite Hl.
Qed.

Lemma shortcode_of_spec_witness :
  downloaders.shortcode_of "https://www.instagram.com/reel/Cx1_aB-9/" = "Cx1_aB-9" /\
  downloaders.shortcode_of "https://www.instagram.com/reel/Cx1_aB-9/?igshid=1" = "?igshid=1".
Proof.
  split.
  - exact (proj1 (proj1 (proj2 shortcode_of_spec) "https://www.instagram.com/reel"
                    "Cx1_aB-9" "/" ltac:(discriminate) eq_refl eq_refl)).
  - exact (proj1 (proj1 (proj2 shortcode_of_spec) "https://www.instagram.com/reel/Cx1_aB-9"
                    "?igshid=1" "" ltac:(discriminate) eq_refl eq_refl)).
Defined.

Lemma write_chunks_prefix (os : downloaders.System) (skip : bool) (path : string)
    (cs : list string) :
  forall done o done',
    downloaders.write_chunks os skip path cs done = (o, done') ->
    exists new, done' = (done ++ new)%list /\
      new `prefix_of` writes skip path cs /\
      (o = Ret tt -> new = writes skip path cs).
Proof.
  unfold writes.
  induction cs as [|c cs IH]; intros done o done'; simpl.
  - unfold value. intros [= <- <-]. exists []. rewrite app_nil_r.
    split; [reflexivity|]. split; [apply prefix_nil | reflexivity].
  - unfold andthen at 1. destruct (skip && is_empty c); simpl.
    + apply IH.
    + unfold downloaders.perform.
      destruct (downloaders.file_write os (done ++ [downloaders.Write path c])) as [[]|e].
      * intros Hrest. destruct (IH _ _ _ Hrest) as (new & -> & Hp & Hr).
        exists (downloaders.Write path c :: new). rewrite <- app_assoc. split; [reflexivity|].
        split; [now apply prefix_cons|]. intros Ho. now rewrite (Hr Ho).
      * intros [= <- <-]. exists [downloaders.Write path c]. split; [reflexivity|].
        split; [apply prefix_cons, prefix_nil | discriminate].
Qed.

(** ** What a downloader does, step by step *)

Lemma follows_value {A} (a : A) : follows (value a) [].
Proof.
  intros done o done' [= <- <-]. exists []. rewrite app_nil_r. repeat split; auto.
Qed.

Lemma follows_throw {A} (e : exn) : follows (@throw _ A e) [].
Proof.
  intros done o done' [= <- <-]. exists []. rewrite app_nil_r.
  split; [reflexivity|]. split; [apply prefix_nil | discriminate].
Qed.

Lemma follows_effectless {A} (x : outcome A) : follows (effectless x) [].
Proof.
  intros done o done' [= <- <-]. exists []. rewrite app_nil_r.
  split; [reflexivity|]. split; [apply prefix_nil | reflexivity].
Qed.

Lemma follows_perform {A} (a : downloaders.action)
    (answer : list downloaders.action -> outcome A) :
  follows (downloaders.perform a answer) [a].
Proof.
  intros done o done' [= <- <-]. exists [a]. repeat split; auto.
Qed.

Lemma follows_andthen {A B} (m : prog (list downloaders.action) A)
    (k : A -> prog (list downloaders.action) B) (p1 p2 : list downloaders.action) :
  follows m p1 -> (forall a, follows (k a) p2) -> follows (andthen m k) (p1 ++ p2).
Proof.
  intros Hm Hk done o done'. unfold andthen.
  destruct (m done) as [[a|e] d1] eqn:Hrun; destruct (Hm _ _ _ Hrun) as (n1 & -> & Hp1 & Hr1).
  - rewrite (Hr1 a eq_refl). intros Hrest.
    destruct (Hk a _ _ _ Hrest) as (n2 & -> & Hp2 & Hr2).
    exists (p1 ++ n2)%list. rewrite app_assoc. split; [reflexivity|].
    split; [now apply prefix_app|]. intros b Hb. now rewrite (Hr2 b Hb).
  - intros [= <- <-]. exists n1. split; [reflexivity|].
    split; [now apply prefix_app_r | discriminate].
Qed.

Lemma follows_write_chunks (os : downloaders.System) (skip : bool) (path : string)
    (cs : list string) :
  follows (downloaders.write_chunks os skip path cs) (writes skip path cs).
Proof.
  intros done o done' Hrun.
  destruct (write_chunks_prefix os skip path cs done o done' Hrun) as (new & -> & Hp & Hr).
  exists new. split; [reflexivity|]. split; [exact Hp|]. intros []. exact Hr.
Qed.

Lemma follows_save_stream (os : downloaders.System) (skip : bool) (path : string)
    (r : downloaders.response) :
  follows (downloaders.save_stream os skip path r)
    (downloaders.Open path :: writes skip path (downloaders.chunks r)).
Proof.
  assert (H : follows (downloaders.save_stream os skip path r)
                ([downloaders.Open path] ++ (writes skip path (downloaders.chunks r) ++ []))%list).
  { unfold downloaders.save_stream.
    apply follows_andthen; [apply follows_perform|]. intros _.
    apply follows_andthen; [apply follows_write_chunks|]. intros _.
    destruct (downloaders.broken r); [apply follows_throw | apply follows_value]. }
  now rewrite app_nil_r in H.
Qed.

Lemma follows_save_json (os : downloaders.System) (path : string)
    (doc : downloaders.document) :
  follows (downloaders.save_json os path doc)
    [downloaders.Open path; downloaders.Dump path doc].
Proof.
  unfold downloaders.save_json.
  change [downloaders.Open path; downloaders.Dump path doc]
    with ([downloaders.Open path] ++ [downloaders.Dump path doc])%list.
  apply follows_andthen; [apply follows_perform|]. intros _. apply follows_perform.
Qed.

Ltac start_of plan :=
  unfold plan; cbn [app take]; eexists; reflexivity.



Lemma assoc_kept (info : pydict) (k : string) :
  (In k downloaders.exclude_fields -> csv.assoc k (kept info) = None) /\
  (~ In k downloaders.exclude_fields -> csv.assoc k (kept info) = csv.assoc k info).
Proof.
  unfold kept. induction info as [|[k' v] info [IHin IHout]]; [split; reflexivity|].
  cbn [List.filter fst].
  destruct (List.existsb (String.eqb k') downloaders.exclude_fields) eqn:Hex; cbn [negb].
  - split; [exact IHin|]. intros Hk. rewrite (IHout Hk). cbn [csv.assoc].
    destruct (String.eqb k k') eqn:Hkk; [|reflexivity].
    apply String.eqb_eq in Hkk as ->. elim Hk.
    apply existsb_exists in Hex as (x & Hx & Heq). apply String.eqb_eq in Heq as ->. exact Hx.
  - cbn [csv.assoc]. destruct (String.eqb k k') eqn:Hkk.
    + apply String.eqb_eq in Hkk as ->. split; [|reflexivity].
      intros Hk. assert (Hc : List.existsb (String.eqb k') downloaders.exclude_fields = true).
      { apply existsb_exists. exists k'. split; [exact Hk | apply String.eqb_refl]. }
      congruence.
    + split; [exact IHin | exact IHout].
Qed.

(** X21: whatever [yt_dlp] and the file system answer, what
    [download_youtube] does is a beginning of one fixed plan: the extraction
    of the information, the creation of the directory named by the sanitized
    title, the test whether the video file exists, the writing of
    [metadata.json], and then the download.  It returns only after the first
    three steps (the file was there) or after all of them, with the metadata
    and the path of the video.  The metadata is the information without the
    eight excluded fields, every other field as it was. *)
Theorem download_youtube_protocol (os : downloaders.System) (url base_dir : string) :
  (forall done o done',
     downloaders.download_youtube os url base_dir done = (o, done') ->
     exists info title new,
       done' = (done ++ new)%list /\ new <> [] /\
       new `prefix_of` youtube_plan os url base_dir title (kept info) /\
       (forall r, o = Ret r ->
          downloaders.ydl_extract_info os (done ++ [downloaders.ExtractInfo url]) = Ret info /\
          downloaders.title_of info = Ret title /\
          r = (kept info, youtube_video os base_dir title) /\
          (new = take 3 (youtube_plan os url base_dir title (kept info)) \/
           new = youtube_plan os url base_dir title (kept info))) /\
       (downloaders.os_path_exists os
          (done ++ take 3 (youtube_plan os url base_dir title (kept info))) = true ->
        length new <= 3)) /\
  (forall info k,
     (In k downloaders.exclude_fields -> csv.assoc k (kept info) = None) /\
     (~ In k downloaders.exclude_fields -> csv.assoc k (kept info) = csv.assoc k info)).
Proof.
  split; [|exact assoc_kept].
  intros done o done'. unfold downloaders.download_youtube.
  unfold andthen at 1, downloaders.perform at 1.
  destruct (downloaders.ydl_extract_info os (done ++ [downloaders.ExtractInfo url]))
    as [info|e] eqn:Hinfo.
  2:{ intros [= <- <-]. exists [], "", [downloaders.ExtractInfo url].
      split; [reflexivity|]. split; [discriminate|].
      split; [start_of youtube_plan|]. split; [discriminate|]. simpl. lia. }
  fold (kept info).
  unfold andthen at 1, effectless at 1.
  destruct (downloaders.title_of info) as [title|e] eqn:Htitle.
  2:{ intros [= <- <-]. exists info, "", [downloaders.ExtractInfo url].
      split; [reflexivity|]. split; [discriminate|].
      split; [start_of youtube_plan|]. split; [discriminate|]. simpl. lia. }
  fold (youtube_dir os base_dir title). fold (youtube_video os base_dir title).
  unfold andthen at 1, downloaders.perform at 1.
  rewrite <- !app_assoc. cbn [app].
  destruct (downloaders.os_makedirs os _) as [[]|e].
  2:{ intros [= <- <-]. exists info, title. eexists.
      split; [reflexivity|]. split; [discriminate|].
      split; [start_of youtube_plan|]. split; [discriminate|]. simpl. lia. }
  unfold andthen at 1, downloaders.perform at 1.
  rewrite <- !app_assoc. cbn [app].
  destruct (downloaders.os_path_exists os _) eqn:Hthere.
  { unfold value. intros [= <- <-]. exists info, title. eexists.
    split; [reflexivity|]. split; [discriminate|].
    split; [start_of youtube_plan|]. split; [|simpl; lia].
    intros r [= <-]. split; [reflexivity|]. split; [exact Htitle|]. split; [reflexivity|].
    left. reflexivity. }
  intros Hrun.
  assert (Hrest : follows
    (let+ _ := downloaders.save_json os
                 (downloaders.path_join os [youtube_dir os base_dir title; "metadata.json"])
                 (downloaders.Metadata (kept info)) in
     let+ _ := downloaders.perform
                 (downloaders.YdlDownload
                    (downloaders.path_join os [youtube_dir os base_dir title; "%(title)s.%(ext)s"])
                    url)
                 (downloaders.ydl_download os) in
     value (kept info, youtube_video os base_dir title))
    ([downloaders.Open
        (downloaders.path_join os [youtube_dir os base_dir title; "metadata.json"]);
      downloaders.Dump
        (downloaders.path_join os [youtube_dir os base_dir title; "metadata.json"])
        (downloaders.Metadata (kept info))]
     ++ ([downloaders.YdlDownload
            (downloaders.path_join os [youtube_dir os base_dir title; "%(title)s.%(ext)s"])
            url] ++ []))%list).
  { apply follows_andthen; [apply follows_save_json|]. intros _.
    apply follows_andthen; [apply follows_perform|]. intros _. apply follows_value. }
  destruct (Hrest _ _ _ Hrun) as (new & -> & Hp & Hr).
  exists info, title. eexists.
  split; [rewrite <- app_assoc; cbn [app]; reflexivity|]. split; [discriminate|].
  split.
  { unfold youtube_plan. do 3 apply prefix_cons. exact Hp. }
  split.
  - intros r Hret. rewrite (Hr r Hret). split; [reflexivity|]. split; [exact Htitle|]. split.
    + destruct o as [r'|]; [|discriminate]. injection Hret as ->.
      clear - Hrun. unfold andthen in Hrun.
      destruct (downloaders.save_json _ _ _ _) as [[[]|] s1]; [|discriminate].
      destruct (downloaders.perform _ _ _) as [[[]|] s2]; [|discriminate].
      now injection Hrun as <-.
    + right. reflexivity.
  - unfold youtube_plan. cbn [take]. intros Hyes. congruence.
Qed.

Lemma download_youtube_protocol_witness :
  exists info title new,
    snd (downloaders.download_youtube (machine false no_media)
           "https://youtu.be/dQw4w9WgXcQ" "./downloads" []) = new /\
    new = youtube_plan (machine false no_media) "https://youtu.be/dQw4w9WgXcQ" "./downloads"
            title (kept info) /\
    title = "A_ talk" /\ kept info = [("id", PStr "x"); ("title", PStr "A: talk")].
Proof.
  destruct (proj1 (download_youtube_protocol (machine false no_media)
                     "https://youtu.be/dQw4w9WgXcQ" "./downloads")
              [] _ _ (pair_of_fst _ _ eq_refl))
    as (info & title & new & Hnew & _ & _ & Hret & _).
  exists info, title, new. split; [exact Hnew|].
  destruct (Hret _ eq_refl) as (Hinfo & Htitle & _ & [Hn|Hn]).
  - exfalso. rewrite Hn in Hnew. apply (f_equal (@length _)) in Hnew.
    vm_compute in Hnew. discriminate.
  - split; [exact Hn|]. injection Hinfo as <-. injection Htitle as <-. split; reflexivity.
Defined.

(** X22: whatever [instaloader], the network and the file system answer,
    what [download_instagram] does is a beginning of one fixed plan: the
    post of the shortcode, the creation of the directory, the test whether
    the video file exists, the request for the video, the opening of the
    video file, one write for each chunk, and the opening and writing of
    [metadata.json].  When the file is there it returns [None] after the
    first three steps; otherwise it returns after all of them, with the
    metadata (user name, caption, likes, comments and the URL as given) and
    the path of the video. *)
Theorem download_instagram_protocol (os : downloaders.System) (url : string) (L : bool)
    (base_dir : string) :
  forall done o done',
    downloaders.download_instagram os url L base_dir done = (o, done') ->
    exists owner video_url chunks metadata new,
      done' = (done ++ new)%list /\ new <> [] /\
      new `prefix_of` instagram_plan os url L base_dir owner video_url chunks metadata /\
      (forall r, o = Ret r ->
         exists post,
           downloaders.post_from_shortcode os
             (done ++ [downloaders.FromShortcode L (downloaders.shortcode_of url)]) = Ret post /\
           downloaders.owner_username post = Ret owner /\
           ((r = None /\
             new = take 3 (instagram_plan os url L base_dir owner video_url chunks metadata)) \/
            (r = Some (metadata,
                       instagram_video os base_dir owner (downloaders.shortcode_of url)) /\
             new = instagram_plan os url L base_dir owner video_url chunks metadata /\
             downloaders.video_url post = Ret video_url /\
             (exists resp,
                downloaders.requests_get os
                  (done ++ take 4 (instagram_plan os url L base_dir owner video_url chunks
                                     metadata)) = Ret resp /\
                downloaders.chunks resp = chunks) /\
             exists caption likes comments,
               downloaders.caption post = Ret caption /\
               downloaders.likes post = Ret likes /\
               downloaders.comments post = Ret comments /\
               metadata = [ ("username", PStr owner); ("caption", caption); ("likes", likes);
                            ("comments", comments); ("url", PStr url) ]))) /\
      (downloaders.os_path_exists os
         (done ++ take 3 (instagram_plan os url L base_dir owner video_url chunks metadata))
       = true -> length new <= 3).
Proof.
  intros done o done'. unfold downloaders.download_instagram.
  unfold andthen at 1, downloaders.perform at 1.
  destruct (downloaders.post_from_shortcode os
              (done ++ [downloaders.FromShortcode L (downloaders.shortcode_of url)]))
    as [post|e] eqn:Hpost.
  2:{ intros [= <- <-]. exists "", PNone, [], []. eexists.
      split; [reflexivity|]. split; [discriminate|].
      split; [start_of instagram_plan|]. split; [discriminate|]. simpl. lia. }
  unfold andthen at 1, effectless at 1.
  destruct (downloaders.owner_username post) as [owner|e] eqn:Howner.
  2:{ intros [= <- <-]. exists "", PNone, [], []. eexists.
      split; [reflexivity|]. split; [discriminate|].
      split; [start_of instagram_plan|]. split; [discriminate|]. simpl. lia. }
  fold (instagram_dir os base_dir owner (downloaders.shortcode_of url)).
  unfold andthen at 1, downloaders.perform at 1.
  rewrite <- !app_assoc. cbn [app].
  destruct (downloaders.os_makedirs os _) as [[]|e].
  2:{ intros [= <- <-]. exists owner, PNone, [], []. eexists.
      split; [reflexivity|]. split; [discriminate|].
      split; [start_of instagram_plan|]. split; [discriminate|]. simpl. lia. }
  unfold andthen at 1, effectless at 1.
  fold (instagram_video os base_dir owner (downloaders.shortcode_of url)).
  unfold andthen at 1, downloaders.perform at 1.
  rewrite <- !app_assoc. cbn [app].
  destruct (downloaders.os_path_exists os
              (done ++ [downloaders.FromShortcode L (downloaders.shortcode_of url);
                        downloaders.Makedirs
                          (instagram_dir os base_dir owner (downloaders.shortcode_of url));
                        downloaders.PathExists
                          (instagram_video os base_dir owner (downloaders.shortcode_of url))]))
    eqn:Hthere.
  { unfold value. intros [= <- <-]. exists owner, PNone, [], []. eexists.
    split; [reflexivity|]. split; [discriminate|].
    split; [start_of instagram_plan|]. split; [|simpl; lia].
    intros r [= <-]. exists post. split; [reflexivity|]. split; [exact Howner|].
    left. split; reflexivity. }
  unfold andthen at 1, effectless at 1.
  destruct (downloaders.video_url post) as [video_url|e] eqn:Hurl.
  2:{ intros [= <- <-]. exists owner, PNone, [], []. eexists.
      split; [reflexivity|]. split; [discriminate|].
      split; [start_of instagram_plan|]. split; [discriminate|]. simpl. lia. }
  unfold andthen at 1, downloaders.perform at 1.
  rewrite <- !app_assoc. cbn [app].
  destruct (downloaders.requests_get os
              (done ++ [downloaders.FromShortcode L (downloaders.shortcode_of url);
                        downloaders.Makedirs
                          (instagram_dir os base_dir owner (downloaders.shortcode_of url));
                        downloaders.PathExists
                          (instagram_video os base_dir owner (downloaders.shortcode_of url));
                        downloaders.Get (media_meta_data.py_str video_url) [] [] true]))
    as [r|e] eqn:Hget.
  2:{ intros [= <- <-]. exists owner, video_url, [], []. eexists.
      split; [reflexivity|]. split; [discriminate|].
      split; [start_of instagram_plan|]. split; [discriminate|].
      unfold instagram_plan. cbn [app take]. intros Hyes. congruence. }
  unfold andthen at 1, effectless at 1.
  destruct (downloaders.raise_for_status r) as [[]|e].
  2:{ intros [= <- <-]. exists owner, video_url, [], []. eexists.
      split; [reflexivity|]. split; [discriminate|].
      split; [start_of instagram_plan|]. split; [discriminate|].
      unfold instagram_plan. cbn [app take]. intros Hyes. congruence. }
  unfold andthen at 1.
  destruct (downloaders.save_stream os false _ r _) as [o1 d1] eqn:Hsave.
  destruct (follows_save_stream os false _ r _ _ _ Hsave) as (n1 & -> & Hp1 & Hr1).
  assert (Hstop : forall (e : exn) (o' : outcome (option (pydict * string))) d,
             (Raise e, ((done ++ [downloaders.FromShortcode L (downloaders.shortcode_of url);
                        downloaders.Makedirs
                          (instagram_dir os base_dir owner (downloaders.shortcode_of url));
                        downloaders.PathExists
                          (instagram_video os base_dir owner (downloaders.shortcode_of url));
                        downloaders.Get (media_meta_data.py_str video_url) [] [] true])
                        ++ n1)%list) = (o', d) ->
             exists new,
               d = (done ++ new)%list /\ new <> [] /\
               new `prefix_of` instagram_plan os url L base_dir owner video_url
                                 (downloaders.chunks r) [] /\
               (forall r0 : option (pydict * string), o' = Ret r0 -> False) /\
               (downloaders.os_path_exists os
                  (done ++ take 3 (instagram_plan os url L base_dir owner video_url
                                     (downloaders.chunks r) []))
                = true -> length new <= 3)).
  { intros e o' d [= <- <-]. eexists.
    split; [rewrite <- ?app_assoc; cbn [app]; reflexivity|]. split; [discriminate|].
    split.
    { unfold instagram_plan. cbn [app]. do 4 apply prefix_cons.
      change (downloaders.Open ?p :: ?w ++ ?t)%list with ((downloaders.Open p :: w) ++ t)%list.
      now apply prefix_app_r. }
    split; [discriminate|].
    unfold instagram_plan. cbn [app take]. intros Hyes. congruence. }
  assert (Hstopped : forall (e : exn) (o' : outcome (option (pydict * string))) d,
             (Raise e, ((done ++ [downloaders.FromShortcode L (downloaders.shortcode_of url);
                        downloaders.Makedirs
                          (instagram_dir os base_dir owner (downloaders.shortcode_of url));
                        downloaders.PathExists
                          (instagram_video os base_dir owner (downloaders.shortcode_of url));
                        downloaders.Get (media_meta_data.py_str video_url) [] [] true])
                        ++ n1)%list) = (o', d) ->
             exists owner0 video_url0 chunks metadata new,
               d = (done ++ new)%list /\ new <> [] /\
               new `prefix_of` instagram_plan os url L base_dir owner0 video_url0 chunks metadata /\
               (forall r0, o' = Ret r0 ->
                  exists post0,
                    Ret post = Ret post0 /\
                    downloaders.owner_username post0 = Ret owner0 /\
                    ((r0 = None /\
                      new = take 3 (instagram_plan os url L base_dir owner0 video_url0 chunks
                                      metadata)) \/
                     (r0 = Some (metadata,
                                 instagram_video os base_dir owner0
                                   (downloaders.shortcode_of url)) /\
                      new = instagram_plan os url L base_dir owner0 video_url0 chunks metadata /\
                      downloaders.video_url post0 = Ret video_url0 /\
                      (exists resp,
                         downloaders.requests_get os
                           (done ++ take 4 (instagram_plan os url L base_dir owner0 video_url0
                                              chunks metadata)) = Ret resp /\
                         downloaders.chunks resp = chunks) /\
                      exists caption likes comments,
                        downloaders.caption post0 = Ret caption /\
                        downloaders.likes post0 = Ret likes /\
                        downloaders.comments post0 = Ret comments /\
                        metadata = [ ("username", PStr owner0); ("caption", caption);
                                     ("likes", likes); ("comments", comments);
                                     ("url", PStr url) ]))) /\
               (downloaders.os_path_exists os
                  (done ++ take 3 (instagram_plan os url L base_dir owner0 video_url0 chunks
                                     metadata))
                = true -> length new <= 3)).
  { intros e o' d Heq. destruct (Hstop e o' d Heq) as (new & Hd & Hne & Hp & Hno & Hex).
    exists owner, video_url, (downloaders.chunks r), [], new.
    split; [exact Hd|]. split; [exact Hne|]. split; [exact Hp|]. split; [|exact Hex].
    intros r0 Hr0. destruct (Hno r0 Hr0). }
  clear Hstop.
  destruct o1 as [[]|e]; [|apply Hstopped].
  specialize (Hr1 tt eq_refl). subst n1.
  unfold andthen at 1, effectless at 1.
  unfold andthen at 1, effectless at 1.
  destruct (downloaders.caption post) as [caption|e] eqn:Hcaption;
    [|intros H; apply (Hstopped e); rewrite <- H; reflexivity].
  unfold andthen at 1, effectless at 1.
  destruct (downloaders.likes post) as [likes|e] eqn:Hlikes;
    [|intros H; apply (Hstopped e); rewrite <- H; reflexivity].
  unfold andthen at 1, effectless at 1.
  destruct (downloaders.comments post) as [comments|e] eqn:Hcomments;
    [|intros H; apply (Hstopped e); rewrite <- H; reflexivity].
  clear Hstopped.
  fold (instagram_dir os base_dir owner (downloaders.shortcode_of url)).
  set (metadata := [("username", PStr owner); ("caption", caption); ("likes", likes);
                    ("comments", comments); ("url", PStr url)]).
  unfold andthen at 1.
  destruct (downloaders.save_json os _ _ _) as [o2 d2] eqn:Hjson.
  destruct (follows_save_json os _ _ _ _ _ Hjson) as (n2 & -> & Hp2 & Hr2).
  intros Hfin.
  exists owner, video_url, (downloaders.chunks r), metadata. eexists.
  split.
  { destruct o2 as [[]|e]; injection Hfin as <- <-;
      rewrite <- !app_assoc; cbn [app]; reflexivity. }
  split; [discriminate|].
  split.
  { unfold instagram_plan. cbn [app]. do 5 apply prefix_cons.
    apply prefix_app. exact Hp2. }
  split.
  - intros r0 Hret. exists post. split; [reflexivity|]. split; [exact Howner|].
    right. destruct o2 as [[]|e]; injection Hfin as <- <-; [|discriminate].
    injection Hret as <-. rewrite (Hr2 tt eq_refl).
    split; [reflexivity|]. split; [reflexivity|]. split; [exact Hurl|].
    split.
    + exists r. split; [|reflexivity]. unfold instagram_plan. cbn [app take]. exact Hget.
    + exists caption, likes, comments. repeat split; assumption.
  - unfold instagram_plan. cbn [app take]. intros Hyes. congruence.
Qed.

Lemma download_instagram_protocol_witness :
  fst (downloaders.download_instagram (machine true no_media)
         "https://www.instagram.com/reel/Cx1_aB-9/" false "./downloads" []) = Ret None /\
  exists owner video_url chunks metadata,
    snd (downloaders.download_instagram (machine false no_media)
           "https://www.instagram.com/reel/Cx1_aB-9/" false "./downloads" [])
    = instagram_plan (machine false no_media) "https://www.instagram.com/reel/Cx1_aB-9/"
        false "./downloads" owner video_url chunks metadata /\
    owner = "owner" /\
    csv.assoc "url" metadata = Some (PStr "https://www.instagram.com/reel/Cx1_aB-9/").
Proof.
  split; [reflexivity|].
  destruct (download_instagram_protocol (machine false no_media)
              "https://www.instagram.com/reel/Cx1_aB-9/" false "./downloads"
              [] _ _ (pair_of_fst _ _ eq_refl))
    as (owner & video_url & chunks & metadata & new & Hnew & _ & _ & Hret & _).
  exists owner, video_url, chunks, metadata.
  destruct (Hret _ eq_refl) as (post & Hpost & Howner & [[Hr _]|(_ & Hn & _ & _ & Hm)]);
    [discriminate Hr|].
  injection Hpost as <-. injection Howner as <-.
  destruct Hm as (caption & likes & comments & _ & _ & _ & ->).
  split; [|split; reflexivity]. rewrite <- Hn. exact Hnew.
Defined.

(** * main.py, run as a script *)


